(** * Storefront: cart ledger, checkout workflow and catalog filter

    A shallow embedding of the client code of the storefront
    ([hooks/useCart.ts], [components/CheckoutModal.tsx],
    [components/CartSidebar.tsx], the [filterProducts] function of the
    application root) together with the part of the database schema
    (tables, column types, CHECK and UNIQUE constraints, the policies of
    table [products]) that these functions run against.

    Numbers.  Quantities and stock are of type [integer].  Money columns
    are [decimal(10,2)]; amounts are counted here in hundredths, as
    integers.  The program adds the amounts of a cart in floating point
    and the column of the order rounds what it is given to two decimals:
    for a cart whose total is within the column this is the sum of the
    amounts, the rounding errors of the additions staying far below half
    a hundredth.

    Texts.  The names and descriptions of products and the search box
    are sequences of UTF-16 code units.

    Effects.  Every call to the record store either goes through or
    reports an error; a hook function threads the world (store contents,
    the schedule of outages, the log of calls, the notifications shown to
    the user) and returns the next value of its React state. *)

From Stdlib Require Import ZArith List String Ascii Bool Lia DecimalString DecimalNat.
From stdpp Require Import base list.
Import ListNotations.
Open Scope string_scope.
Open Scope list_scope.
Open Scope Z_scope.

(** ** Data model ([lib/supabase.ts] and the schema) *)

Definition uuid := string.

(** A string of the program is a sequence of UTF-16 code units.  The
    texts that the program reads unit by unit (names, descriptions, the
    search box) are kept as such; identifiers and settings, which are
    only compared, are strings of characters. *)
Definition jsstring := list N.

(** The code units of a text of the ASCII range. *)
Definition js (s : string) : jsstring := map N_of_ascii (list_ascii_of_string s).

Module Profile.
Record t := mk {
  id : uuid;
  email : string;
  full_name : option string;
  is_admin : bool
}.
End Profile.

(** Columns that none of the embedded functions reads ([image_url],
    [images], [rating], [review_count], the timestamps) are left out. *)
Module Product.
Record t := mk {
  id : uuid;
  name : jsstring;
  description : option jsstring;
  price : Z;
  category_id : option uuid;
  stock_quantity : Z;
  is_featured : bool;
  is_active : bool
}.
End Product.

(** A row of table [cart_items]. *)
Module CartRow.
Record t := mk {
  id : uuid;
  user_id : uuid;
  product_id : uuid;
  quantity : Z
}.
End CartRow.

(** [CartItem]: a cart row joined with its product, as the select
    [*, product:products( * )] returns it. *)
Module CartItem.
Record t := mk {
  id : uuid;
  user_id : uuid;
  product_id : uuid;
  quantity : Z;
  product : Product.t
}.
End CartItem.

Inductive order_status := Pending | Confirmed | Shipped | Delivered | Cancelled.
Inductive payment_status := PaymentPending | Paid | Failed | Refunded.

Record ShippingAddress := {
  fullName : string;
  address : string;
  city : string;
  postalCode : string;
  country : string
}.

(** The values of the checkout form, after [checkoutSchema] accepted
    them. *)
Record CheckoutForm := {
  form_fullName : string;
  form_email : string;
  form_address : string;
  form_city : string;
  form_postalCode : string;
  form_country : string
}.

Module Order.
Record t := mk {
  id : uuid;
  user_id : uuid;
  status : order_status;
  total_amount : Z;
  shipping_address : ShippingAddress;
  payment_status : payment_status
}.
End Order.

Module OrderItem.
Record t := mk {
  id : uuid;
  order_id : uuid;
  product_id : uuid;
  quantity : Z;
  price : Z
}.
End OrderItem.

(** The object literal that [handleCheckout] builds for each cart item,
    before the store gives it an [id]. *)
Record NewOrderItem := {
  new_order_id : uuid;
  new_product_id : uuid;
  new_quantity : Z;
  new_price : Z
}.

(** ** The record store *)

Record Store := {
  profiles : list Profile.t;
  products : list Product.t;
  cart_items : list CartRow.t;
  orders : list Order.t;
  order_items : list OrderItem.t;
  next_uuid : nat
}.

Inductive StoreError :=
| Unavailable
| CheckViolation
| ForeignKeyViolation
| NotSingleRow
| UniqueViolation
| OutOfRange.

(** The largest value of a column of type [integer], and the largest
    value of a column of type [decimal(10,2)], in hundredths. *)
Definition integer_max : Z := 2147483647.
Definition decimal_10_2_max : Z := 9999999999.

(** What a call answers: [{ data, error }]. *)
Definition Response (A : Type) : Type := (StoreError + A)%type.

Definition set_cart_items (st : Store) (rows : list CartRow.t) : Store :=
  {| profiles := profiles st; products := products st; cart_items := rows;
     orders := orders st; order_items := order_items st;
     next_uuid := next_uuid st |}.

Definition set_products (st : Store) (ps : list Product.t) : Store :=
  {| profiles := profiles st; products := ps; cart_items := cart_items st;
     orders := orders st; order_items := order_items st;
     next_uuid := next_uuid st |}.

Definition set_orders (st : Store) (os : list Order.t) : Store :=
  {| profiles := profiles st; products := products st;
     cart_items := cart_items st; orders := os;
     order_items := order_items st; next_uuid := next_uuid st |}.

Definition set_order_items (st : Store) (ls : list OrderItem.t) : Store :=
  {| profiles := profiles st; products := products st;
     cart_items := cart_items st; orders := orders st;
     order_items := ls; next_uuid := next_uuid st |}.

Definition set_next_uuid (st : Store) (n : nat) : Store :=
  {| profiles := profiles st; products := products st;
     cart_items := cart_items st; orders := orders st;
     order_items := order_items st; next_uuid := n |}.

(** [DEFAULT gen_random_uuid()]: the identifiers the store hands out are
    numbered by a counter. *)
Definition uuid_of_nat (n : nat) : uuid :=
  ("uuid-" ++ NilEmpty.string_of_uint (Nat.to_uint n))%string.

Definition gen_random_uuid (st : Store) : uuid * Store :=
  (uuid_of_nat (next_uuid st), set_next_uuid st (S (next_uuid st))).

Definition find_product (st : Store) (pid : uuid) : option Product.t :=
  List.find (fun p => String.eqb (Product.id p) pid) (products st).

Definition find_order (st : Store) (oid : uuid) : option Order.t :=
  List.find (fun o => String.eqb (Order.id o) oid) (orders st).

(** The policy ["Admins can manage products"]:
    [EXISTS (SELECT 1 FROM profiles WHERE id = auth.uid() AND is_admin)]. *)
Definition is_admin (st : Store) (uid : uuid) : bool :=
  existsb (fun p => String.eqb (Profile.id p) uid && Profile.is_admin p) (profiles st).

(** What a reader may see of table [products]: the policies
    ["Anyone can read active products"] ([is_active = true]) and
    ["Admins can manage products"]. *)
Definition readable (st : Store) (uid : uuid) (p : Product.t) : bool :=
  Product.is_active p || is_admin st uid.

Definition cart_row_of (uid pid : uuid) (r : CartRow.t) : bool :=
  String.eqb (CartRow.user_id r) uid && String.eqb (CartRow.product_id r) pid.

Definition join_product (st : Store) (r : CartRow.t) : option CartItem.t :=
  match find_product st (CartRow.product_id r) with
  | Some p =>
      Some (CartItem.mk (CartRow.id r) (CartRow.user_id r)
              (CartRow.product_id r) (CartRow.quantity r) p)
  | None => None
  end.

(** Modelled from the spec: [select(table, filter?, orderBy?, join?)] of
    the record store contract, for
    [from('cart_items').select('*, product:products( * )').eq('user_id', uid)].
    [CartItem.product] is not nullable; a row whose product is missing
    (which the foreign key of the schema excludes) is not returned.  The
    reader is taken to see the product of every row ([readable]): where
    the policy hides it the store answers null for it, which
    [CartItem.product] cannot hold.  The select asks for no order; the
    rows are given in the order of the table, which is one of the orders
    the store may answer in. *)
Definition select_cart (uid : uuid) (st : Store) : Response (list CartItem.t * Store) :=
  inr (flat_map (fun r =>
                   if String.eqb (CartRow.user_id r) uid
                   then match join_product st r with
                        | Some item => [item]
                        | None => []
                        end
                   else [])
                (cart_items st), st).

Definition set_quantity (q : Z) (r : CartRow.t) : CartRow.t :=
  CartRow.mk (CartRow.id r) (CartRow.user_id r) (CartRow.product_id r) q.

(** Modelled from the spec: [upsert(table, row, conflictKeys)] of the
    record store contract, for
    [from('cart_items').upsert({user_id, product_id, quantity}).select(..).single()].
    The call names no conflict target, so the conflict key is the primary
    key [id], which the row does not carry: the row is inserted under a
    new identifier, and a row of the same user and product makes the
    statement fail on [UNIQUE(user_id, product_id)].  [CHECK (quantity > 0)],
    the range of type [integer] and the foreign key to [products] are
    those of the schema.  The row comes back joined with its product; the
    reader is taken to see the product (see [readable]). *)
Definition upsert_cart_item (uid pid : uuid) (q : Z) (st : Store)
  : Response (CartItem.t * Store) :=
  if negb (0 <? q) then inl CheckViolation else
  if integer_max <? q then inl OutOfRange else
  match find_product st pid with
  | None => inl ForeignKeyViolation
  | Some p =>
      match List.find (cart_row_of uid pid) (cart_items st) with
      | Some _ => inl UniqueViolation
      | None =>
          let (i, st1) := gen_random_uuid st in
          inr (CartItem.mk i uid pid q p,
               set_cart_items st1 (cart_items st1 ++ [CartRow.mk i uid pid q]))
      end
  end.

(** Modelled from the spec: [update(table, patch, filter)] of the record
    store contract, for
    [from('cart_items').update({quantity}).eq('user_id', ..).eq('product_id', ..).select(..).single()].
    [single()] reports an error unless exactly one row comes back; the
    quantity is checked as for an insert.  The reader is taken to see
    the product of the row (see [readable]). *)
Definition update_cart_quantity (uid pid : uuid) (q : Z) (st : Store)
  : Response (CartItem.t * Store) :=
  match List.filter (cart_row_of uid pid) (cart_items st) with
  | [r] =>
      if negb (0 <? q) then inl CheckViolation else
      if integer_max <? q then inl OutOfRange else
      match find_product st pid with
      | None => inl NotSingleRow
      | Some p =>
          let rows := map (fun r' => if cart_row_of uid pid r'
                                     then set_quantity q r' else r')
                          (cart_items st) in
          inr (CartItem.mk (CartRow.id r) uid pid q p, set_cart_items st rows)
      end
  | _ => inl NotSingleRow
  end.

(** Modelled from the spec: [delete(table, filter)] of the record store
    contract, for
    [from('cart_items').delete().eq('user_id', ..).eq('product_id', ..)]. *)
Definition delete_cart_item (uid pid : uuid) (st : Store) : Response (unit * Store) :=
  inr (tt, set_cart_items st
             (List.filter (fun r => negb (cart_row_of uid pid r)) (cart_items st))).

(** Modelled from the spec: [delete(table, filter)], for
    [from('cart_items').delete().eq('user_id', ..)]. *)
Definition delete_cart (uid : uuid) (st : Store) : Response (unit * Store) :=
  inr (tt, set_cart_items st
             (List.filter (fun r => negb (String.eqb (CartRow.user_id r) uid)) (cart_items st))).

(** Modelled from the spec: [insert(table, row) -> row], for
    [from('orders').insert({..}).select().single()], with
    [CHECK (total_amount >= 0)] and the range of [decimal(10,2)] of the
    schema. *)
Definition insert_order (uid : uuid) (total : Z) (addr : ShippingAddress)
    (s : order_status) (ps : payment_status) (st : Store)
  : Response (Order.t * Store) :=
  if total <? 0 then inl CheckViolation else
  if decimal_10_2_max <? total then inl OutOfRange else
  let (i, st1) := gen_random_uuid st in
  let o := Order.mk i uid s total addr ps in
  inr (o, set_orders st1 (orders st1 ++ [o])).

Definition order_item_ok (st : Store) (l : NewOrderItem) : option StoreError :=
  if negb (0 <? new_quantity l) then Some CheckViolation
  else if new_price l <? 0 then Some CheckViolation
  else if integer_max <? new_quantity l then Some OutOfRange
  else if decimal_10_2_max <? new_price l then Some OutOfRange
  else match find_order st (new_order_id l), find_product st (new_product_id l) with
       | Some _, Some _ => None
       | _, _ => Some ForeignKeyViolation
       end.

Fixpoint first_violation (st : Store) (ls : list NewOrderItem) : option StoreError :=
  match ls with
  | [] => None
  | l :: ls' =>
      match order_item_ok st l with
      | Some e => Some e
      | None => first_violation st ls'
      end
  end.

Fixpoint number_order_items (n : nat) (ls : list NewOrderItem) : list OrderItem.t :=
  match ls with
  | [] => []
  | l :: ls' =>
      OrderItem.mk (uuid_of_nat n) (new_order_id l) (new_product_id l)
        (new_quantity l) (new_price l)
      :: number_order_items (S n) ls'
  end.

(** Modelled from the spec: [insert(table, rows[]) -> void], for
    [from('order_items').insert(orderItems)]: one statement, all rows or
    none; [CHECK (quantity > 0)], [CHECK (price >= 0)], the ranges of
    [integer] and [decimal(10,2)] and the two foreign keys are those of
    the schema. *)
Definition insert_order_items (ls : list NewOrderItem) (st : Store)
  : Response (unit * Store) :=
  match first_violation st ls with
  | Some e => inl e
  | None =>
      let rows := number_order_items (next_uuid st) ls in
      inr (tt, set_next_uuid
                 (set_order_items st (order_items st ++ rows))
                 (next_uuid st + length ls)%nat)
  end.

Definition set_stock (v : Z) (p : Product.t) : Product.t :=
  Product.mk (Product.id p) (Product.name p) (Product.description p)
    (Product.price p) (Product.category_id p) v
    (Product.is_featured p) (Product.is_active p).

(** The patch [{stock_quantity: v}] on the rows with [id = pid]. *)
Definition restock (pid : uuid) (v : Z) (p : Product.t) : Product.t :=
  if String.eqb (Product.id p) pid then set_stock v p else p.

(** Modelled from the spec: [update(table, patch, filter)], for
    [from('products').update({stock_quantity: v}).eq('id', pid)], under
    the schema.  The only policy of table [products] that covers UPDATE
    is ["Admins can manage products"]: for another caller no row
    qualifies, nothing is written and no error is reported (the call asks
    for no row back).  A row that is written must satisfy
    [CHECK (stock_quantity >= 0)]. *)
Definition update_product_stock (auth_uid pid : uuid) (v : Z) (st : Store)
  : Response (unit * Store) :=
  if negb (is_admin st auth_uid) then inr (tt, st) else
  match find_product st pid with
  | None => inr (tt, st)
  | Some _ =>
      if v <? 0 then inl CheckViolation else
      inr (tt, set_products st (map (restock pid v) (products st)))
  end.

(** ** The world a hook function runs in *)

Inductive Table := T_cart_items | T_orders | T_order_items | T_products.
Inductive Verb := Select | Insert | Update | Upsert | Delete.

(** One entry of the log of calls: which table, which verb, and whether
    the store answered without an error. *)
Record Call := {
  call_table : Table;
  call_verb : Verb;
  call_ok : bool
}.

Definition is_write (c : Call) : bool :=
  match call_verb c with
  | Select => false
  | _ => true
  end.

(** [react-hot-toast]. *)
Inductive Toast :=
| toast_error (msg : string)
| toast_success (msg : string).

(** [outages] schedules the calls to come: [true] at the head means the
    next call does not reach the tables and reports [Unavailable]
    (network failure, authorization denial); an exhausted schedule means
    no further outage. *)
Record World := {
  db : Store;
  outages : list bool;
  calls : list Call;
  toasts : list Toast
}.

Definition M (A : Type) : Type := World -> A * World.

Definition ret {A : Type} (a : A) : M A := fun w => (a, w).

Definition bind {A B : Type} (m : M A) (k : A -> M B) : M B :=
  fun w => let (a, w') := m w in k a w'.

Notation "x <- c ;; k" := (bind c (fun x => k))
  (at level 100, c at next level, right associativity).
Notation "c ;;; k" := (bind c (fun _ => k))
  (at level 100, right associativity).

Definition toast (t : Toast) : M unit :=
  fun w => (tt, {| db := db w; outages := outages w; calls := calls w;
                   toasts := toasts w ++ [t] |}).

(** [await supabase.from(t).<verb>(..)]: the answer of the store, logged. *)
Definition request {A : Type} (t : Table) (v : Verb)
    (q : Store -> Response (A * Store)) : M (Response A) :=
  fun w =>
    let log ok := calls w ++ [{| call_table := t; call_verb := v; call_ok := ok |}] in
    match outages w with
    | true :: rest =>
        (inl Unavailable,
         {| db := db w; outages := rest; calls := log false; toasts := toasts w |})
    | _ =>
        match q (db w) with
        | inl e =>
            (inl e, {| db := db w; outages := tl (outages w);
                       calls := log false; toasts := toasts w |})
        | inr (a, st') =>
            (inr a, {| db := st'; outages := tl (outages w);
                       calls := log true; toasts := toasts w |})
        end
    end.

(** [useAuth().user] (its [id]) and [isSupabaseConfigured()]. *)
Record Session := {
  user : option uuid;
  isSupabaseConfigured : bool
}.

(** ** [hooks/useCart.ts]

    The state of the hook is [cartItems]; each function takes the value
    of the current render and returns the value after its [setCartItems],
    if any.  The [loading] flag and [console.error] are not modelled.
    Every component that calls [useCart()] (product card, navigation bar,
    cart sidebar, checkout modal) gets a state of its own; a function
    acts on the state of the instance it belongs to and on the store. *)

(** [Array.prototype.findIndex]: [-1] when no element satisfies [f]. *)
Fixpoint findIndex {A : Type} (f : A -> bool) (l : list A) : Z :=
  match l with
  | [] => -1
  | x :: l' =>
      if f x then 0
      else let i := findIndex f l' in
           if i <? 0 then -1 else i + 1
  end.

Definition fetchCartItems (s : Session) (cartItems : list CartItem.t)
  : M (list CartItem.t) :=
  match user s, isSupabaseConfigured s with
  | Some uid, true =>
      r <- request T_cart_items Select (select_cart uid) ;;
      match r with
      | inl _ => ret cartItems
      | inr data => ret data
      end
  | _, _ => ret cartItems
  end.

(** The effect of the hook, run when [user] changes. *)
Definition useCart_effect (s : Session) (cartItems : list CartItem.t)
  : M (list CartItem.t) :=
  match user s, isSupabaseConfigured s with
  | Some _, true => fetchCartItems s cartItems
  | _, _ => ret []
  end.

Definition addToCart (s : Session) (productId : uuid) (quantity : Z)
    (cartItems : list CartItem.t) : M (list CartItem.t) :=
  match user s, isSupabaseConfigured s with
  | Some uid, true =>
      r <- request T_cart_items Upsert (upsert_cart_item uid productId quantity) ;;
      match r with
      | inl _ =>
          toast (toast_error "Failed to add to cart") ;;;
          ret cartItems
      | inr data =>
          let existingIndex :=
            findIndex (fun item => String.eqb (CartItem.product_id item) productId)
                      cartItems in
          let newItems :=
            if 0 <=? existingIndex
            then <[Z.to_nat existingIndex := data]> cartItems
            else cartItems ++ [data] in
          toast (toast_success "Added to cart") ;;;
          ret newItems
      end
  | _, _ =>
      toast (toast_error "Please sign in to add items to cart") ;;;
      ret cartItems
  end.

Definition removeFromCart (s : Session) (productId : uuid)
    (cartItems : list CartItem.t) : M (list CartItem.t) :=
  match user s, isSupabaseConfigured s with
  | Some uid, true =>
      r <- request T_cart_items Delete (delete_cart_item uid productId) ;;
      match r with
      | inl _ =>
          toast (toast_error "Failed to remove from cart") ;;;
          ret cartItems
      | inr _ =>
          toast (toast_success "Removed from cart") ;;;
          ret (List.filter
                 (fun item => negb (String.eqb (CartItem.product_id item) productId))
                 cartItems)
      end
  | _, _ => ret cartItems
  end.

Definition updateQuantity (s : Session) (productId : uuid) (quantity : Z)
    (cartItems : list CartItem.t) : M (list CartItem.t) :=
  match user s, isSupabaseConfigured s with
  | Some uid, true =>
      if quantity <=? 0 then removeFromCart s productId cartItems
      else
        r <- request T_cart_items Update (update_cart_quantity uid productId quantity) ;;
        match r with
        | inl _ =>
            toast (toast_error "Failed to update quantity") ;;;
            ret cartItems
        | inr data =>
            ret (map (fun item =>
                        if String.eqb (CartItem.product_id item) productId
                        then data else item)
                     cartItems)
        end
  | _, _ => ret cartItems
  end.

Definition clearCart (s : Session) (cartItems : list CartItem.t)
  : M (list CartItem.t) :=
  match user s, isSupabaseConfigured s with
  | Some uid, true =>
      r <- request T_cart_items Delete (delete_cart uid) ;;
      match r with
      | inl _ =>
          toast (toast_error "Failed to clear cart") ;;;
          ret cartItems
      | inr _ => ret []
      end
  | _, _ => ret cartItems
  end.

(** [cartItems.reduce((total, item) => total + item.product.price *
    item.quantity, 0)], in hundredths (see the note on numbers above). *)
Definition cartTotal (cartItems : list CartItem.t) : Z :=
  fold_left
    (fun total item => total + Product.price (CartItem.product item) * CartItem.quantity item)
    cartItems 0.

Definition cartCount (cartItems : list CartItem.t) : Z :=
  fold_left (fun total item => total + CartItem.quantity item) cartItems 0.

(** ** [components/CartSidebar.tsx]

    The button "Proceed to Checkout" is rendered under
    [user && cartItems.length > 0], on the cart state of the sidebar. *)
Definition checkout_offered (s : Session) (cartItems : list CartItem.t) : bool :=
  match user s with
  | Some _ => (0 <? length cartItems)%nat
  | None => false
  end.

(** ** [components/CheckoutModal.tsx] *)

(** Which way [handleCheckout] ended: the early return, the end of the
    [try] block (followed by [onClose()]), or the [catch] block. *)
Inductive CheckoutOutcome := NotConnected | OrderPlaced | CheckoutFailed.

Definition orderItems_of (order : Order.t) (cartItems : list CartItem.t)
  : list NewOrderItem :=
  map (fun item =>
         {| new_order_id := Order.id order;
            new_product_id := CartItem.product_id item;
            new_quantity := CartItem.quantity item;
            new_price := Product.price (CartItem.product item) |})
      cartItems.

(** [for (const item of cartItems) { .. if (stockError) throw stockError }]. *)
Fixpoint update_stock (uid : uuid) (items : list CartItem.t) : M (Response unit) :=
  match items with
  | [] => ret (inr tt)
  | item :: rest =>
      r <- request T_products Update
             (update_product_stock uid (CartItem.product_id item)
                (Product.stock_quantity (CartItem.product item) - CartItem.quantity item)) ;;
      match r with
      | inl e => ret (inl e)
      | inr _ => update_stock uid rest
      end
  end.

(** The [catch] block. *)
Definition checkout_failed (cartItems : list CartItem.t)
  : M (CheckoutOutcome * list CartItem.t) :=
  toast (toast_error "Failed to place order") ;;;
  ret (CheckoutFailed, cartItems).

Definition handleCheckout (s : Session) (data : CheckoutForm)
    (cartItems : list CartItem.t) : M (CheckoutOutcome * list CartItem.t) :=
  match user s, isSupabaseConfigured s with
  | Some uid, true =>
      r1 <- request T_orders Insert
              (insert_order uid (cartTotal cartItems)
                 {| fullName := form_fullName data;
                    address := form_address data;
                    city := form_city data;
                    postalCode := form_postalCode data;
                    country := form_country data |}
                 Confirmed Paid) ;;
      match r1 with
      | inl _ => checkout_failed cartItems
      | inr order =>
          r2 <- request T_order_items Insert
                  (insert_order_items (orderItems_of order cartItems)) ;;
          match r2 with
          | inl _ => checkout_failed cartItems
          | inr _ =>
              r3 <- update_stock uid cartItems ;;
              match r3 with
              | inl _ => checkout_failed cartItems
              | inr _ =>
                  cleared <- clearCart s cartItems ;;
                  toast (toast_success "Order placed successfully!") ;;;
                  ret (OrderPlaced, cleared)
              end
          end
      end
  | _, _ =>
      toast (toast_error "Please connect to Supabase first") ;;;
      ret (NotConnected, cartItems)
  end.

(** ** [filterProducts] of the application root

    [trim] strips, at both ends, the white space and the line
    terminators of the language: U+0009 to U+000D, U+0020, U+00A0,
    U+1680, U+2000 to U+200A, U+2028, U+2029, U+202F, U+205F, U+3000 and
    U+FEFF.  [toLowerCase] is the method of the built-in string; its
    table is that of the Unicode standard and is not written out here:
    the filter takes it as a parameter, and what is proved of the filter
    holds whatever [toLowerCase] maps a string to. *)

Definition is_whitespace (c : N) : bool :=
  (((9 <=? c) && (c <=? 13)) || (c =? 32) || (c =? 160) || (c =? 5760)
   || ((8192 <=? c) && (c <=? 8202)) || (c =? 8232) || (c =? 8233)
   || (c =? 8239) || (c =? 8287) || (c =? 12288) || (c =? 65279))%N.

Fixpoint trimStart (s : jsstring) : jsstring :=
  match s with
  | [] => []
  | c :: s' => if is_whitespace c then trimStart s' else s
  end.

Fixpoint trimEnd (s : jsstring) : jsstring :=
  match s with
  | [] => []
  | c :: s' =>
      match trimEnd s' with
      | [] => if is_whitespace c then [] else [c]
      | t => c :: t
      end
  end.

Definition trim (s : jsstring) : jsstring := trimEnd (trimStart s).

(** Truthiness of a string: every string but the empty one. *)
Definition truthy (s : string) : bool := negb (String.eqb s "").

Definition truthy_text (s : jsstring) : bool :=
  match s with
  | [] => false
  | _ :: _ => true
  end.

(** [s.startsWith(sub)] and [s.includes(sub)]. *)
Fixpoint startsWith (s sub : jsstring) {struct sub} : bool :=
  match sub, s with
  | [], _ => true
  | c :: sub', d :: s' => (c =? d)%N && startsWith s' sub'
  | _ :: _, [] => false
  end.

Fixpoint includes (s sub : jsstring) : bool :=
  startsWith s sub ||
  match s with
  | [] => false
  | _ :: s' => includes s' sub
  end.

(** The callback of the search filter; [product.description?.toLowerCase()..]
    is [undefined], hence falsy, when the description is absent. *)
Definition search_hit (toLowerCase : jsstring -> jsstring) (searchQuery : jsstring)
    (product : Product.t) : bool :=
  includes (toLowerCase (Product.name product)) (toLowerCase searchQuery) ||
  match Product.description product with
  | Some d => includes (toLowerCase d) (toLowerCase searchQuery)
  | None => false
  end.

(** [product.category_id === selectedCategory]. *)
Definition category_hit (selectedCategory : string) (product : Product.t) : bool :=
  match Product.category_id product with
  | Some c => String.eqb c selectedCategory
  | None => false
  end.

(** [selectedCategory] is [string | null]; the value written by
    [setFilteredProducts] is returned. *)
Definition filterProducts (toLowerCase : jsstring -> jsstring)
    (products : list Product.t) (searchQuery : jsstring)
    (selectedCategory : option string) : list Product.t :=
  let filtered := products in
  let filtered :=
    if truthy_text (trim searchQuery)
    then List.filter (search_hit toLowerCase searchQuery) filtered
    else filtered in
  let filtered :=
    match selectedCategory with
    | Some c => if truthy c then List.filter (category_hit c) filtered else filtered
    | None => filtered
    end in
  filtered.

(** Modelled from the spec: a product is kept when its name or its
    description contains the query, case-insensitively, and, if a
    category is selected, when its category is that one.  A text
    contains a query case-insensitively when, both put in lower case, the
    query is a part of the text. *)
Definition contains_ci (toLowerCase : jsstring -> jsstring) (text query : jsstring)
  : Prop :=
  exists before after,
    toLowerCase text = before ++ toLowerCase query ++ after.

(** Modelled from the spec: the same where lower case is taken unit by
    unit: a part of the text is the query up to the case of each unit. *)
Definition contains_up_to_case (lower : N -> N) (text query : jsstring) : Prop :=
  exists before hit after,
    text = before ++ hit ++ after /\ map lower hit = map lower query.

Definition matches_query (toLowerCase : jsstring -> jsstring) (query : jsstring)
    (p : Product.t) : Prop :=
  contains_ci toLowerCase (Product.name p) query \/
  exists d, Product.description p = Some d /\ contains_ci toLowerCase d query.

Definition matches_category (categoryId : option string) (p : Product.t) : Prop :=
  match categoryId with
  | Some c => c <> "" -> Product.category_id p = Some c
  | None => True
  end.

(** [kept] is [l] without the elements that fail [P], the others in
    their order: the elements of [l] that satisfy [P], exactly. *)
Inductive keeps_exactly {A : Type} (P : A -> Prop) : list A -> list A -> Prop :=
| keeps_nil : keeps_exactly P [] []
| keeps_keep x l kept :
    P x -> keeps_exactly P l kept -> keeps_exactly P (x :: l) (x :: kept)
| keeps_drop x l kept :
    ~ P x -> keeps_exactly P l kept -> keeps_exactly P (x :: l) kept.

(** Modelled from the spec: the filter as the specification words it. *)
Definition filter_as_specified (toLowerCase : jsstring -> jsstring)
    (products : list Product.t) (query : jsstring)
    (categoryId : option string) (result : list Product.t) : Prop :=
  keeps_exactly (fun p => matches_query toLowerCase query p
                          /\ matches_category categoryId p)
    products result.

(** [toLowerCase] on the texts of the ASCII range: the letters [A] to
    [Z] are mapped to [a] to [z], every other unit of that range is
    left.  The examples, whose texts are of that range, are run with
    it. *)
Definition lower_unit (c : N) : N :=
  if ((65 <=? c) && (c <=? 90))%N then (c + 32)%N else c.

Definition toLowerCase_ascii (s : jsstring) : jsstring := map lower_unit s.

(** A product without a space in its name and without description. *)
Definition plain_shoes : Product.t :=
  Product.mk "prod-plain" (js "Shoes") None 4999 None 10 false true.

(** ** Predicates used in the statements *)

(** The calls logged between two worlds. *)
Definition new_calls (w w' : World) : list Call :=
  skipn (length (calls w)) (calls w').

Definition every_call_succeeded (w w' : World) : Prop :=
  Forall (fun c => call_ok c = true) (new_calls w w').

Definition store_reported_error (w w' : World) : Prop :=
  Exists (fun c => call_ok c = false) (new_calls w w').

Definition no_write_issued (w w' : World) : Prop :=
  Forall (fun c => is_write c = false) (new_calls w w').

(** The stock of a product in the store. *)
Definition stock_of (st : Store) (pid : uuid) : option Z :=
  option_map Product.stock_quantity (find_product st pid).

Definition price_of (st : Store) (pid : uuid) : option Z :=
  option_map Product.price (find_product st pid).

(** [CHECK (stock_quantity >= 0)] holds of every row. *)
Definition stock_nonnegative (st : Store) : Prop :=
  Forall (fun p => 0 <= Product.stock_quantity p) (products st).

(** The cart rows of a user in the store, and the entries of a product in
    the state of the hook. *)
Definition rows_of (st : Store) (uid pid : uuid) : list CartRow.t :=
  List.filter (cart_row_of uid pid) (cart_items st).

Definition rows_of_user (st : Store) (uid : uuid) : list CartRow.t :=
  List.filter (fun r => String.eqb (CartRow.user_id r) uid) (cart_items st).

Definition entries_of (cartItems : list CartItem.t) (pid : uuid) : list CartItem.t :=
  List.filter (fun item => String.eqb (CartItem.product_id item) pid) cartItems.

(** The joined product of a cart entry carries the stock, respectively
    the price, that the store holds for it now. *)
Definition stock_in_sync (st : Store) (item : CartItem.t) : Prop :=
  stock_of st (CartItem.product_id item)
  = Some (Product.stock_quantity (CartItem.product item)).

Definition price_in_sync (st : Store) (item : CartItem.t) : Prop :=
  price_of st (CartItem.product_id item)
  = Some (Product.price (CartItem.product item)).

(** Sum of price times quantity over order lines. *)
Definition lines_total (ls : list OrderItem.t) : Z :=
  fold_left (fun total l => total + OrderItem.price l * OrderItem.quantity l) ls 0.

(** The stock updates of the checkout loop, on the tables alone. *)
Fixpoint apply_stock (uid : uuid) (items : list CartItem.t) (st : Store)
  : Response Store :=
  match items with
  | [] => inr st
  | item :: rest =>
      match update_product_stock uid (CartItem.product_id item)
              (Product.stock_quantity (CartItem.product item) - CartItem.quantity item)
              st with
      | inl e => inl e
      | inr (_, st') => apply_stock uid rest st'
      end
  end.

(** ** Sample data

    Rows of the seed data of the schema, an administrator and a customer;
    used to run the functions on concrete inputs. *)

Definition headphones : Product.t :=
  Product.mk "prod-headphones" (js "Wireless Headphones")
    (Some (js "Premium wireless headphones with noise cancellation"))
    19999 (Some "cat-electronics") 50 true true.

Definition smart_watch : Product.t :=
  Product.mk "prod-watch" (js "Smart Watch")
    (Some (js "Advanced fitness tracking and smart notifications"))
    29999 (Some "cat-electronics") 30 true true.

Definition tshirt : Product.t :=
  Product.mk "prod-tshirt" (js "Designer T-Shirt")
    (Some (js "Premium cotton t-shirt with modern design"))
    2999 (Some "cat-clothing") 100 false true.

Definition running_shoes : Product.t :=
  Product.mk "prod-shoes" (js "Running Shoes")
    (Some (js "Comfortable running shoes for daily exercise"))
    8999 (Some "cat-clothing") 75 true true.

Definition sample_store : Store :=
  {| profiles := [Profile.mk "admin-1" "admin@shop.test" None true;
                  Profile.mk "user-1" "user@shop.test" (Some "Uma") false];
     products := [headphones; smart_watch; tshirt; running_shoes];
     cart_items := [];
     orders := [];
     order_items := [];
     next_uuid := 0 |}.

Definition world_of (st : Store) : World :=
  {| db := st; outages := []; calls := []; toasts := [] |}.

Definition customer : Session :=
  {| user := Some "user-1"; isSupabaseConfigured := true |}.

Definition administrator : Session :=
  {| user := Some "admin-1"; isSupabaseConfigured := true |}.

Definition sample_form : CheckoutForm :=
  {| form_fullName := "Uma"; form_email := "user@shop.test";
     form_address := "1 Main Street"; form_city := "Springfield";
     form_postalCode := "12345"; form_country := "US" |}.

(** The address object that [handleCheckout] stores with the order. *)
Definition shipping_of (data : CheckoutForm) : ShippingAddress :=
  {| fullName := form_fullName data;
     address := form_address data;
     city := form_city data;
     postalCode := form_postalCode data;
     country := form_country data |}.

Definition headphones_entry (uid : uuid) (q : Z) : CartItem.t :=
  CartItem.mk "cart-1" uid "prod-headphones" q headphones.

Definition watch_entry (uid : uuid) (q : Z) : CartItem.t :=
  CartItem.mk "cart-2" uid "prod-watch" q smart_watch.

(** The sample store with the two cart rows of [uid]. *)
Definition store_with_cart (uid : uuid) (q1 q2 : Z) : Store :=
  set_cart_items sample_store
    [CartRow.mk "cart-1" uid "prod-headphones" q1;
     CartRow.mk "cart-2" uid "prod-watch" q2].

(** The sample store with the cart of one user holding the headphones
    alone, and the entry that the store returns when the watch is added
    to it. *)
Definition store_with_headphones (uid : uuid) (q : Z) : Store :=
  set_cart_items sample_store [CartRow.mk "cart-1" uid "prod-headphones" q].

Definition added_watch_entry (uid : uuid) (q : Z) : CartItem.t :=
  CartItem.mk (uuid_of_nat 0) uid "prod-watch" q smart_watch.

(** A world whose next call meets an outage. *)
Definition world_down (st : Store) : World :=
  {| db := st; outages := [true]; calls := []; toasts := [] |}.

(** Two stores that differ at most in table [products]. *)
Definition same_but_products (st st' : Store) : Prop :=
  profiles st' = profiles st /\ cart_items st' = cart_items st
  /\ orders st' = orders st /\ order_items st' = order_items st
  /\ next_uuid st' = next_uuid st.

(** The outcome that the specification gives for the checkout of a cart:
    one more Order row, two more Order Lines of that order whose prices
    times quantities add up to its total, the stock of every product of
    the cart reduced by the quantity bought, the cart empty (state of the
    hook and rows of the user). *)
Definition two_lines_checkout_as_specified (uid : uuid)
    (cartItems : list CartItem.t) (w : World)
    (run : CheckoutOutcome * list CartItem.t * World) : Prop :=
  let w' := snd run in
  (exists order l1 l2,
      orders (db w') = orders (db w) ++ [order]
      /\ order_items (db w') = order_items (db w) ++ [l1; l2]
      /\ OrderItem.order_id l1 = Order.id order
      /\ OrderItem.order_id l2 = Order.id order
      /\ lines_total [l1; l2] = Order.total_amount order)
  /\ (forall item before,
         In item cartItems ->
         stock_of (db w) (CartItem.product_id item) = Some before ->
         stock_of (db w') (CartItem.product_id item)
         = Some (before - CartItem.quantity item))
  /\ snd (fst run) = []
  /\ rows_of_user (db w') uid = [].

(** A cart entry fetched when the stock of the headphones was 60; the
    sample store holds 50 of them by now. *)
Definition stale_headphones_entry (uid : uuid) (q : Z) : CartItem.t :=
  CartItem.mk "cart-1" uid "prod-headphones" q (set_stock 60 headphones).

(** The stock rule in the words of the specification: a checkout goes
    through only if the stock that each product has before the purchase
    covers the quantity bought, and no stock is negative afterwards. *)
Definition stock_rule_as_specified (cartItems : list CartItem.t) (w : World)
    (run : CheckoutOutcome * list CartItem.t * World) : Prop :=
  (fst (fst run) = OrderPlaced ->
   forall item s,
     In item cartItems ->
     stock_of (db w) (CartItem.product_id item) = Some s ->
     CartItem.quantity item <= s)
  /\ stock_nonnegative (db (snd run)).

(** The sample store when a single pair of headphones is left. *)
Definition store_last_unit (uid : uuid) (q : Z) : Store :=
  set_cart_items
    (set_products sample_store (map (restock "prod-headphones" 1) (products sample_store)))
    [CartRow.mk "cart-1" uid "prod-headphones" q].

(** The cart entry as that store returns it. *)
Definition last_unit_entry (uid : uuid) (q : Z) : CartItem.t :=
  CartItem.mk "cart-1" uid "prod-headphones" q (set_stock 1 headphones).

(** A cart entry fetched when five pairs were left. *)
Definition earlier_headphones_entry (uid : uuid) (q : Z) : CartItem.t :=
  CartItem.mk "cart-1" uid "prod-headphones" q (set_stock 5 headphones).

(** ** Names for the steps of the checkout *)

Definition response_ok {A : Type} (r : Response A) : bool :=
  match r with
  | inl _ => false
  | inr _ => true
  end.

(** An entry of the cart state that is of another product. *)
Definition other_product (productId : uuid) (item : CartItem.t) : Prop :=
  CartItem.product_id item <> productId.

(** The first two requests of [handleCheckout]. *)
Definition order_insert (uid : uuid) (data : CheckoutForm) (cartItems : list CartItem.t)
  : M (Response Order.t) :=
  request T_orders Insert
    (insert_order uid (cartTotal cartItems) (shipping_of data) Confirmed Paid).

Definition order_items_insert (order : Order.t) (cartItems : list CartItem.t)
  : M (Response unit) :=
  request T_order_items Insert (insert_order_items (orderItems_of order cartItems)).

(** The order that [handleCheckout] asks the store to insert. *)
Definition order_of (uid : uuid) (data : CheckoutForm) (cartItems : list CartItem.t)
    (st : Store) : Order.t :=
  Order.mk (uuid_of_nat (next_uuid st)) uid Confirmed (cartTotal cartItems)
    (shipping_of data) Paid.

Definition lines_of (uid : uuid) (data : CheckoutForm) (cartItems : list CartItem.t)
    (st : Store) : list OrderItem.t :=
  number_order_items (S (next_uuid st))
    (orderItems_of (order_of uid data cartItems st) cartItems).


(** The rule of the specification for an empty cart: the checkout is
    turned down, no Order row is created and no write is issued. *)
Definition rejected_before_any_write (s : Session) (data : CheckoutForm) (w : World)
  : Prop :=
  let run := handleCheckout s data [] w in
  fst (fst run) <> OrderPlaced
  /\ orders (db (snd run)) = orders (db w)
  /\ no_write_issued w (snd run).

(** ** Changes of the catalog, and what may happen after a checkout *)

Definition set_price (v : Z) (p : Product.t) : Product.t :=
  Product.mk (Product.id p) (Product.name p) (Product.description p)
    v (Product.category_id p) (Product.stock_quantity p)
    (Product.is_featured p) (Product.is_active p).

Definition reprice (pid : uuid) (v : Z) (p : Product.t) : Product.t :=
  if String.eqb (Product.id p) pid then set_price v p else p.

(** Modelled from the spec: a change of the price of a catalog product,
    [update('products', {price: v}, id = pid)] in the record store
    contract, under the product policy and [CHECK (price >= 0)] of the
    schema.  No function of the client issues it; an administrator does,
    by other means. *)
Definition update_product_price (auth_uid pid : uuid) (v : Z) (st : Store)
  : Response (unit * Store) :=
  if negb (is_admin st auth_uid) then inr (tt, st) else
  match find_product st pid with
  | None => inr (tt, st)
  | Some _ =>
      if v <? 0 then inl CheckViolation else
      inr (tt, set_products st (map (reprice pid v) (products st)))
  end.

(** One thing that happens in the world: a function of the cart ledger
    or a checkout, in any session and on any cart state, or a change of a
    catalog price. *)
Inductive activity : World -> World -> Prop :=
| act_price auth_uid pid v w :
    activity w (snd (request T_products Update (update_product_price auth_uid pid v) w))
| act_load s cartItems w :
    activity w (snd (useCart_effect s cartItems w))
| act_fetch s cartItems w :
    activity w (snd (fetchCartItems s cartItems w))
| act_add s productId quantity cartItems w :
    activity w (snd (addToCart s productId quantity cartItems w))
| act_update s productId quantity cartItems w :
    activity w (snd (updateQuantity s productId quantity cartItems w))
| act_remove s productId cartItems w :
    activity w (snd (removeFromCart s productId cartItems w))
| act_clear s cartItems w :
    activity w (snd (clearCart s cartItems w))
| act_checkout s data cartItems w :
    activity w (snd (handleCheckout s data cartItems w)).

Inductive later : World -> World -> Prop :=
| later_now w : later w w
| later_then w w1 w2 : later w w1 -> activity w1 w2 -> later w w2.

(** The Order Lines that a run has added to the table. *)
Definition new_lines (w w' : World) : list OrderItem.t :=
  skipn (length (order_items (db w))) (order_items (db w')).

(** The price rule in the words of the specification: every inserted
    Order Line carries the price that its product has in the catalog
    when the order is placed. *)
Definition lines_at_catalog_price (w w' : World) : Prop :=
  Forall (fun l => price_of (db w) (OrderItem.product_id l) = Some (OrderItem.price l))
         (new_lines w w').

(** The sample store after the price of the headphones went up. *)
Definition store_repriced (uid : uuid) (q1 q2 : Z) : Store :=
  set_products (store_with_cart uid q1 q2)
    (map (reprice "prod-headphones" 24999) (products sample_store)).

(** [filterProducts] as one pass with one test. *)
Definition kept_by_code (toLowerCase : jsstring -> jsstring) (searchQuery : jsstring)
    (selectedCategory : option string) (p : Product.t) : bool :=
  (if truthy_text (trim searchQuery) then search_hit toLowerCase searchQuery p else true)
  && match selectedCategory with
     | Some c => if truthy c then category_hit c p else true
     | None => true
     end.


(** ** Well-formed carts

    [UNIQUE(user_id, product_id)] on table [cart_items], and its
    counterpart in the state of the hook. *)
Definition unique_in_store (st : Store) : Prop :=
  forall uid pid, (length (rows_of st uid pid) <= 1)%nat.

Definition unique_in_cart (cartItems : list CartItem.t) : Prop :=
  forall pid, (length (entries_of cartItems pid) <= 1)%nat.

(** ** Further notions for the cart ledger *)

(** No identity, or no configured client: the guard
    [!user || !isSupabaseConfigured()] of every function. *)
Definition signed_out (s : Session) : Prop :=
  user s = None \/ isSupabaseConfigured s = false.

(** The columns of table [cart_items] in a [CartItem]. *)
Definition row_of (item : CartItem.t) : CartRow.t :=
  CartRow.mk (CartItem.id item) (CartItem.user_id item)
    (CartItem.product_id item) (CartItem.quantity item).

(** The cart state holds the cart rows of the user, row by row, in the
    order of the table. *)
Definition mirrors (st : Store) (uid : uuid) (cartItems : list CartItem.t) : Prop :=
  map row_of cartItems = rows_of_user st uid.

(** The foreign key of [cart_items] to [products]. *)
Definition products_referenced (st : Store) : Prop :=
  Forall (fun r => find_product st (CartRow.product_id r) <> None) (cart_items st).

(** With a notification added. *)
Definition notified (t : Toast) (w : World) : World :=
  {| db := db w; outages := outages w; calls := calls w;
     toasts := toasts w ++ [t] |}.

(** What [select_cart] answers on a store. *)
Definition cart_of (st : Store) (uid : uuid) : list CartItem.t :=
  match select_cart uid st with
  | inr (items, _) => items
  | inl _ => []
  end.

(** The patch of [update({quantity})], on the rows of one pair (user,
    product). *)
Definition overwrite (uid pid : uuid) (q : Z) (r : CartRow.t) : CartRow.t :=
  if cart_row_of uid pid r then set_quantity q r else r.

(** What a statement on the cart of [uid] may change in the store: rows
    of [uid] in [cart_items] and the counter of identifiers, nothing
    else. *)
Definition only_cart_of (uid : uuid) (st st' : Store) : Prop :=
  profiles st' = profiles st
  /\ products st' = products st
  /\ orders st' = orders st
  /\ order_items st' = order_items st
  /\ (forall other, other <> uid -> rows_of_user st' other = rows_of_user st other)
  /\ (next_uuid st <= next_uuid st')%nat.

(** A cart row joined with a product. *)
Definition joined (p : Product.t) (r : CartRow.t) : CartItem.t :=
  CartItem.mk (CartRow.id r) (CartRow.user_id r) (CartRow.product_id r)
    (CartRow.quantity r) p.

(** What [CHECK (quantity > 0)] and the foreign key to [products] turn
    down in an upsert. *)
Definition quantity_not_positive_or_unknown (q : Z) (found : option Product.t) : Prop :=
  q <= 0 \/ found = None.

(** ** The buttons of [components/CartSidebar.tsx] and [components/ProductCard.tsx]

    The handlers of one entry of the sidebar:
    [updateQuantity(item.product_id, item.quantity - 1)],
    [updateQuantity(item.product_id, item.quantity + 1)] and
    [removeFromCart(item.product_id)]. *)
Definition minus_click (s : Session) (item : CartItem.t)
    (cartItems : list CartItem.t) : M (list CartItem.t) :=
  updateQuantity s (CartItem.product_id item) (CartItem.quantity item - 1) cartItems.

Definition plus_click (s : Session) (item : CartItem.t)
    (cartItems : list CartItem.t) : M (list CartItem.t) :=
  updateQuantity s (CartItem.product_id item) (CartItem.quantity item + 1) cartItems.

Definition remove_click (s : Session) (item : CartItem.t)
    (cartItems : list CartItem.t) : M (list CartItem.t) :=
  removeFromCart s (CartItem.product_id item) cartItems.

(** [handleAddToCart] of the product card: [addToCart(product.id)], the
    quantity taking its default [1]. *)
Definition handleAddToCart (s : Session) (product : Product.t)
    (cartItems : list CartItem.t) : M (list CartItem.t) :=
  addToCart s (Product.id product) 1 cartItems.

(** The entry that replaces those of a product in the cart state. *)
Definition replaced (pid : uuid) (data : CartItem.t) (item : CartItem.t) : CartItem.t :=
  if String.eqb (CartItem.product_id item) pid then data else item.

(** ** What the CHECK constraints give the cart

    [CHECK (quantity > 0)] on [cart_items] and [CHECK (price >= 0)] on
    [products], as a property of the rows of a store, and the same two
    bounds on the entries of a cart state. *)
Definition checks_hold (st : Store) : Prop :=
  Forall (fun r => 0 < CartRow.quantity r) (cart_items st)
  /\ Forall (fun p => 0 <= Product.price p) (products st).

Definition well_formed (cartItems : list CartItem.t) : Prop :=
  Forall (fun item => 0 < CartItem.quantity item
                      /\ 0 <= Product.price (CartItem.product item)) cartItems.

(** The reader may see every product of the catalog: each is active,
    or the reader is an administrator.  Then no answer of the store
    carries null for a product. *)
Definition catalog_readable (st : Store) (uid : uuid) : Prop :=
  Forall (fun p => readable st uid p = true) (products st).

(** ** The stages of a checkout

    [handleCheckout] is a sequence of calls inside one [try] block; the
    stage is the call at which it ended: the insert of the order, the
    insert of the lines, the stock update of the entry after the first
    [k] entries, or the call of [clearCart] (with whether the store
    cleared the cart). *)
Inductive CheckoutStage :=
| AtOrder
| AtOrderItems
| AtStock (k : nat)
| AtClear (cleared : bool).

Definition call (t : Table) (v : Verb) (ok : bool) : Call :=
  {| call_table := t; call_verb := v; call_ok := ok |}.

(** The calls of a checkout of [n] entries that ended at a stage. *)
Definition log_of (n : nat) (stage : CheckoutStage) : list Call :=
  match stage with
  | AtOrder => [call T_orders Insert false]
  | AtOrderItems => [call T_orders Insert true; call T_order_items Insert false]
  | AtStock k =>
      [call T_orders Insert true; call T_order_items Insert true]
      ++ repeat (call T_products Update true) k ++ [call T_products Update false]
  | AtClear cleared =>
      [call T_orders Insert true; call T_order_items Insert true]
      ++ repeat (call T_products Update true) n ++ [call T_cart_items Delete cleared]
  end.

Definition result_of (cartItems : list CartItem.t) (stage : CheckoutStage)
  : CheckoutOutcome * list CartItem.t :=
  match stage with
  | AtClear true => (OrderPlaced, [])
  | AtClear false => (OrderPlaced, cartItems)
  | _ => (CheckoutFailed, cartItems)
  end.

Definition toasts_of (stage : CheckoutStage) : list Toast :=
  match stage with
  | AtClear true => [toast_success "Order placed successfully!"]
  | AtClear false =>
      [toast_error "Failed to clear cart"; toast_success "Order placed successfully!"]
  | _ => [toast_error "Failed to place order"]
  end.

(** The store once the order, and once the order and its lines, have
    been inserted. *)
Definition with_order (uid : uuid) (data : CheckoutForm) (cartItems : list CartItem.t)
    (st : Store) : Store :=
  set_orders (set_next_uuid st (S (next_uuid st)))
    (orders st ++ [order_of uid data cartItems st]).

Definition with_lines (uid : uuid) (data : CheckoutForm) (cartItems : list CartItem.t)
    (st : Store) : Store :=
  let st1 := with_order uid data cartItems st in
  set_next_uuid
    (set_order_items st1 (order_items st1 ++ lines_of uid data cartItems st))
    (next_uuid st1 + length cartItems)%nat.

(** The tables a checkout leaves when it ended at a stage. *)
Definition tables_of (uid : uuid) (data : CheckoutForm) (cartItems : list CartItem.t)
    (st : Store) (stage : CheckoutStage) (st' : Store) : Prop :=
  match stage with
  | AtOrder => st' = st
  | AtOrderItems => st' = with_order uid data cartItems st
  | AtStock k =>
      (k < length cartItems)%nat
      /\ apply_stock uid (firstn k cartItems) (with_lines uid data cartItems st) = inr st'
  | AtClear false =>
      apply_stock uid cartItems (with_lines uid data cartItems st) = inr st'
  | AtClear true =>
      exists st3,
        apply_stock uid cartItems (with_lines uid data cartItems st) = inr st3
        /\ st' = set_cart_items st3
                   (List.filter (fun r => negb (String.eqb (CartRow.user_id r) uid))
                      (cart_items st3))
  end.

(** A world whose calls go through but for the one after the first
    [n], which meets an outage. *)
Definition world_down_after (n : nat) (st : Store) : World :=
  {| db := st; outages := repeat false n ++ [true]; calls := []; toasts := [] |}.

(** No outage is scheduled: every call to come reaches the store. *)
Definition reachable (w : World) : Prop :=
  Forall (fun down => down = false) (outages w).

(** The entries hold what the columns of the schema can hold: a
    quantity and a stock within [integer], a price within
    [decimal(10,2)].  Entries read from the store are such. *)
Definition fits_columns (cartItems : list CartItem.t) : Prop :=
  Forall (fun item =>
            CartItem.quantity item <= integer_max
            /\ Product.price (CartItem.product item) <= decimal_10_2_max
            /\ 0 <= Product.stock_quantity (CartItem.product item) <= integer_max)
         cartItems.

(** Every entry asks for no more than the stock its product snapshot shows. *)
Definition stock_covers (cartItems : list CartItem.t) : Prop :=
  Forall (fun item =>
            CartItem.quantity item <= Product.stock_quantity (CartItem.product item))
         cartItems.

(** A product without its stock: what the stock updates of a checkout
    must leave alone. *)
Definition forget_stock (p : Product.t) : Product.t := set_stock 0 p.

(** The checkout form with another e-mail address. *)
Definition with_email (data : CheckoutForm) (email : string) : CheckoutForm :=
  {| form_fullName := form_fullName data; form_email := email;
     form_address := form_address data; form_city := form_city data;
     form_postalCode := form_postalCode data; form_country := form_country data |}.

(** ** The sections of the page (application root)

    [filteredProducts.filter(product => product.is_featured).slice(0, 4)]. *)
Definition featuredProducts (filteredProducts : list Product.t) : list Product.t :=
  firstn 4 (List.filter Product.is_featured filteredProducts).

(** Truthiness of [selectedCategory], a [string | null]. *)
Definition selected (selectedCategory : option string) : bool :=
  match selectedCategory with
  | Some c => truthy c
  | None => false
  end.

(** The hero section is rendered under [!searchQuery && !selectedCategory]. *)
Definition hero_shown (searchQuery : jsstring) (selectedCategory : option string) : bool :=
  negb (truthy_text searchQuery) && negb (selected selectedCategory).

(** The featured section: [!searchQuery && !selectedCategory &&
    featuredProducts.length > 0]. *)
Definition featured_shown (searchQuery : jsstring) (selectedCategory : option string)
    (filteredProducts : list Product.t) : bool :=
  negb (truthy_text searchQuery) && negb (selected selectedCategory)
  && (0 <? length (featuredProducts filteredProducts))%nat.

(** The heading of the list: [searchQuery ? `Search Results for ..` :
    selectedCategory ? `.. Products` : 'All Products']. *)
Inductive Heading :=
| SearchResultsFor (searchQuery : jsstring)
| CategoryProducts (selectedCategory : string)
| AllProducts.

Definition heading (searchQuery : jsstring) (selectedCategory : option string) : Heading :=
  if truthy_text searchQuery then SearchResultsFor searchQuery
  else match selectedCategory with
       | Some c => if truthy c then CategoryProducts c else AllProducts
       | None => AllProducts
       end.

(** The button "View All Products": rendered when the list is empty,
    under [(searchQuery || selectedCategory)]. *)
Definition view_all_offered (searchQuery : jsstring) (selectedCategory : option string)
    (filteredProducts : list Product.t) : bool :=
  (length filteredProducts =? 0)%nat
  && (truthy_text searchQuery || selected selectedCategory).

(** ** [lib/supabase.ts]: the configuration

    [supabaseUrl] and [supabaseAnonKey] are
    [import.meta.env.VITE_.. || ''], the client is
    [supabaseUrl && supabaseAnonKey ? createClient(..) : null] and
    [isSupabaseConfigured()] is [!!(supabaseUrl && supabaseAnonKey && supabase)].
    The client is modelled by what it was created with. *)
Module Config.

Record Env := {
  VITE_SUPABASE_URL : option string;
  VITE_SUPABASE_ANON_KEY : option string
}.

Record Client := createClient {
  client_url : string;
  client_key : string
}.

Definition or_empty (v : option string) : string :=
  match v with
  | Some s => if truthy s then s else ""
  | None => ""
  end.

Definition supabaseUrl (env : Env) : string := or_empty (VITE_SUPABASE_URL env).
Definition supabaseAnonKey (env : Env) : string := or_empty (VITE_SUPABASE_ANON_KEY env).

Definition supabase (env : Env) : option Client :=
  if truthy (supabaseUrl env) && truthy (supabaseAnonKey env)
  then Some (createClient (supabaseUrl env) (supabaseAnonKey env))
  else None.

Definition isSupabaseConfigured (env : Env) : bool :=
  truthy (supabaseUrl env) && truthy (supabaseAnonKey env)
  && match supabase env with Some _ => true | None => false end.

End Config.

(** ** [hooks/useAuth.ts]: [fetchProfile]

    The hook keeps [profile] and [loading]; [fetchProfile(userId)] is
    called with the identifier of the user of the session, which is also
    [auth.uid()] for the policies of table [profiles]. *)
Definition set_profiles (st : Store) (ps : list Profile.t) : Store :=
  {| profiles := ps; products := products st; cart_items := cart_items st;
     orders := orders st; order_items := order_items st;
     next_uuid := next_uuid st |}.

Module Auth.

(** [user.data.user] of [supabase.auth.getUser()]: its [id], its [email]
    and [user_metadata?.full_name]. *)
Record AuthUser := {
  id : uuid;
  email : option string;
  full_name : option string
}.

(** The errors of a call on [profiles]: an outage, [PGRST116] (the
    request for a single row did not find exactly one) and the violation
    of a constraint or policy. *)
Inductive Error := Down | PGRST116 | Violation.

Record State := {
  profile : option Profile.t;
  loading : bool
}.

(** The store, the outages scheduled for the calls to come and the log
    of the calls on [profiles] (verb, and whether it succeeded). *)
Record World := {
  store : Store;
  down : list bool;
  asked : list (Verb * bool)
}.

Definition ask {A : Type} (v : Verb) (q : Store -> Error + A * Store) (w : World)
  : (Error + A) * World :=
  match down w with
  | true :: rest =>
      (inl Down, {| store := store w; down := rest; asked := asked w ++ [(v, false)] |})
  | _ =>
      match q (store w) with
      | inl e =>
          (inl e, {| store := store w; down := tl (down w);
                     asked := asked w ++ [(v, false)] |})
      | inr (a, st') =>
          (inr a, {| store := st'; down := tl (down w);
                     asked := asked w ++ [(v, true)] |})
      end
  end.

(** [from('profiles').select('*').eq('id', userId).single()], under the
    policy ["Users can read own profile"] ([auth.uid() = id], which holds
    of the rows asked for). *)
Definition select_profile (userId : uuid) (st : Store) : Error + Profile.t * Store :=
  match List.filter (fun p => String.eqb (Profile.id p) userId) (profiles st) with
  | [p] => inr (p, st)
  | _ => inl PGRST116
  end.

(** [from('profiles').insert({id, email, full_name}).select().single()]:
    [email] is [NOT NULL], [id] is the primary key, the policy
    ["Users can insert own profile"] checks [auth.uid() = id] and
    [is_admin] takes its default [false]. *)
Definition insert_profile (auth_uid : uuid) (u : AuthUser) (st : Store)
  : Error + Profile.t * Store :=
  match email u with
  | None => inl Violation
  | Some e =>
      if negb (String.eqb (id u) auth_uid) then inl Violation
      else if existsb (fun p => String.eqb (Profile.id p) (id u)) (profiles st)
      then inl Violation
      else
        let name := match full_name u with
                    | Some n => if truthy n then n else ""
                    | None => ""
                    end in
        let row := Profile.mk (id u) e (Some name) false in
        inr (row, set_profiles st (profiles st ++ [row]))
  end.

Definition fetchProfile (userId : uuid) (current : option AuthUser) (s : State)
    (w : World) : State * World :=
  let (r, w1) := ask Select (select_profile userId) w in
  match r with
  | inr data => ({| profile := Some data; loading := false |}, w1)
  | inl PGRST116 =>
      match current with
      | Some u =>
          let (r2, w2) := ask Insert (insert_profile userId u) w1 in
          ({| profile := match r2 with
                         | inr newProfile => Some newProfile
                         | inl _ => None
                         end;
              loading := false |}, w2)
      | None => ({| profile := profile s; loading := false |}, w1)
      end
  | inl _ => ({| profile := profile s; loading := false |}, w1)
  end.

End Auth.

(** The primary key of [profiles]. *)
Definition profiles_keyed (st : Store) : Prop :=
  List.NoDup (map Profile.id (profiles st)).

(** The rows of [profiles] with an identifier. *)
Definition profiles_of (st : Store) (uid : uuid) : list Profile.t :=
  List.filter (fun p => String.eqb (Profile.id p) uid) (profiles st).

(** A user who has just signed up: no profile yet. *)
Definition newcomer : Auth.AuthUser :=
  {| Auth.id := "user-2"; Auth.email := Some "new@shop.test";
     Auth.full_name := Some "Nia" |}.

Definition auth_world_of (st : Store) : Auth.World :=
  {| Auth.store := st; Auth.down := []; Auth.asked := [] |}.

Definition signed_in_loading : Auth.State :=
  {| Auth.profile := None; Auth.loading := true |}.

(** ** The stock on the product card ([components/ProductCard.tsx])

    ["Only n left"] is rendered under
    [product.stock_quantity <= 5 && product.stock_quantity > 0],
    ["Out of stock"] under [product.stock_quantity === 0], and the button
    is [disabled={!user || product.stock_quantity === 0}]. *)
Definition only_left_shown (product : Product.t) : bool :=
  (Product.stock_quantity product <=? 5) && (0 <? Product.stock_quantity product).

Definition out_of_stock_shown (product : Product.t) : bool :=
  Product.stock_quantity product =? 0.

Definition add_disabled (s : Session) (product : Product.t) : bool :=
  match user s with
  | Some _ => Product.stock_quantity product =? 0
  | None => true
  end.

(** * Properties *)

(** ** Calls to the store *)

Lemma request_inv {A : Type} t v (q : Store -> Response (A * Store)) w r w' :
  request t v q w = (r, w') ->
  calls w' = calls w ++ [{| call_table := t; call_verb := v; call_ok := response_ok r |}]
  /\ toasts w' = toasts w
  /\ outages w' = tl (outages w)
  /\ match r with
     | inl _ => db w' = db w
     | inr a => hd false (outages w) = false /\ q (db w) = inr (a, db w')
     end.
Proof.
  unfold request. intros H.
  destruct (outages w) as [|[|] rest] eqn:Ho; simpl in *.
  - destruct (q (db w)) as [e|[a st']]; inversion H; subst; simpl; auto.
  - inversion H; subst; simpl; auto.
  - destruct (q (db w)) as [e|[a st']]; inversion H; subst; simpl; auto.
Qed.

Lemma request_run {A : Type} t v (q : Store -> Response (A * Store)) w a st' :
  hd false (outages w) = false ->
  q (db w) = inr (a, st') ->
  request t v q w
  = (inr a, {| db := st'; outages := tl (outages w);
               calls := calls w ++ [{| call_table := t; call_verb := v; call_ok := true |}];
               toasts := toasts w |}).
Proof.
  intros Ho Hq. unfold request. rewrite Hq.
  destruct (outages w) as [|[|] rest]; simpl in *; try discriminate; reflexivity.
Qed.

Lemma new_calls_app w w' l : calls w' = calls w ++ l -> new_calls w w' = l.
Proof.
  intros H. unfold new_calls. rewrite H.
  rewrite skipn_app, skipn_all, Nat.sub_diag. reflexivity.
Qed.

Lemma every_call_succeeded_by_run w w' :
  forallb call_ok (new_calls w w') = true -> every_call_succeeded w w'.
Proof.
  unfold every_call_succeeded. intros H.
  apply List.Forall_forall. intros c Hin.
  rewrite forallb_forall in H. exact (H c Hin).
Qed.

Lemma toast_inv t w u w' :
  toast t w = (u, w') ->
  db w' = db w /\ calls w' = calls w /\ outages w' = outages w
  /\ toasts w' = toasts w ++ [t].
Proof. unfold toast. intros H. inversion H; subst; simpl; auto. Qed.

(** ** The position found by [findIndex] *)

Lemma findIndex_lower {A : Type} (f : A -> bool) l : -1 <= findIndex f l.
Proof.
  induction l as [|x l IH]; simpl; [lia|].
  destruct (f x); [lia|]. destruct (findIndex f l <? 0) eqn:E; lia.
Qed.

Lemma findIndex_absent {A : Type} (f : A -> bool) l :
  Forall (fun x => f x = false) l -> findIndex f l = -1.
Proof.
  induction 1 as [|x l Hx _ IH]; simpl; [reflexivity|].
  rewrite Hx, IH. reflexivity.
Qed.

Lemma findIndex_first {A : Type} (f : A -> bool) l1 x l2 :
  Forall (fun y => f y = false) l1 -> f x = true ->
  findIndex f (l1 ++ x :: l2) = Z.of_nat (length l1).
Proof.
  induction 1 as [|y l1 Hy _ IH]; intros Hx; simpl.
  - rewrite Hx. reflexivity.
  - rewrite Hy, (IH Hx).
    destruct (Z.of_nat (length l1) <? 0) eqn:E; lia.
Qed.

Lemma findIndex_negative {A : Type} (f : A -> bool) l :
  findIndex f l < 0 -> Forall (fun x => f x = false) l.
Proof.
  induction l as [|x l IH]; simpl; intros H; [constructor|].
  destruct (f x) eqn:Hx; [lia|].
  destruct (findIndex f l <? 0) eqn:E.
  - constructor; [assumption|]. apply IH. lia.
  - pose proof (findIndex_lower f l). lia.
Qed.

Lemma findIndex_split {A : Type} (f : A -> bool) l :
  0 <= findIndex f l ->
  exists l1 x l2, l = l1 ++ x :: l2 /\ Forall (fun y => f y = false) l1
                  /\ f x = true /\ findIndex f l = Z.of_nat (length l1).
Proof.
  induction l as [|x l IH]; simpl; intros H; [lia|].
  destruct (f x) eqn:Hx.
  - exists [], x, l. repeat split; auto.
  - destruct (findIndex f l <? 0) eqn:E; [lia|].
    destruct IH as (l1 & y & l2 & -> & Hl1 & Hy & Hi); [lia|].
    exists (x :: l1), y, l2. repeat split; auto.
    rewrite Hi. simpl length. lia.
Qed.

Lemma insert_middle {A : Type} (l1 : list A) x y l2 :
  <[length l1 := y]> (l1 ++ x :: l2) = l1 ++ y :: l2.
Proof.
  induction l1 as [|z l1 IH]; simpl; [reflexivity|].
  f_equal. exact IH.
Qed.

(** ** The cart ledger *)

Lemma other_product_eqb productId l :
  Forall (other_product productId) l ->
  Forall (fun item => String.eqb (CartItem.product_id item) productId = false) l.
Proof.
  induction 1 as [|item l H _ IH]; constructor; [|exact IH].
  apply String.eqb_neq. exact H.
Qed.

Lemma addToCart_accepted s uid productId quantity cartItems w data :
  user s = Some uid -> isSupabaseConfigured s = true ->
  fst (request T_cart_items Upsert (upsert_cart_item uid productId quantity) w) = inr data ->
  fst (addToCart s productId quantity cartItems w)
  = let existingIndex :=
      findIndex (fun item => String.eqb (CartItem.product_id item) productId) cartItems in
    if 0 <=? existingIndex
    then <[Z.to_nat existingIndex := data]> cartItems
    else cartItems ++ [data].
Proof.
  intros Hu Hc Hr. unfold addToCart. rewrite Hu, Hc. unfold bind.
  destruct (request _ _ _ w) as [r w1]. simpl in Hr. subst r.
  reflexivity.
Qed.

(** C10.  When the upsert of [addToCart] is accepted and returns [data]:
    if the cart state holds an entry of the product, the first such entry
    is replaced by [data] where it stands and all the others stay as they
    are, in their order; if it holds none, [data] is appended at the
    end. *)
Theorem addToCart_replaces_in_place_or_appends
    s uid productId quantity cartItems w data :
  user s = Some uid -> isSupabaseConfigured s = true ->
  fst (request T_cart_items Upsert (upsert_cart_item uid productId quantity) w) = inr data ->
  (forall l1 item l2,
      cartItems = l1 ++ item :: l2 ->
      Forall (other_product productId) l1 ->
      CartItem.product_id item = productId ->
      fst (addToCart s productId quantity cartItems w) = l1 ++ data :: l2)
  /\ (Forall (other_product productId) cartItems ->
      fst (addToCart s productId quantity cartItems w) = cartItems ++ [data]).
Proof.
  intros Hu Hc Hr.
  rewrite (addToCart_accepted s uid productId quantity cartItems w data Hu Hc Hr).
  split.
  - intros l1 item l2 -> Hl1 Hitem. cbv zeta.
    rewrite (findIndex_first _ l1 item l2).
    + replace (0 <=? Z.of_nat (length l1)) with true by (symmetry; apply Z.leb_le; lia).
      rewrite Nat2Z.id. apply insert_middle.
    + apply other_product_eqb. exact Hl1.
    + apply String.eqb_eq. exact Hitem.
  - intros Hnone. cbv zeta.
    rewrite findIndex_absent by (apply other_product_eqb; exact Hnone).
    reflexivity.
Qed.

Example addToCart_replaces_in_place_or_appends_witness :
  let w := world_of (store_with_headphones "user-1" 2) in
  fst (addToCart customer "prod-watch" 4
         [watch_entry "user-1" 1; headphones_entry "user-1" 2] w)
  = [added_watch_entry "user-1" 4; headphones_entry "user-1" 2]
  /\ fst (addToCart customer "prod-watch" 4 [headphones_entry "user-1" 2] w)
     = [headphones_entry "user-1" 2; added_watch_entry "user-1" 4].
Proof.
  intros w. split.
  - apply (addToCart_replaces_in_place_or_appends customer "user-1" "prod-watch" 4
             [watch_entry "user-1" 1; headphones_entry "user-1" 2] w
             (added_watch_entry "user-1" 4) eq_refl eq_refl eq_refl)
      with (l1 := []) (item := watch_entry "user-1" 1)
           (l2 := [headphones_entry "user-1" 2]);
      [reflexivity|constructor|reflexivity].
  - apply (addToCart_replaces_in_place_or_appends customer "user-1" "prod-watch" 4
             [headphones_entry "user-1" 2] w
             (added_watch_entry "user-1" 4) eq_refl eq_refl eq_refl).
    repeat constructor. unfold other_product. simpl. discriminate.
Defined.

Lemma updateQuantity_delegates s productId quantity cartItems w :
  quantity <= 0 ->
  updateQuantity s productId quantity cartItems w
  = removeFromCart s productId cartItems w.
Proof.
  intros Hq. unfold updateQuantity.
  destruct (user s) as [uid|] eqn:Hu; destruct (isSupabaseConfigured s) eqn:Hc.
  - replace (quantity <=? 0) with true by (symmetry; apply Z.leb_le; exact Hq).
    reflexivity.
  - unfold removeFromCart. rewrite Hu, Hc. reflexivity.
  - unfold removeFromCart. rewrite Hu. reflexivity.
  - unfold removeFromCart. rewrite Hu. reflexivity.
Qed.

Lemma filter_excluded {A : Type} (f : A -> bool) l :
  List.filter f (List.filter (fun x => negb (f x)) l) = [].
Proof.
  induction l as [|x l IH]; simpl; [reflexivity|].
  destruct (f x) eqn:E; simpl; [exact IH|]. rewrite E. exact IH.
Qed.

(** A [removeFromCart] whose delete is accepted leaves no row of the
    pair in the store and no entry of the product in the cart state. *)
Lemma removeFromCart_accepted s uid productId cartItems w :
  user s = Some uid -> isSupabaseConfigured s = true ->
  every_call_succeeded w (snd (removeFromCart s productId cartItems w)) ->
  rows_of (db (snd (removeFromCart s productId cartItems w))) uid productId = []
  /\ entries_of (fst (removeFromCart s productId cartItems w)) productId = [].
Proof.
  intros Hu Hc. unfold removeFromCart. rewrite Hu, Hc. unfold bind.
  destruct (request T_cart_items Delete _ w) as [r w1] eqn:E.
  apply request_inv in E. destruct E as (Hcalls & _ & _ & Q).
  destruct r as [e|u]; simpl; intros Hall.
  - exfalso. unfold every_call_succeeded, new_calls in Hall. simpl in Hall.
    rewrite Hcalls, skipn_app, skipn_all, Nat.sub_diag in Hall. simpl in Hall.
    inversion Hall; subst. discriminate.
  - destruct Q as [_ Q]. unfold delete_cart_item in Q. inversion Q as [Hst].
    split.
    + unfold rows_of. simpl. apply filter_excluded.
    + unfold entries_of.
      apply (filter_excluded
               (fun item => String.eqb (CartItem.product_id item) productId)).
Qed.

(** C7.  [updateQuantity] with a quantity that is zero or negative does
    what [removeFromCart] does: the same next cart state and the same
    world (store contents, calls, notifications), whatever the store
    answers.  When the identity is signed in and the store accepts the
    call, that common result holds no cart row of the pair (identity,
    product) in the store and no entry of the product in the cart
    state. *)
Theorem updateQuantity_nonpositive_is_removeFromCart
    s productId quantity cartItems w :
  quantity <= 0 ->
  updateQuantity s productId quantity cartItems w
  = removeFromCart s productId cartItems w
  /\ (forall uid,
         user s = Some uid -> isSupabaseConfigured s = true ->
         every_call_succeeded w (snd (updateQuantity s productId quantity cartItems w)) ->
         rows_of (db (snd (updateQuantity s productId quantity cartItems w)))
           uid productId = []
         /\ entries_of (fst (updateQuantity s productId quantity cartItems w))
              productId = []).
Proof.
  intros Hq.
  assert (Heq : updateQuantity s productId quantity cartItems w
                = removeFromCart s productId cartItems w).
  { unfold updateQuantity, removeFromCart.
    destruct (user s) as [uid|]; [|reflexivity].
    destruct (isSupabaseConfigured s); [|reflexivity].
    replace (quantity <=? 0) with true by (symmetry; apply Z.leb_le; exact Hq).
    reflexivity. }
  split; [exact Heq|].
  intros uid Hu Hc. rewrite Heq. apply removeFromCart_accepted; assumption.
Qed.

Example updateQuantity_zero_is_removeFromCart :
  let cart := [headphones_entry "user-1" 2; watch_entry "user-1" 1] in
  let w := world_of (store_with_cart "user-1" 2 1) in
  0 <= 0
  /\ updateQuantity customer "prod-watch" 0 cart w
     = removeFromCart customer "prod-watch" cart w
  /\ rows_of (db (snd (updateQuantity customer "prod-watch" 0 cart w)))
       "user-1" "prod-watch" = []
  /\ fst (updateQuantity customer "prod-watch" 0 cart w)
     = [headphones_entry "user-1" 2].
Proof.
  intros cart w.
  destruct (updateQuantity_nonpositive_is_removeFromCart customer "prod-watch" 0 cart w)
    as (Heq & Hgone); [lia|].
  split; [lia|]. split; [exact Heq|].
  split; [|reflexivity].
  apply (Hgone "user-1" eq_refl eq_refl).
  apply every_call_succeeded_by_run. reflexivity.
Defined.

Lemma single_call_error w w' c :
  calls w' = calls w ++ [c] -> store_reported_error w w' -> call_ok c = false.
Proof.
  intros Hc He. unfold store_reported_error in He.
  rewrite (new_calls_app _ _ _ Hc) in He.
  inversion He as [? ? H|? ? H]; subst; [exact H|inversion H].
Qed.

Lemma no_call_no_error w : ~ store_reported_error w w.
Proof.
  unfold store_reported_error. rewrite (new_calls_app w w []).
  - intros H. inversion H.
  - rewrite app_nil_r. reflexivity.
Qed.

(** The step shared by the functions of the hook: one request, then a
    continuation that issues no call. *)
Ltac one_request E :=
  unfold bind;
  match goal with
  | |- context [request ?t ?v ?q ?w] =>
      destruct (request t v q w) as [r w1] eqn:E;
      apply request_inv in E; destruct E as (Hcalls & _ & _ & _)
  end.

Lemma fetchCartItems_error_keeps s cartItems w :
  store_reported_error w (snd (fetchCartItems s cartItems w)) ->
  fst (fetchCartItems s cartItems w) = cartItems.
Proof.
  unfold fetchCartItems.
  destruct (user s) as [uid|]; [destruct (isSupabaseConfigured s)|]; try reflexivity.
  one_request E. destruct r as [e|data]; simpl; [reflexivity|].
  intros He. apply (single_call_error _ _ _ Hcalls) in He. discriminate.
Qed.

Lemma addToCart_error_keeps s productId quantity cartItems w :
  store_reported_error w (snd (addToCart s productId quantity cartItems w)) ->
  fst (addToCart s productId quantity cartItems w) = cartItems.
Proof.
  unfold addToCart.
  destruct (user s) as [uid|]; [destruct (isSupabaseConfigured s)|]; try reflexivity.
  one_request E. destruct r as [e|data]; simpl; [reflexivity|].
  intros He. apply (single_call_error w _ _ Hcalls) in He. discriminate.
Qed.

Lemma removeFromCart_error_keeps s productId cartItems w :
  store_reported_error w (snd (removeFromCart s productId cartItems w)) ->
  fst (removeFromCart s productId cartItems w) = cartItems.
Proof.
  unfold removeFromCart.
  destruct (user s) as [uid|]; [destruct (isSupabaseConfigured s)|]; try reflexivity.
  one_request E. destruct r as [e|data]; simpl; [reflexivity|].
  intros He. apply (single_call_error w _ _ Hcalls) in He. discriminate.
Qed.

Lemma updateQuantity_error_keeps s productId quantity cartItems w :
  store_reported_error w (snd (updateQuantity s productId quantity cartItems w)) ->
  fst (updateQuantity s productId quantity cartItems w) = cartItems.
Proof.
  destruct (Z_le_gt_dec quantity 0) as [Hq|Hq].
  - rewrite updateQuantity_delegates by exact Hq.
    apply removeFromCart_error_keeps.
  - unfold updateQuantity.
    destruct (user s) as [uid|]; [destruct (isSupabaseConfigured s)|]; try reflexivity.
    replace (quantity <=? 0) with false by (symmetry; apply Z.leb_gt; lia).
    one_request E. destruct r as [e|data]; simpl; [reflexivity|].
    intros He. apply (single_call_error w _ _ Hcalls) in He. discriminate.
Qed.

Lemma clearCart_error_keeps s cartItems w :
  store_reported_error w (snd (clearCart s cartItems w)) ->
  fst (clearCart s cartItems w) = cartItems.
Proof.
  unfold clearCart.
  destruct (user s) as [uid|]; [destruct (isSupabaseConfigured s)|]; try reflexivity.
  one_request E. destruct r as [e|data]; simpl; [reflexivity|].
  intros He. apply (single_call_error w _ _ Hcalls) in He. discriminate.
Qed.

(** C8.  A function of the cart ledger (load, add, set quantity, remove,
    clear) during which the store reports an error hands back the cart
    state it was given.  Every one of them is a total function whose
    result is the next cart state: the error of the store ends in the
    [catch] block and is not part of the result. *)
Theorem cart_ledger_store_error_keeps_state s productId quantity cartItems w :
  (store_reported_error w (snd (fetchCartItems s cartItems w)) ->
   fst (fetchCartItems s cartItems w) = cartItems)
  /\ (store_reported_error w (snd (useCart_effect s cartItems w)) ->
      fst (useCart_effect s cartItems w) = cartItems)
  /\ (store_reported_error w (snd (addToCart s productId quantity cartItems w)) ->
      fst (addToCart s productId quantity cartItems w) = cartItems)
  /\ (store_reported_error w (snd (updateQuantity s productId quantity cartItems w)) ->
      fst (updateQuantity s productId quantity cartItems w) = cartItems)
  /\ (store_reported_error w (snd (removeFromCart s productId cartItems w)) ->
      fst (removeFromCart s productId cartItems w) = cartItems)
  /\ (store_reported_error w (snd (clearCart s cartItems w)) ->
      fst (clearCart s cartItems w) = cartItems).
Proof.
  split; [apply fetchCartItems_error_keeps|].
  split.
  { unfold useCart_effect.
    destruct (user s) as [uid|] eqn:Hu; [destruct (isSupabaseConfigured s) eqn:Hc|].
    - apply fetchCartItems_error_keeps.
    - intros He. exfalso. exact (no_call_no_error w He).
    - intros He. exfalso. exact (no_call_no_error w He). }
  split; [apply addToCart_error_keeps|].
  split; [apply updateQuantity_error_keeps|].
  split; [apply removeFromCart_error_keeps|apply clearCart_error_keeps].
Qed.

Lemma store_reported_error_by_run w w' :
  existsb (fun c => negb (call_ok c)) (new_calls w w') = true ->
  store_reported_error w w'.
Proof.
  unfold store_reported_error. intros H.
  apply existsb_exists in H. destruct H as (c & Hin & Hc).
  apply List.Exists_exists. exists c. split; [exact Hin|].
  destruct (call_ok c); [discriminate|reflexivity].
Qed.

Example cart_ledger_store_error_keeps_state_witness :
  let cart := [headphones_entry "user-1" 2; watch_entry "user-1" 1] in
  let w := world_down (store_with_cart "user-1" 2 1) in
  (store_reported_error w (snd (fetchCartItems customer cart w))
   /\ fst (fetchCartItems customer cart w) = cart)
  /\ (store_reported_error w (snd (addToCart customer "prod-watch" 3 cart w))
      /\ fst (addToCart customer "prod-watch" 3 cart w) = cart)
  /\ (store_reported_error w (snd (updateQuantity customer "prod-watch" 3 cart w))
      /\ fst (updateQuantity customer "prod-watch" 3 cart w) = cart)
  /\ (store_reported_error w (snd (removeFromCart customer "prod-watch" cart w))
      /\ fst (removeFromCart customer "prod-watch" cart w) = cart)
  /\ (store_reported_error w (snd (clearCart customer cart w))
      /\ fst (clearCart customer cart w) = cart).
Proof.
  intros cart w.
  destruct (cart_ledger_store_error_keeps_state customer "prod-watch" 3 cart w)
    as (Hload & _ & Hadd & Hset & Hremove & Hclear).
  assert (E1 : store_reported_error w (snd (fetchCartItems customer cart w)))
    by (apply store_reported_error_by_run; reflexivity).
  assert (E2 : store_reported_error w (snd (addToCart customer "prod-watch" 3 cart w)))
    by (apply store_reported_error_by_run; reflexivity).
  assert (E3 : store_reported_error w (snd (updateQuantity customer "prod-watch" 3 cart w)))
    by (apply store_reported_error_by_run; reflexivity).
  assert (E4 : store_reported_error w (snd (removeFromCart customer "prod-watch" cart w)))
    by (apply store_reported_error_by_run; reflexivity).
  assert (E5 : store_reported_error w (snd (clearCart customer cart w)))
    by (apply store_reported_error_by_run; reflexivity).
  exact (conj (conj E1 (Hload E1))
           (conj (conj E2 (Hadd E2))
              (conj (conj E3 (Hset E3))
                 (conj (conj E4 (Hremove E4)) (conj E5 (Hclear E5)))))).
Defined.

(** ** The checkout workflow *)

Lemma handleCheckout_after_failed_insert s uid data cartItems w e :
  user s = Some uid -> isSupabaseConfigured s = true ->
  fst (order_insert uid data cartItems w) = inl e ->
  handleCheckout s data cartItems w
  = checkout_failed cartItems (snd (order_insert uid data cartItems w)).
Proof.
  intros Hu Hc He. unfold handleCheckout. rewrite Hu, Hc.
  unfold order_insert, shipping_of in *. unfold bind at 1.
  destruct (request T_orders Insert _ w) as [r w1].
  simpl in He. subst r. reflexivity.
Qed.

(** C6.  When the insert of the Order row fails, [handleCheckout] ends in
    its [catch] block: the failure is notified ("Failed to place order"),
    the store is as it was, no further call is made, and the cart state is
    the one it was given (its rows in the store included). *)
Theorem handleCheckout_order_insert_fails s uid data cartItems w e :
  user s = Some uid -> isSupabaseConfigured s = true ->
  fst (order_insert uid data cartItems w) = inl e ->
  fst (fst (handleCheckout s data cartItems w)) = CheckoutFailed
  /\ snd (fst (handleCheckout s data cartItems w)) = cartItems
  /\ db (snd (handleCheckout s data cartItems w)) = db w
  /\ new_calls w (snd (handleCheckout s data cartItems w))
     = [{| call_table := T_orders; call_verb := Insert; call_ok := false |}]
  /\ toasts (snd (handleCheckout s data cartItems w))
     = toasts w ++ [toast_error "Failed to place order"].
Proof.
  intros Hu Hc He.
  rewrite (handleCheckout_after_failed_insert s uid data cartItems w e Hu Hc He).
  unfold order_insert in *.
  destruct (request T_orders Insert _ w) as [r w1] eqn:E.
  simpl in He. subst r.
  apply request_inv in E. destruct E as (Hcalls & Htoasts & _ & Hdb).
  simpl. repeat split; auto.
  - apply new_calls_app. exact Hcalls.
  - rewrite Htoasts. reflexivity.
Qed.

Example handleCheckout_order_insert_fails_witness :
  let cart := [headphones_entry "user-1" 2; watch_entry "user-1" 1] in
  let w := world_down (store_with_cart "user-1" 2 1) in
  fst (fst (handleCheckout customer sample_form cart w)) = CheckoutFailed
  /\ snd (fst (handleCheckout customer sample_form cart w)) = cart
  /\ db (snd (handleCheckout customer sample_form cart w)) = db w
  /\ new_calls w (snd (handleCheckout customer sample_form cart w))
     = [{| call_table := T_orders; call_verb := Insert; call_ok := false |}]
  /\ toasts (snd (handleCheckout customer sample_form cart w))
     = toasts w ++ [toast_error "Failed to place order"].
Proof.
  intros cart w.
  apply (handleCheckout_order_insert_fails customer "user-1" sample_form cart w Unavailable);
    reflexivity.
Defined.

(** *** The tables each statement of the store touches *)

Lemma insert_order_inv uid total addr st order st' :
  insert_order uid total addr Confirmed Paid st = inr (order, st') ->
  0 <= total
  /\ order = Order.mk (uuid_of_nat (next_uuid st)) uid Confirmed total addr Paid
  /\ st' = set_orders (set_next_uuid st (S (next_uuid st))) (orders st ++ [order]).
Proof.
  unfold insert_order. destruct (total <? 0) eqn:Ht; [discriminate|].
  destruct (decimal_10_2_max <? total); [discriminate|].
  simpl. intros H. inversion H; subst. repeat split; auto.
  apply Z.ltb_ge. exact Ht.
Qed.

Lemma insert_order_items_inv ls st u st' :
  insert_order_items ls st = inr (u, st') ->
  first_violation st ls = None
  /\ st' = set_next_uuid
             (set_order_items st (order_items st ++ number_order_items (next_uuid st) ls))
             (next_uuid st + length ls)%nat.
Proof.
  unfold insert_order_items. destruct (first_violation st ls); [discriminate|].
  intros H. inversion H; subst. auto.
Qed.

Lemma delete_cart_inv uid st u st' :
  delete_cart uid st = inr (u, st') ->
  st' = set_cart_items st
          (List.filter (fun r => negb (String.eqb (CartRow.user_id r) uid)) (cart_items st)).
Proof. unfold delete_cart. intros H. inversion H; subst. reflexivity. Qed.

Lemma update_product_stock_inv uid pid v st u st' :
  update_product_stock uid pid v st = inr (u, st') ->
  (st' = st /\ (is_admin st uid = false \/ find_product st pid = None))
  \/ (is_admin st uid = true /\ find_product st pid <> None /\ 0 <= v
      /\ st' = set_products st (map (restock pid v) (products st))).
Proof.
  unfold update_product_stock.
  destruct (is_admin st uid) eqn:Ha; simpl.
  - destruct (find_product st pid) eqn:Hf.
    + destruct (v <? 0) eqn:Hv; [discriminate|].
      intros H. inversion H; subst. right.
      split; [reflexivity|]. split; [discriminate|].
      split; [apply Z.ltb_ge; exact Hv|reflexivity].
    + intros H. inversion H; subst. left. auto.
  - intros H. inversion H; subst. left. auto.
Qed.

(** *** The stock loop *)

Lemma update_stock_inv uid items w r w' :
  update_stock uid items w = (r, w') ->
  exists l, calls w' = calls w ++ l
    /\ toasts w' = toasts w
    /\ Forall (fun c => call_table c = T_products /\ call_verb c = Update) l
    /\ match r with
       | inr _ => Forall (fun c => call_ok c = true) l
                  /\ apply_stock uid items (db w) = inr (db w')
       | inl _ => Exists (fun c => call_ok c = false) l
       end.
Proof.
  revert w r w'. induction items as [|item rest IH]; intros w r w' H.
  - simpl in H. unfold ret in H. inversion H; subst.
    exists []. rewrite app_nil_r. repeat split; constructor.
  - simpl in H. unfold bind in H.
    destruct (request T_products Update _ w) as [r1 w1] eqn:E.
    apply request_inv in E. destruct E as (Hcalls & Htoasts & _ & Hq).
    destruct r1 as [e|u].
    + unfold ret in H. inversion H; subst.
      eexists. split; [exact Hcalls|]. split; [exact Htoasts|].
      split; [repeat constructor|]. apply Exists_cons_hd. reflexivity.
    + destruct (IH _ _ _ H) as (l & Hl & Ht & Hk & Hr).
      exists ({| call_table := T_products; call_verb := Update; call_ok := true |} :: l).
      split; [rewrite Hl, Hcalls; simpl; rewrite <- app_assoc; reflexivity|].
      split; [congruence|].
      split; [constructor; [split; reflexivity|exact Hk]|].
      destruct r as [e|u'].
      * apply Exists_cons_tl. exact Hr.
      * destruct Hr as [Hall Happly]. split; [constructor; [reflexivity|exact Hall]|].
        simpl. destruct Hq as [_ Hq]. rewrite Hq. exact Happly.
Qed.

(** *** How [handleCheckout] can run *)

Lemma handleCheckout_inv s uid data cartItems w res w' :
  user s = Some uid -> isSupabaseConfigured s = true ->
  handleCheckout s data cartItems w = (res, w') ->
  (exists e w1,
      order_insert uid data cartItems w = (inl e, w1)
      /\ checkout_failed cartItems w1 = (res, w'))
  \/ (exists order w1 e w2,
         order_insert uid data cartItems w = (inr order, w1)
         /\ order_items_insert order cartItems w1 = (inl e, w2)
         /\ checkout_failed cartItems w2 = (res, w'))
  \/ (exists order w1 w2 e w3,
         order_insert uid data cartItems w = (inr order, w1)
         /\ order_items_insert order cartItems w1 = (inr tt, w2)
         /\ update_stock uid cartItems w2 = (inl e, w3)
         /\ checkout_failed cartItems w3 = (res, w'))
  \/ (exists order w1 w2 w3 cleared w4,
         order_insert uid data cartItems w = (inr order, w1)
         /\ order_items_insert order cartItems w1 = (inr tt, w2)
         /\ update_stock uid cartItems w2 = (inr tt, w3)
         /\ clearCart s cartItems w3 = (cleared, w4)
         /\ res = (OrderPlaced, cleared)
         /\ toast (toast_success "Order placed successfully!") w4 = (tt, w')).
Proof.
  intros Hu Hc. unfold handleCheckout. rewrite Hu, Hc.
  unfold order_insert, order_items_insert, shipping_of. unfold bind at 1.
  destruct (request T_orders Insert _ w) as [[e|order] w1] eqn:E1.
  { intros H. left. exists e, w1. split; [reflexivity|exact H]. }
  unfold bind at 1.
  destruct (request T_order_items Insert _ w1) as [[e|[]] w2] eqn:E2.
  { intros H. right. left. exists order, w1, e, w2.
    split; [reflexivity|]. split; [exact E2|exact H]. }
  unfold bind at 1.
  destruct (update_stock uid cartItems w2) as [[e|[]] w3] eqn:E3.
  { intros H. right. right. left. exists order, w1, w2, e, w3.
    split; [reflexivity|]. split; [exact E2|]. split; [exact E3|exact H]. }
  unfold bind at 1.
  destruct (clearCart s cartItems w3) as [cleared w4] eqn:E4.
  unfold bind, ret. destruct (toast _ w4) as [[] w5] eqn:Et.
  intros H. inversion H; subst.
  right. right. right. exists order, w1, w2, w3, cleared, w4.
  split; [reflexivity|]. split; [exact E2|]. split; [exact E3|].
  split; [exact E4|]. split; [reflexivity|exact Et].
Qed.

Lemma checkout_failed_inv cartItems w res w' :
  checkout_failed cartItems w = (res, w') ->
  res = (CheckoutFailed, cartItems) /\ db w' = db w /\ calls w' = calls w
  /\ toasts w' = toasts w ++ [toast_error "Failed to place order"].
Proof.
  unfold checkout_failed, bind, ret, toast. intros H. inversion H; subst.
  simpl. auto.
Qed.

Lemma clearCart_inv s uid cartItems w cleared w' :
  user s = Some uid -> isSupabaseConfigured s = true ->
  clearCart s cartItems w = (cleared, w') ->
  exists c, calls w' = calls w ++ [c]
    /\ call_table c = T_cart_items /\ call_verb c = Delete
    /\ ((call_ok c = true /\ cleared = []
         /\ delete_cart uid (db w) = inr (tt, db w') /\ toasts w' = toasts w)
        \/ (call_ok c = false /\ cleared = cartItems /\ db w' = db w
            /\ toasts w' = toasts w ++ [toast_error "Failed to clear cart"])).
Proof.
  intros Hu Hc. unfold clearCart. rewrite Hu, Hc. unfold bind.
  destruct (request T_cart_items Delete _ w) as [r w1] eqn:E.
  apply request_inv in E. destruct E as (Hcalls & Htoasts & _ & Hq).
  destruct r as [e|[]]; unfold toast, ret; intros H; inversion H; subst; simpl.
  - eexists. split; [exact Hcalls|]. split; [reflexivity|]. split; [reflexivity|].
    right. simpl. rewrite Htoasts. auto.
  - eexists. split; [exact Hcalls|]. split; [reflexivity|]. split; [reflexivity|].
    left. simpl. destruct Hq as [_ Hq]. auto.
Qed.

Lemma every_call_succeeded_app w w' l :
  calls w' = calls w ++ l ->
  every_call_succeeded w w' -> Forall (fun c => call_ok c = true) l.
Proof.
  intros H. unfold every_call_succeeded. rewrite (new_calls_app _ _ _ H). auto.
Qed.

Lemma not_all_ok l1 l2 :
  Exists (fun c => call_ok c = false) l2 ->
  ~ Forall (fun c => call_ok c = true) (l1 ++ l2).
Proof.
  intros He Ha. apply List.Forall_app in Ha. destruct Ha as [_ Ha].
  apply List.Exists_exists in He. destruct He as (c & Hin & Hc).
  rewrite List.Forall_forall in Ha. specialize (Ha c Hin). congruence.
Qed.

(** A checkout all of whose calls succeed goes through its four steps. *)
Lemma handleCheckout_all_calls_ok s uid data cartItems w :
  user s = Some uid -> isSupabaseConfigured s = true ->
  every_call_succeeded w (snd (handleCheckout s data cartItems w)) ->
  exists order st1 st2 st3,
    insert_order uid (cartTotal cartItems) (shipping_of data) Confirmed Paid (db w)
    = inr (order, st1)
    /\ insert_order_items (orderItems_of order cartItems) st1 = inr (tt, st2)
    /\ apply_stock uid cartItems st2 = inr st3
    /\ delete_cart uid st3 = inr (tt, db (snd (handleCheckout s data cartItems w)))
    /\ fst (handleCheckout s data cartItems w) = (OrderPlaced, []).
Proof.
  intros Hu Hc.
  destruct (handleCheckout s data cartItems w) as [res w'] eqn:E. simpl.
  intros Hall.
  destruct (handleCheckout_inv _ _ _ _ _ _ _ Hu Hc E)
    as [(e & w1 & E1 & Ef)
       |[(order & w1 & e & w2 & E1 & E2 & Ef)
        |[(order & w1 & w2 & e & w3 & E1 & E2 & E3 & Ef)
         |(order & w1 & w2 & w3 & cleared & w4 & E1 & E2 & E3 & E4 & Hres & Et)]]];
    unfold order_insert, order_items_insert in *;
    apply request_inv in E1; destruct E1 as (C1 & _ & _ & Q1);
    try (apply request_inv in E2; destruct E2 as (C2 & _ & _ & Q2));
    try (apply update_stock_inv in E3; destruct E3 as (l3 & C3 & _ & _ & Q3));
    try (apply checkout_failed_inv in Ef; destruct Ef as (_ & _ & Cf & _)).
  - exfalso. rewrite C1 in Cf.
    apply (every_call_succeeded_app _ _ _ Cf) in Hall.
    inversion Hall; subst. discriminate.
  - exfalso. rewrite C2, C1, <- app_assoc in Cf.
    apply (every_call_succeeded_app _ _ _ Cf) in Hall.
    revert Hall. apply (not_all_ok [_]). apply Exists_cons_hd. reflexivity.
  - exfalso. rewrite C3, C2, C1, <- !app_assoc in Cf.
    apply (every_call_succeeded_app _ _ _ Cf) in Hall.
    revert Hall. apply (not_all_ok [_; _]). exact Q3.
  - destruct (clearCart_inv _ _ _ _ _ _ Hu Hc E4)
      as (c & C4 & _ & _ & [(Hok & -> & Hdel & _)|(Hbad & _)]);
      apply toast_inv in Et; destruct Et as (Hdb & Ct & _).
    + destruct Q1 as [_ Q1]. destruct Q2 as [_ Q2]. destruct Q3 as [_ Q3].
      exists order, (db w1), (db w2), (db w3).
      rewrite Hdb. auto.
    + exfalso. rewrite C4, C3, C2, C1 in Ct. rewrite <- !app_assoc in Ct.
      apply (every_call_succeeded_app _ _ _ Ct) in Hall.
      revert Hall. rewrite !app_assoc. apply not_all_ok.
      apply Exists_cons_hd. exact Hbad.
Qed.

(** *** Stock and the product table *)

Lemma same_but_products_refl st : same_but_products st st.
Proof. unfold same_but_products. auto. Qed.

Lemma same_but_products_trans st1 st2 st3 :
  same_but_products st1 st2 -> same_but_products st2 st3 -> same_but_products st1 st3.
Proof.
  unfold same_but_products.
  intros (A1 & A2 & A3 & A4 & A5) (B1 & B2 & B3 & B4 & B5).
  repeat split; congruence.
Qed.

Lemma find_restock pid v pid' l :
  List.find (fun p => String.eqb (Product.id p) pid') (map (restock pid v) l)
  = option_map (restock pid v)
      (List.find (fun p => String.eqb (Product.id p) pid') l).
Proof.
  induction l as [|p l IH]; simpl; [reflexivity|].
  assert (Hid : Product.id (restock pid v p) = Product.id p).
  { unfold restock. destruct (String.eqb (Product.id p) pid); reflexivity. }
  rewrite Hid. destruct (String.eqb (Product.id p) pid'); [reflexivity|exact IH].
Qed.

Lemma find_product_id st pid p :
  find_product st pid = Some p -> Product.id p = pid.
Proof.
  unfold find_product. intros H. apply List.find_some in H.
  apply String.eqb_eq. tauto.
Qed.

Lemma stock_of_restock st pid v pid' :
  stock_of (set_products st (map (restock pid v) (products st))) pid'
  = if String.eqb pid' pid
    then option_map (fun _ => v) (stock_of st pid')
    else stock_of st pid'.
Proof.
  unfold stock_of, find_product. simpl. rewrite find_restock.
  destruct (List.find _ (products st)) as [p|] eqn:Hf; simpl.
  - assert (Hp : Product.id p = pid') by (apply (find_product_id st); exact Hf).
    unfold restock. rewrite Hp.
    destruct (String.eqb pid' pid); reflexivity.
  - destruct (String.eqb pid' pid); reflexivity.
Qed.

Lemma update_product_stock_frame uid pid v st u st' :
  update_product_stock uid pid v st = inr (u, st') -> same_but_products st st'.
Proof.
  intros H. apply update_product_stock_inv in H.
  destruct H as [[-> _]|(_ & _ & _ & ->)].
  - apply same_but_products_refl.
  - unfold same_but_products. simpl. auto.
Qed.

Lemma is_admin_frame st st' uid :
  profiles st' = profiles st -> is_admin st' uid = is_admin st uid.
Proof. unfold is_admin. intros ->. reflexivity. Qed.

(** What an accepted stock update of an administrator leaves in the
    table: the new value on the row of the product, the other rows as
    they were. *)
Lemma update_product_stock_admin uid pid v st u st' :
  is_admin st uid = true ->
  update_product_stock uid pid v st = inr (u, st') ->
  forall pid',
    stock_of st' pid'
    = if String.eqb pid' pid
      then option_map (fun _ => v) (stock_of st pid')
      else stock_of st pid'.
Proof.
  intros Ha H pid'. apply update_product_stock_inv in H.
  destruct H as [[-> [Hna|Hnone]]|(_ & _ & _ & ->)].
  - congruence.
  - destruct (String.eqb pid' pid) eqn:E; [|reflexivity].
    apply String.eqb_eq in E. subst pid'.
    unfold stock_of. rewrite Hnone. reflexivity.
  - apply stock_of_restock.
Qed.

Lemma apply_stock_frame uid items st st' :
  apply_stock uid items st = inr st' -> same_but_products st st'.
Proof.
  revert st. induction items as [|item rest IH]; simpl; intros st H.
  - inversion H; subst. apply same_but_products_refl.
  - destruct (update_product_stock uid _ _ st) as [e|[u st1]] eqn:E; [discriminate|].
    eapply same_but_products_trans.
    + eapply update_product_stock_frame. exact E.
    + apply IH. exact H.
Qed.

(** The stock loop of an administrator over entries of distinct products:
    each product that exists ends with the stock of its cart entry minus
    the quantity of the entry. *)
Lemma apply_stock_admin uid items st st' :
  is_admin st uid = true ->
  List.NoDup (map CartItem.product_id items) ->
  apply_stock uid items st = inr st' ->
  forall item, In item items ->
    stock_of st' (CartItem.product_id item)
    = option_map
        (fun _ => Product.stock_quantity (CartItem.product item) - CartItem.quantity item)
        (stock_of st (CartItem.product_id item)).
Proof.
  revert st. induction items as [|i rest IH]; simpl; intros st Ha Hnd H item Hin.
  - contradiction.
  - destruct (update_product_stock uid _ _ st) as [e|[u st1]] eqn:E; [discriminate|].
    inversion Hnd as [|? ? Hnotin Hnd']; subst.
    assert (Ha1 : is_admin st1 uid = true).
    { rewrite <- Ha. apply is_admin_frame.
      apply update_product_stock_frame in E. apply E. }
    pose proof (update_product_stock_admin _ _ _ _ _ _ Ha E) as Hs.
    destruct Hin as [->|Hin].
    + (* the entry just written: the rest of the loop leaves it alone *)
      assert (Hrest : forall st2 st3, apply_stock uid rest st2 = inr st3 ->
                is_admin st2 uid = true ->
                stock_of st3 (CartItem.product_id item)
                = stock_of st2 (CartItem.product_id item)).
      { clear - Hnotin. induction rest as [|j rest IHr]; simpl; intros st2 st3 H2 Ha2.
        - inversion H2; subst. reflexivity.
        - destruct (update_product_stock uid _ _ st2) as [e|[u st4]] eqn:E2; [discriminate|].
          rewrite (IHr (fun Hx => Hnotin (or_intror Hx)) st4 st3 H2).
          + rewrite (update_product_stock_admin _ _ _ _ _ _ Ha2 E2).
            destruct (String.eqb (CartItem.product_id item) (CartItem.product_id j)) eqn:Eq;
              [|reflexivity].
            apply String.eqb_eq in Eq. exfalso. apply Hnotin. left. auto.
          + rewrite <- Ha2. apply is_admin_frame.
            apply update_product_stock_frame in E2. apply E2. }
      rewrite (Hrest st1 st' H Ha1), Hs, String.eqb_refl. reflexivity.
    + rewrite (IH st1 Ha1 Hnd' H item Hin), Hs.
      destruct (String.eqb (CartItem.product_id item) (CartItem.product_id i)) eqn:Eq;
        [|reflexivity].
      apply String.eqb_eq in Eq. exfalso. apply Hnotin.
      rewrite <- Eq. apply in_map. exact Hin.
Qed.

(** *** Order lines and the total *)

Lemma lines_total_number acc n order cartItems :
  fold_left (fun total l => total + OrderItem.price l * OrderItem.quantity l)
    (number_order_items n (orderItems_of order cartItems)) acc
  = fold_left
      (fun total item =>
         total + Product.price (CartItem.product item) * CartItem.quantity item)
      cartItems acc.
Proof.
  revert acc n. induction cartItems as [|item rest IH]; intros acc n; simpl.
  - reflexivity.
  - apply IH.
Qed.

Lemma lines_total_cartTotal n order cartItems :
  lines_total (number_order_items n (orderItems_of order cartItems))
  = cartTotal cartItems.
Proof. apply lines_total_number. Qed.

Lemma rows_of_user_deleted uid rows :
  List.filter (fun r => String.eqb (CartRow.user_id r) uid)
    (List.filter (fun r => negb (String.eqb (CartRow.user_id r) uid)) rows) = [].
Proof.
  induction rows as [|r rows IH]; simpl; [reflexivity|].
  destruct (String.eqb (CartRow.user_id r) uid) eqn:E; simpl; [exact IH|].
  rewrite E. exact IH.
Qed.

Lemma apply_stock_not_admin uid items st st' :
  is_admin st uid = false -> apply_stock uid items st = inr st' -> st' = st.
Proof.
  intros Ha. induction items as [|item rest IH]; simpl; intros H.
  - inversion H; reflexivity.
  - unfold update_product_stock in H. rewrite Ha in H. simpl in H. auto.
Qed.

(** A checkout all of whose calls succeed, for any cart. *)
Lemma handleCheckout_placed s uid data cartItems w :
  user s = Some uid -> isSupabaseConfigured s = true ->
  every_call_succeeded w (snd (handleCheckout s data cartItems w)) ->
  let st := db w in
  let st' := db (snd (handleCheckout s data cartItems w)) in
  let order := Order.mk (uuid_of_nat (next_uuid st)) uid Confirmed
                 (cartTotal cartItems) (shipping_of data) Paid in
  fst (handleCheckout s data cartItems w) = (OrderPlaced, [])
  /\ orders st' = orders st ++ [order]
  /\ order_items st'
     = order_items st
       ++ number_order_items (S (next_uuid st)) (orderItems_of order cartItems)
  /\ cart_items st'
     = List.filter (fun r => negb (String.eqb (CartRow.user_id r) uid)) (cart_items st)
  /\ profiles st' = profiles st
  /\ (is_admin st uid = false -> products st' = products st)
  /\ (is_admin st uid = true ->
      List.NoDup (map CartItem.product_id cartItems) ->
      forall item, In item cartItems ->
        stock_of st' (CartItem.product_id item)
        = option_map
            (fun _ => Product.stock_quantity (CartItem.product item)
                      - CartItem.quantity item)
            (stock_of st (CartItem.product_id item))).
Proof.
  intros Hu Hc Hall.
  destruct (handleCheckout_all_calls_ok _ _ _ _ _ Hu Hc Hall)
    as (order & st1 & st2 & st3 & H1 & H2 & H3 & H4 & Hres).
  apply insert_order_inv in H1. destruct H1 as (_ & Horder & ->).
  apply insert_order_items_inv in H2. destruct H2 as (_ & ->).
  apply delete_cart_inv in H4.
  pose proof (apply_stock_frame _ _ _ _ H3) as (F1 & F2 & F3 & F4 & F5).
  cbv zeta. rewrite H4. simpl in *. subst order.
  split; [exact Hres|].
  split; [congruence|]. split; [congruence|]. split; [congruence|].
  split; [congruence|].
  split.
  - intros Ha. apply apply_stock_not_admin in H3; [|exact Ha].
    rewrite H3. reflexivity.
  - intros Ha Hnd item Hin.
    pose proof (fun Ha' => apply_stock_admin uid cartItems _ st3 Ha' Hnd H3 item Hin) as Hs.
    apply Hs. exact Ha.
Qed.


(** C1, as amended.  For a signed-in identity whose cart state holds two
    entries of distinct products with quantities 2 and 1, a checkout all
    of whose store calls succeed appends exactly one Order row (of that
    identity, confirmed and paid) and exactly two Order Lines of that
    order, one per entry with its product, quantity and price; the prices
    times quantities of the two lines add up to the total of the order;
    the cart state is empty and the store holds no cart row of the
    identity.  When the identity is one the product policy lets write (an
    administrator), the stock of each product whose cart entry carries the
    stock the store holds is reduced by the quantity bought. *)
Theorem checkout_of_two_products s uid data i1 i2 w :
  user s = Some uid -> isSupabaseConfigured s = true ->
  CartItem.product_id i1 <> CartItem.product_id i2 ->
  CartItem.quantity i1 = 2 -> CartItem.quantity i2 = 1 ->
  every_call_succeeded w (snd (handleCheckout s data [i1; i2] w)) ->
  let st := db w in
  let st' := db (snd (handleCheckout s data [i1; i2] w)) in
  (exists order l1 l2,
      orders st' = orders st ++ [order]
      /\ Order.user_id order = uid
      /\ Order.status order = Confirmed /\ Order.payment_status order = Paid
      /\ order_items st' = order_items st ++ [l1; l2]
      /\ OrderItem.order_id l1 = Order.id order
      /\ OrderItem.order_id l2 = Order.id order
      /\ OrderItem.product_id l1 = CartItem.product_id i1
      /\ OrderItem.product_id l2 = CartItem.product_id i2
      /\ OrderItem.quantity l1 = 2 /\ OrderItem.quantity l2 = 1
      /\ OrderItem.price l1 = Product.price (CartItem.product i1)
      /\ OrderItem.price l2 = Product.price (CartItem.product i2)
      /\ lines_total [l1; l2] = Order.total_amount order)
  /\ fst (handleCheckout s data [i1; i2] w) = (OrderPlaced, [])
  /\ rows_of_user st' uid = []
  /\ (is_admin st uid = true ->
      forall item before,
        In item [i1; i2] ->
        stock_of st (CartItem.product_id item) = Some before ->
        stock_in_sync st item ->
        stock_of st' (CartItem.product_id item)
        = Some (before - CartItem.quantity item)).
Proof.
  intros Hu Hc Hne Hq1 Hq2 Hall.
  destruct (handleCheckout_placed _ _ _ _ _ Hu Hc Hall)
    as (Hres & Horders & Hlines & Hcart & _ & _ & Hstock).
  cbv zeta. split.
  - eexists _, _, _. split; [exact Horders|].
    split; [reflexivity|]. split; [reflexivity|]. split; [reflexivity|].
    split; [exact Hlines|]. simpl.
    repeat (split; [first [reflexivity|assumption]|]).
    unfold lines_total, cartTotal. simpl. reflexivity.
  - split; [exact Hres|]. split.
    + unfold rows_of_user. rewrite Hcart. apply rows_of_user_deleted.
    + intros Ha item before Hin Hbefore Hsync.
      rewrite Hstock; auto.
      * rewrite Hbefore. simpl. unfold stock_in_sync in Hsync.
        rewrite Hbefore in Hsync. inversion Hsync; subst. reflexivity.
      * simpl. constructor; [|constructor; [|constructor]]; simpl; intuition.
Qed.

Example checkout_of_two_products_witness :
  let cart := [headphones_entry "admin-1" 2; watch_entry "admin-1" 1] in
  let w := world_of (store_with_cart "admin-1" 2 1) in
  let st' := db (snd (handleCheckout administrator sample_form cart w)) in
  length (orders st') = 1%nat
  /\ length (order_items st') = 2%nat
  /\ stock_of st' "prod-headphones" = Some (50 - 2)
  /\ stock_of st' "prod-watch" = Some (30 - 1).
Proof.
  intros cart w st'.
  destruct (checkout_of_two_products administrator "admin-1" sample_form
              (headphones_entry "admin-1" 2) (watch_entry "admin-1" 1) w)
    as ((order & l1 & l2 & Ho & _ & _ & _ & Hl & _) & _ & _ & Hstock);
    try reflexivity; try discriminate.
  { apply every_call_succeeded_by_run. reflexivity. }
  fold cart in Ho, Hl, Hstock. fold st' in Ho, Hl, Hstock.
  split; [rewrite Ho; reflexivity|]. split; [rewrite Hl; reflexivity|].
  split.
  - apply (Hstock eq_refl (headphones_entry "admin-1" 2) 50);
      [left; reflexivity|reflexivity|reflexivity].
  - apply (Hstock eq_refl (watch_entry "admin-1" 1) 30);
      [right; left; reflexivity|reflexivity|reflexivity].
Defined.

(** C1 as stated fails: an administrator checks out a cart whose first
    entry was fetched when the stock was 60, while the store holds 50 by
    now; every call succeeds, and the stock ends at 58, not at 48. *)
Lemma checkout_stock_not_reduced_by_quantity :
  let cart := [stale_headphones_entry "admin-1" 2; watch_entry "admin-1" 1] in
  let w := world_of (store_with_cart "admin-1" 2 1) in
  every_call_succeeded w (snd (handleCheckout administrator sample_form cart w))
  /\ stock_of (db w) "prod-headphones" = Some 50
  /\ stock_of (db (snd (handleCheckout administrator sample_form cart w)))
       "prod-headphones" = Some 58
  /\ ~ two_lines_checkout_as_specified "admin-1" cart w
         (handleCheckout administrator sample_form cart w).
Proof.
  intros cart w.
  split; [apply every_call_succeeded_by_run; reflexivity|].
  split; [reflexivity|]. split; [reflexivity|].
  intros (_ & Hstock & _).
  specialize (Hstock (stale_headphones_entry "admin-1" 2) 50
                (or_introl eq_refl) eq_refl).
  vm_compute in Hstock. discriminate.
Qed.

(** *** What a checkout leaves in tables [orders] and [order_items] *)

Lemma update_stock_frame uid items w r w' :
  update_stock uid items w = (r, w') -> same_but_products (db w) (db w').
Proof.
  revert w. induction items as [|item rest IH]; simpl; intros w H.
  - unfold ret in H. inversion H; subst. apply same_but_products_refl.
  - unfold bind in H.
    destruct (request T_products Update _ w) as [r1 w1] eqn:E.
    apply request_inv in E. destruct E as (_ & _ & _ & Hq).
    destruct r1 as [e|u].
    + unfold ret in H. inversion H; subst. rewrite Hq. apply same_but_products_refl.
    + destruct Hq as [_ Hq]. eapply same_but_products_trans.
      * eapply update_product_stock_frame. exact Hq.
      * apply IH. exact H.
Qed.

Lemma clearCart_frame s cartItems w cleared w' :
  clearCart s cartItems w = (cleared, w') ->
  orders (db w') = orders (db w) /\ order_items (db w') = order_items (db w).
Proof.
  unfold clearCart.
  destruct (user s) as [uid|]; [destruct (isSupabaseConfigured s)|];
    try (unfold ret; intros H; inversion H; subst; split; reflexivity).
  unfold bind. destruct (request T_cart_items Delete _ w) as [r w1] eqn:E.
  apply request_inv in E. destruct E as (_ & _ & _ & Hq).
  destruct r as [e|[]]; unfold toast, ret; intros H; inversion H; subst; simpl.
  - rewrite Hq. auto.
  - destruct Hq as [_ Hq]. apply delete_cart_inv in Hq. rewrite Hq. auto.
Qed.

Lemma handleCheckout_order_tables s uid data cartItems w :
  user s = Some uid -> isSupabaseConfigured s = true ->
  let st := db w in
  let st' := db (snd (handleCheckout s data cartItems w)) in
  (response_ok (fst (order_insert uid data cartItems w)) = false
   /\ st' = st)
  \/ (response_ok (fst (order_insert uid data cartItems w)) = true
      /\ orders st' = orders st ++ [order_of uid data cartItems st]
      /\ (order_items st' = order_items st
          \/ order_items st' = order_items st ++ lines_of uid data cartItems st)).
Proof.
  intros Hu Hc. cbv zeta.
  destruct (handleCheckout s data cartItems w) as [res w'] eqn:E. simpl.
  destruct (handleCheckout_inv _ _ _ _ _ _ _ Hu Hc E)
    as [(e & w1 & E1 & Ef)
       |[(order & w1 & e & w2 & E1 & E2 & Ef)
        |[(order & w1 & w2 & e & w3 & E1 & E2 & E3 & Ef)
         |(order & w1 & w2 & w3 & cleared & w4 & E1 & E2 & E3 & E4 & Hres & Et)]]];
    rewrite E1; simpl;
    unfold order_insert, order_items_insert in *;
    apply request_inv in E1; destruct E1 as (_ & _ & _ & Q1).
  - left. apply checkout_failed_inv in Ef. destruct Ef as (_ & Hdb & _).
    split; [reflexivity|congruence].
  - right. split; [reflexivity|].
    destruct Q1 as [_ Q1]. apply insert_order_inv in Q1.
    destruct Q1 as (_ & Horder & Hst1).
    apply request_inv in E2. destruct E2 as (_ & _ & _ & Q2).
    apply checkout_failed_inv in Ef. destruct Ef as (_ & Hdb & _).
    rewrite Hdb, Q2, Hst1. simpl. subst order. split; [reflexivity|]. left. reflexivity.
  - right. split; [reflexivity|].
    destruct Q1 as [_ Q1]. apply insert_order_inv in Q1.
    destruct Q1 as (_ & Horder & Hst1).
    apply request_inv in E2. destruct E2 as (_ & _ & _ & [_ Q2]).
    apply insert_order_items_inv in Q2. destruct Q2 as (_ & Hst2).
    apply update_stock_frame in E3. destruct E3 as (_ & _ & F3 & G3 & _).
    apply checkout_failed_inv in Ef. destruct Ef as (_ & Hdb & _).
    rewrite Hdb, F3, G3, Hst2, Hst1. simpl. subst order.
    split; [reflexivity|]. right. reflexivity.
  - right. split; [reflexivity|].
    destruct Q1 as [_ Q1]. apply insert_order_inv in Q1.
    destruct Q1 as (_ & Horder & Hst1).
    apply request_inv in E2. destruct E2 as (_ & _ & _ & [_ Q2]).
    apply insert_order_items_inv in Q2. destruct Q2 as (_ & Hst2).
    apply update_stock_frame in E3. destruct E3 as (_ & _ & F3 & G3 & _).
    apply clearCart_frame in E4. destruct E4 as (F4 & G4).
    apply toast_inv in Et. destruct Et as (Hdb & _).
    rewrite Hdb, F4, G4, F3, G3, Hst2, Hst1. simpl. subst order.
    split; [reflexivity|]. right. reflexivity.
Qed.

(** *** The CHECK on the stock *)

Lemma restock_nonnegative pid v l :
  0 <= v ->
  Forall (fun p => 0 <= Product.stock_quantity p) l ->
  Forall (fun p => 0 <= Product.stock_quantity p) (map (restock pid v) l).
Proof.
  intros Hv. induction 1 as [|p l Hp _ IH]; simpl; constructor; [|exact IH].
  unfold restock. destruct (String.eqb (Product.id p) pid); simpl; assumption.
Qed.

Lemma update_product_stock_nonnegative uid pid v st u st' :
  update_product_stock uid pid v st = inr (u, st') ->
  stock_nonnegative st -> stock_nonnegative st'.
Proof.
  intros H Hst. apply update_product_stock_inv in H.
  destruct H as [[-> _]|(_ & _ & Hv & ->)]; [exact Hst|].
  unfold stock_nonnegative. simpl. apply restock_nonnegative; assumption.
Qed.

Lemma update_stock_nonnegative uid items w r w' :
  update_stock uid items w = (r, w') ->
  stock_nonnegative (db w) -> stock_nonnegative (db w').
Proof.
  revert w. induction items as [|item rest IH]; simpl; intros w H Hst.
  - unfold ret in H. inversion H; subst. exact Hst.
  - unfold bind in H.
    destruct (request T_products Update _ w) as [r1 w1] eqn:E.
    apply request_inv in E. destruct E as (_ & _ & _ & Hq).
    destruct r1 as [e|u].
    + unfold ret in H. inversion H; subst. rewrite Hq. exact Hst.
    + destruct Hq as [_ Hq]. apply (IH w1 H).
      eapply update_product_stock_nonnegative; eassumption.
Qed.

Lemma order_insert_products uid data cartItems w r w1 :
  order_insert uid data cartItems w = (r, w1) -> products (db w1) = products (db w).
Proof.
  unfold order_insert. intros E. apply request_inv in E.
  destruct E as (_ & _ & _ & Hq). destruct r as [e|order].
  - rewrite Hq. reflexivity.
  - destruct Hq as [_ Hq]. apply insert_order_inv in Hq.
    destruct Hq as (_ & _ & ->). reflexivity.
Qed.

Lemma order_items_insert_products order cartItems w r w1 :
  order_items_insert order cartItems w = (r, w1) ->
  products (db w1) = products (db w).
Proof.
  unfold order_items_insert. intros E. apply request_inv in E.
  destruct E as (_ & _ & _ & Hq). destruct r as [e|u].
  - rewrite Hq. reflexivity.
  - destruct Hq as [_ Hq]. apply insert_order_items_inv in Hq.
    destruct Hq as (_ & ->). reflexivity.
Qed.

Lemma clearCart_products s cartItems w cleared w' :
  clearCart s cartItems w = (cleared, w') -> products (db w') = products (db w).
Proof.
  unfold clearCart.
  destruct (user s) as [uid|]; [destruct (isSupabaseConfigured s)|];
    try (unfold ret; intros H; inversion H; subst; reflexivity).
  unfold bind. destruct (request T_cart_items Delete _ w) as [r w1] eqn:E.
  apply request_inv in E. destruct E as (_ & _ & _ & Hq).
  destruct r as [e|[]]; unfold toast, ret; intros H; inversion H; subst; simpl.
  - rewrite Hq. reflexivity.
  - destruct Hq as [_ Hq]. apply delete_cart_inv in Hq. rewrite Hq. reflexivity.
Qed.

Lemma stock_nonnegative_products st st' :
  products st' = products st -> stock_nonnegative st -> stock_nonnegative st'.
Proof. unfold stock_nonnegative. intros ->. auto. Qed.

Lemma handleCheckout_stock_nonnegative s data cartItems w :
  stock_nonnegative (db w) ->
  stock_nonnegative (db (snd (handleCheckout s data cartItems w))).
Proof.
  intros Hst.
  destruct (user s) as [uid|] eqn:Hu; [destruct (isSupabaseConfigured s) eqn:Hc|];
    try (unfold handleCheckout; rewrite Hu, ?Hc; exact Hst).
  destruct (handleCheckout s data cartItems w) as [res w'] eqn:E. simpl.
  destruct (handleCheckout_inv _ _ _ _ _ _ _ Hu Hc E)
    as [(e & w1 & E1 & Ef)
       |[(order & w1 & e & w2 & E1 & E2 & Ef)
        |[(order & w1 & w2 & e & w3 & E1 & E2 & E3 & Ef)
         |(order & w1 & w2 & w3 & cleared & w4 & E1 & E2 & E3 & E4 & Hres & Et)]]];
    apply order_insert_products in E1;
    try apply order_items_insert_products in E2;
    try (apply update_stock_nonnegative in E3;
         [|apply (stock_nonnegative_products (db w)); [congruence|exact Hst]]);
    try (apply checkout_failed_inv in Ef; destruct Ef as (_ & Hdb & _)).
  - apply (stock_nonnegative_products (db w)); [congruence|exact Hst].
  - apply (stock_nonnegative_products (db w)); [congruence|exact Hst].
  - apply (stock_nonnegative_products (db w3)); [congruence|exact E3].
  - apply clearCart_products in E4. apply toast_inv in Et. destruct Et as (Hdb & _).
    apply (stock_nonnegative_products (db w3)); [congruence|exact E3].
Qed.

Lemma find_product_restock st pid v pid' :
  find_product (set_products st (map (restock pid v) (products st))) pid' = None ->
  find_product st pid' = None.
Proof.
  unfold find_product. simpl. rewrite find_restock.
  destruct (List.find _ (products st)); simpl; [discriminate|reflexivity].
Qed.

(** The writes of an administrator that the store accepts: the value
    written for an existing product is not negative. *)
Lemma apply_stock_admin_checked uid items st st' :
  is_admin st uid = true ->
  apply_stock uid items st = inr st' ->
  forall item, In item items ->
    find_product st (CartItem.product_id item) <> None ->
    0 <= Product.stock_quantity (CartItem.product item) - CartItem.quantity item.
Proof.
  revert st. induction items as [|i rest IH]; simpl; intros st Ha H item Hin Hfound.
  - contradiction.
  - destruct (update_product_stock uid _ _ st) as [e|[u st1]] eqn:E; [discriminate|].
    pose proof (update_product_stock_frame _ _ _ _ _ _ E) as (Fp & _).
    apply update_product_stock_inv in E.
    destruct Hin as [->|Hin].
    + destruct E as [[_ [Hna|Hnone]]|(_ & _ & Hv & _)]; [congruence|contradiction|exact Hv].
    + apply (IH st1); auto.
      * rewrite <- Ha. apply is_admin_frame. exact Fp.
      * destruct E as [[-> _]|(_ & _ & _ & ->)]; [exact Hfound|].
        intros Hnone. apply Hfound. eapply find_product_restock. exact Hnone.
Qed.

Lemma order_insert_profiles uid data cartItems w r w1 :
  order_insert uid data cartItems w = (r, w1) -> profiles (db w1) = profiles (db w).
Proof.
  unfold order_insert. intros E. apply request_inv in E.
  destruct E as (_ & _ & _ & Hq). destruct r as [e|order].
  - rewrite Hq. reflexivity.
  - destruct Hq as [_ Hq]. apply insert_order_inv in Hq.
    destruct Hq as (_ & _ & ->). reflexivity.
Qed.

Lemma order_items_insert_profiles order cartItems w r w1 :
  order_items_insert order cartItems w = (r, w1) ->
  profiles (db w1) = profiles (db w).
Proof.
  unfold order_items_insert. intros E. apply request_inv in E.
  destruct E as (_ & _ & _ & Hq). destruct r as [e|u].
  - rewrite Hq. reflexivity.
  - destruct Hq as [_ Hq]. apply insert_order_items_inv in Hq.
    destruct Hq as (_ & ->). reflexivity.
Qed.

Lemma find_product_products st st' pid :
  products st' = products st -> find_product st' pid = find_product st pid.
Proof. unfold find_product. intros ->. reflexivity. Qed.

(** A checkout of an administrator that reaches the end of its [try]
    block has written, for every entry whose product exists, a stock that
    the CHECK accepted. *)
Lemma handleCheckout_placed_checked s uid data cartItems w :
  user s = Some uid -> isSupabaseConfigured s = true ->
  fst (fst (handleCheckout s data cartItems w)) = OrderPlaced ->
  is_admin (db w) uid = true ->
  forall item, In item cartItems ->
    find_product (db w) (CartItem.product_id item) <> None ->
    CartItem.quantity item <= Product.stock_quantity (CartItem.product item).
Proof.
  intros Hu Hc Hplaced Ha item Hin Hfound.
  destruct (handleCheckout s data cartItems w) as [res w'] eqn:E. simpl in Hplaced.
  destruct (handleCheckout_inv _ _ _ _ _ _ _ Hu Hc E)
    as [(e & w1 & E1 & Ef)
       |[(order & w1 & e & w2 & E1 & E2 & Ef)
        |[(order & w1 & w2 & e & w3 & E1 & E2 & E3 & Ef)
         |(order & w1 & w2 & w3 & cleared & w4 & E1 & E2 & E3 & E4 & Hres & Et)]]];
    try (apply checkout_failed_inv in Ef; destruct Ef as (-> & _);
         simpl in Hplaced; discriminate).
  pose proof (order_insert_products _ _ _ _ _ _ E1) as P1.
  pose proof (order_insert_profiles _ _ _ _ _ _ E1) as R1.
  pose proof (order_items_insert_products _ _ _ _ _ E2) as P2.
  pose proof (order_items_insert_profiles _ _ _ _ _ E2) as R2.
  apply update_stock_inv in E3. destruct E3 as (l & _ & _ & _ & _ & Happly).
  assert (Ha2 : is_admin (db w2) uid = true).
  { rewrite <- Ha. apply is_admin_frame. congruence. }
  assert (Hfound2 : find_product (db w2) (CartItem.product_id item) <> None).
  { rewrite (find_product_products (db w) (db w2)); [exact Hfound|congruence]. }
  pose proof (apply_stock_admin_checked _ _ _ _ Ha2 Happly item Hin Hfound2).
  lia.
Qed.

(** C2, as amended.  [handleCheckout] compares no stock with a quantity
    before it inserts the Order and its lines: the Order row is persisted
    as soon as the store accepts its insert.  What the checkout writes
    for an entry of quantity [q] is the stock [s] carried by the product
    of the cart entry, minus [q], and the store accepts a written stock
    only if it is not negative.  So, from a store without negative stock:
    after the checkout, whatever its outcome, no product has a negative
    stock; and a checkout of an identity that the product policy lets
    write completes only if [q <= s] for every entry whose product
    exists, where [s] is the stock carried by the cart entry - the stock
    before the purchase when the entry is in sync with the store. *)
Theorem checkout_stock_rule s uid data cartItems w :
  user s = Some uid -> isSupabaseConfigured s = true ->
  stock_nonnegative (db w) ->
  stock_nonnegative (db (snd (handleCheckout s data cartItems w)))
  /\ (fst (fst (handleCheckout s data cartItems w)) = OrderPlaced ->
      is_admin (db w) uid = true ->
      forall item,
        In item cartItems ->
        (find_product (db w) (CartItem.product_id item) <> None ->
         CartItem.quantity item <= Product.stock_quantity (CartItem.product item))
        /\ (forall before,
               stock_of (db w) (CartItem.product_id item) = Some before ->
               stock_in_sync (db w) item ->
               CartItem.quantity item <= before))
  /\ (response_ok (fst (order_insert uid data cartItems w)) = true ->
      orders (db (snd (handleCheckout s data cartItems w)))
      = orders (db w) ++ [order_of uid data cartItems (db w)]).
Proof.
  intros Hu Hc Hst. split; [|split].
  - apply handleCheckout_stock_nonnegative. exact Hst.
  - intros Hplaced Ha item Hin.
    pose proof (handleCheckout_placed_checked _ _ _ _ _ Hu Hc Hplaced Ha item Hin) as Hq.
    split; [exact Hq|].
    intros before Hbefore Hsync. unfold stock_in_sync in Hsync.
    rewrite Hbefore in Hsync. inversion Hsync; subst.
    apply Hq. unfold stock_of in Hbefore.
    destruct (find_product (db w) (CartItem.product_id item)); discriminate.
  - intros Hok.
    destruct (handleCheckout_order_tables s uid data cartItems w Hu Hc)
      as [[Hbad _]|(_ & Horders & _)]; [congruence|exact Horders].
Qed.

Example checkout_stock_rule_witness :
  let cart := [headphones_entry "admin-1" 2; watch_entry "admin-1" 1] in
  let w := world_of (store_with_cart "admin-1" 2 1) in
  stock_nonnegative (db (snd (handleCheckout administrator sample_form cart w)))
  /\ CartItem.quantity (headphones_entry "admin-1" 2) <= 50.
Proof.
  intros cart w.
  assert (Hst : stock_nonnegative (db w)).
  { unfold stock_nonnegative. simpl. repeat constructor; simpl; lia. }
  destruct (checkout_stock_rule administrator "admin-1" sample_form cart w
              eq_refl eq_refl Hst) as (Hnonneg & Hrule & _).
  split; [exact Hnonneg|].
  destruct (Hrule eq_refl eq_refl (headphones_entry "admin-1" 2) (or_introl eq_refl))
    as (_ & Hsync).
  apply (Hsync 50); reflexivity.
Defined.

(** C2 as stated fails: one pair of headphones is left in the store, the
    cart entry was fetched when five were left, and two are bought; the
    checkout completes and writes the stock 3. *)
Lemma checkout_permitted_beyond_stock :
  let cart := [earlier_headphones_entry "admin-1" 2] in
  let w := world_of (store_last_unit "admin-1" 2) in
  stock_of (db w) "prod-headphones" = Some 1
  /\ fst (fst (handleCheckout administrator sample_form cart w)) = OrderPlaced
  /\ stock_of (db (snd (handleCheckout administrator sample_form cart w)))
       "prod-headphones" = Some 3
  /\ ~ stock_rule_as_specified cart w (handleCheckout administrator sample_form cart w).
Proof.
  intros cart w.
  split; [reflexivity|]. split; [reflexivity|]. split; [reflexivity|].
  intros (Hrule & _).
  specialize (Hrule eq_refl (earlier_headphones_entry "admin-1" 2) 1
                (or_introl eq_refl) eq_refl).
  vm_compute in Hrule. apply Hrule. reflexivity.
Qed.

(** The store when stock does not cover the quantity: an administrator
    buys two pairs of headphones while one is left, with a cart entry in
    sync.  The Order and its line are persisted, the stock write is
    rejected by the CHECK, the checkout ends in its [catch] block and the
    stock is as it was. *)
Example checkout_of_more_than_stock :
  let cart := [last_unit_entry "admin-1" 2] in
  let w := world_of (store_last_unit "admin-1" 2) in
  let run := handleCheckout administrator sample_form cart w in
  stock_in_sync (db w) (last_unit_entry "admin-1" 2)
  /\ fst (fst run) = CheckoutFailed
  /\ snd (fst run) = cart
  /\ length (orders (db (snd run))) = 1%nat
  /\ length (order_items (db (snd run))) = 1%nat
  /\ stock_of (db (snd run)) "prod-headphones" = Some 1
  /\ map call_ok (new_calls w (snd run)) = [true; true; false].
Proof. repeat split. Qed.

(** The stock loop of an identity that the product policy does not let
    write: every update is answered without error and without effect. *)
Lemma checkout_of_customer_leaves_products s uid data cartItems w :
  user s = Some uid -> isSupabaseConfigured s = true ->
  is_admin (db w) uid = false ->
  every_call_succeeded w (snd (handleCheckout s data cartItems w)) ->
  fst (fst (handleCheckout s data cartItems w)) = OrderPlaced
  /\ products (db (snd (handleCheckout s data cartItems w))) = products (db w).
Proof.
  intros Hu Hc Ha Hall.
  destruct (handleCheckout_placed _ _ _ _ _ Hu Hc Hall)
    as (Hres & _ & _ & _ & _ & Hproducts & _).
  split; [rewrite Hres; reflexivity|exact (Hproducts Ha)].
Qed.

(** For such an identity not even a cart entry in sync ties the purchase
    to the stock: a customer buys two pairs of headphones while one is
    left; every call succeeds, the order is placed, the stock stays 1. *)
Example checkout_of_customer_beyond_stock :
  let cart := [last_unit_entry "user-1" 2] in
  let w := world_of (store_last_unit "user-1" 2) in
  let run := handleCheckout customer sample_form cart w in
  stock_in_sync (db w) (last_unit_entry "user-1" 2)
  /\ fst run = (OrderPlaced, [])
  /\ map call_ok (new_calls w (snd run)) = [true; true; true; true]
  /\ stock_of (db (snd run)) "prod-headphones" = Some 1.
Proof. repeat split. Qed.

Example checkout_of_customer :
  let cart := [headphones_entry "user-1" 2; watch_entry "user-1" 1] in
  let w := world_of (store_with_cart "user-1" 2 1) in
  let run := handleCheckout customer sample_form cart w in
  fst run = (OrderPlaced, [])
  /\ map call_ok (new_calls w (snd run)) = [true; true; true; true; true]
  /\ stock_of (db (snd run)) "prod-headphones" = Some 50
  /\ stock_of (db (snd run)) "prod-watch" = Some 30.
Proof. repeat split. Qed.

Lemma order_insert_accepted uid data cartItems w :
  hd false (outages w) = false ->
  0 <= cartTotal cartItems <= decimal_10_2_max ->
  exists order w1, order_insert uid data cartItems w = (inr order, w1).
Proof.
  intros Ho Ht. unfold order_insert, request.
  unfold insert_order.
  replace (cartTotal cartItems <? 0) with false by (symmetry; apply Z.ltb_ge; lia).
  replace (decimal_10_2_max <? cartTotal cartItems) with false
    by (symmetry; apply Z.ltb_ge; lia).
  simpl. destruct (outages w) as [|[|] rest]; simpl in *; try discriminate; eauto.
Qed.

(** C3, as amended.  The cart is tested for emptiness by the cart
    sidebar, which offers "Proceed to Checkout" only to a signed-in user
    whose cart state is not empty.  [handleCheckout] makes no such test:
    run on an empty cart for a signed-in identity, its first call is the
    insert of an Order row, and when the store is reached that row is
    persisted, with total 0; no Order Line is inserted and no call is
    made on table [products]. *)
Theorem empty_cart_checkout s uid data w :
  user s = Some uid -> isSupabaseConfigured s = true ->
  hd false (outages w) = false ->
  let st := db w in
  let w' := snd (handleCheckout s data [] w) in
  (forall cartItems, checkout_offered s cartItems = true -> cartItems <> [])
  /\ orders (db w') = orders st ++ [order_of uid data [] st]
  /\ Order.total_amount (order_of uid data [] st) = 0
  /\ order_items (db w') = order_items st
  /\ hd_error (new_calls w w')
     = Some {| call_table := T_orders; call_verb := Insert; call_ok := true |}
  /\ Forall (fun c => call_table c <> T_products) (new_calls w w').
Proof.
  intros Hu Hc Ho. cbv zeta. split.
  { intros cartItems. unfold checkout_offered. rewrite Hu.
    destruct cartItems; [discriminate|]. intros _. discriminate. }
  destruct (order_insert_accepted uid data [] w Ho) as (order & w1 & E1);
    [unfold cartTotal, decimal_10_2_max; simpl; lia|].
  destruct (handleCheckout_order_tables s uid data [] w Hu Hc) as [[Hbad _]|(_ & Horders & Hlines)].
  { rewrite E1 in Hbad. discriminate. }
  split; [exact Horders|]. split; [reflexivity|].
  split.
  { destruct Hlines as [H|H]; [exact H|]. rewrite H. unfold lines_of. simpl.
    apply app_nil_r. }
  destruct (handleCheckout s data [] w) as [res w'] eqn:E. simpl.
  destruct (handleCheckout_inv _ _ _ _ _ _ _ Hu Hc E)
    as [(e & w1' & E1' & Ef)
       |[(order' & w1' & e & w2 & E1' & E2 & Ef)
        |[(order' & w1' & w2 & e & w3 & E1' & E2 & E3 & Ef)
         |(order' & w1' & w2 & w3 & cleared & w4 & E1' & E2 & E3 & E4 & Hres & Et)]]];
    rewrite E1 in E1'; inversion E1'; subst; clear E1';
    unfold order_insert, order_items_insert in *;
    apply request_inv in E1; destruct E1 as (C1 & _);
    try (apply request_inv in E2; destruct E2 as (C2 & _));
    try (apply checkout_failed_inv in Ef; destruct Ef as (_ & _ & Cf & _)).
  - rewrite C2, C1, <- app_assoc in Cf.
    rewrite (new_calls_app _ _ _ Cf). simpl.
    split; [reflexivity|]. repeat constructor; simpl; discriminate.
  - simpl in E3. unfold ret in E3. discriminate.
  - simpl in E3. unfold ret in E3. inversion E3; subst.
    destruct (clearCart_inv _ _ _ _ _ _ Hu Hc E4) as (c & C4 & Ht & _).
    apply toast_inv in Et. destruct Et as (_ & Ct & _).
    rewrite C4, C2, C1, <- !app_assoc in Ct.
    rewrite (new_calls_app _ _ _ Ct). simpl.
    split; [reflexivity|]. repeat constructor; simpl; try discriminate.
    rewrite Ht. discriminate.
Qed.

Example empty_cart_checkout_witness :
  let w := world_of sample_store in
  let w' := snd (handleCheckout customer sample_form [] w) in
  length (orders (db w')) = 1%nat
  /\ order_items (db w') = []
  /\ hd_error (new_calls w w')
     = Some {| call_table := T_orders; call_verb := Insert; call_ok := true |}.
Proof.
  intros w w'.
  destruct (empty_cart_checkout customer "user-1" sample_form w eq_refl eq_refl eq_refl)
    as (_ & Ho & _ & Hl & Hc & _).
  fold w' in Ho, Hl, Hc.
  split; [rewrite Ho; reflexivity|]. split; [exact Hl|exact Hc].
Defined.

(** C3 as stated fails: the checkout of an empty cart by a signed-in
    customer is not turned down; it inserts an Order row. *)
Lemma empty_cart_checkout_not_rejected :
  fst (fst (handleCheckout customer sample_form [] (world_of sample_store))) = OrderPlaced
  /\ length (orders (db (snd (handleCheckout customer sample_form []
                                (world_of sample_store))))) = 1%nat
  /\ ~ rejected_before_any_write customer sample_form (world_of sample_store).
Proof.
  split; [reflexivity|]. split; [reflexivity|].
  intros (Hout & _). apply Hout. reflexivity.
Qed.

(** The gate of the sidebar and the state of the modal are two states.
    Sidebar and modal both load the cart of the customer; a first
    checkout empties the state of the modal and the rows of the store,
    not the state of the sidebar, which still offers the checkout; the
    second checkout then runs on the empty state of the modal and
    inserts an Order of total 0. *)
Example empty_cart_checkout_behind_the_gate :
  let w0 := world_of (store_with_cart "user-1" 2 1) in
  let sidebar := useCart_effect customer [] w0 in
  let modal := useCart_effect customer [] (snd sidebar) in
  let first := handleCheckout customer sample_form (fst modal) (snd modal) in
  let second := handleCheckout customer sample_form (snd (fst first)) (snd first) in
  length (fst sidebar) = 2%nat
  /\ snd (fst first) = []
  /\ checkout_offered customer (fst sidebar) = true
  /\ fst (fst second) = OrderPlaced
  /\ map Order.total_amount (orders (db (snd second))) = [69997; 0].
Proof. repeat split. Qed.

(** *** Order lines stay as they were inserted *)

Lemma request_order_items {A : Type} t v (q : Store -> Response (A * Store)) w :
  (forall st a st', q st = inr (a, st') -> order_items st' = order_items st) ->
  order_items (db (snd (request t v q w))) = order_items (db w).
Proof.
  intros Hq. destruct (request t v q w) as [r w1] eqn:E.
  apply request_inv in E. destruct E as (_ & _ & _ & H). simpl.
  destruct r as [e|a]; [rewrite H; reflexivity|].
  destruct H as [_ H]. exact (Hq _ _ _ H).
Qed.

Lemma select_cart_order_items uid st a st' :
  select_cart uid st = inr (a, st') -> order_items st' = order_items st.
Proof. unfold select_cart. intros H. inversion H; subst. reflexivity. Qed.

Lemma upsert_cart_item_order_items uid pid q st a st' :
  upsert_cart_item uid pid q st = inr (a, st') -> order_items st' = order_items st.
Proof.
  unfold upsert_cart_item.
  destruct (negb (0 <? q)); [discriminate|].
  destruct (integer_max <? q); [discriminate|].
  destruct (find_product st pid); [|discriminate].
  destruct (List.find _ (cart_items st)); [discriminate|].
  simpl. intros H. inversion H; subst. reflexivity.
Qed.

Lemma update_cart_quantity_order_items uid pid q st a st' :
  update_cart_quantity uid pid q st = inr (a, st') -> order_items st' = order_items st.
Proof.
  unfold update_cart_quantity.
  destruct (List.filter _ (cart_items st)) as [|r [|r' l]]; try discriminate.
  destruct (negb (0 <? q)); [discriminate|].
  destruct (integer_max <? q); [discriminate|].
  destruct (find_product st pid); [|discriminate].
  intros H; inversion H; subst; reflexivity.
Qed.

Lemma delete_cart_item_order_items uid pid st a st' :
  delete_cart_item uid pid st = inr (a, st') -> order_items st' = order_items st.
Proof. unfold delete_cart_item. intros H. inversion H; subst. reflexivity. Qed.

Lemma delete_cart_order_items uid st a st' :
  delete_cart uid st = inr (a, st') -> order_items st' = order_items st.
Proof. unfold delete_cart. intros H. inversion H; subst. reflexivity. Qed.

Lemma update_product_price_order_items uid pid v st a st' :
  update_product_price uid pid v st = inr (a, st') -> order_items st' = order_items st.
Proof.
  unfold update_product_price.
  destruct (negb (is_admin st uid)); [intros H; inversion H; subst; reflexivity|].
  destruct (find_product st pid); [|intros H; inversion H; subst; reflexivity].
  destruct (v <? 0); [discriminate|]. intros H; inversion H; subst; reflexivity.
Qed.

(** A function of the hook: at most one request, on a statement that
    leaves the order lines alone, then notifications. *)
Ltac hook_order_items :=
  lazymatch goal with
  | |- context [user ?s] =>
      destruct (user s) as [uid|]; [destruct (isSupabaseConfigured s)|];
      try reflexivity
  end;
  unfold bind;
  lazymatch goal with
  | |- context [request ?t ?v ?q ?w] =>
      assert (Hreq : order_items (db (snd (request t v q w))) = order_items (db w))
        by (apply request_order_items; intros;
            first [ eapply select_cart_order_items; eassumption
                  | eapply upsert_cart_item_order_items; eassumption
                  | eapply update_cart_quantity_order_items; eassumption
                  | eapply delete_cart_item_order_items; eassumption
                  | eapply delete_cart_order_items; eassumption ]);
      destruct (request t v q w) as [[e|a] w1]; simpl in *; exact Hreq
  end.

Lemma fetchCartItems_order_items s cartItems w :
  order_items (db (snd (fetchCartItems s cartItems w))) = order_items (db w).
Proof. unfold fetchCartItems. hook_order_items. Qed.

Lemma addToCart_order_items s productId quantity cartItems w :
  order_items (db (snd (addToCart s productId quantity cartItems w))) = order_items (db w).
Proof. unfold addToCart. hook_order_items. Qed.

Lemma removeFromCart_order_items s productId cartItems w :
  order_items (db (snd (removeFromCart s productId cartItems w))) = order_items (db w).
Proof. unfold removeFromCart. hook_order_items. Qed.

Lemma clearCart_order_items s cartItems w :
  order_items (db (snd (clearCart s cartItems w))) = order_items (db w).
Proof. unfold clearCart. hook_order_items. Qed.

Lemma updateQuantity_order_items s productId quantity cartItems w :
  order_items (db (snd (updateQuantity s productId quantity cartItems w)))
  = order_items (db w).
Proof.
  destruct (Z_le_gt_dec quantity 0) as [Hq|Hq].
  - rewrite updateQuantity_delegates by exact Hq. apply removeFromCart_order_items.
  - unfold updateQuantity.
    replace (quantity <=? 0) with false by (symmetry; apply Z.leb_gt; lia).
    hook_order_items.
Qed.

Lemma useCart_effect_order_items s cartItems w :
  order_items (db (snd (useCart_effect s cartItems w))) = order_items (db w).
Proof.
  unfold useCart_effect.
  destruct (user s) as [uid|] eqn:Hu; [destruct (isSupabaseConfigured s) eqn:Hc|];
    try reflexivity.
  apply fetchCartItems_order_items.
Qed.

Lemma handleCheckout_order_items_grow s data cartItems w :
  exists more,
    order_items (db (snd (handleCheckout s data cartItems w)))
    = order_items (db w) ++ more.
Proof.
  destruct (user s) as [uid|] eqn:Hu; [destruct (isSupabaseConfigured s) eqn:Hc|];
    try (exists []; unfold handleCheckout; rewrite Hu, ?Hc; simpl;
         rewrite app_nil_r; reflexivity).
  destruct (handleCheckout_order_tables s uid data cartItems w Hu Hc)
    as [[_ H]|(_ & _ & [H|H])].
  - exists []. rewrite H, app_nil_r. reflexivity.
  - exists []. rewrite H, app_nil_r. reflexivity.
  - eexists. exact H.
Qed.

Lemma activity_order_items w w' :
  activity w w' -> exists more, order_items (db w') = order_items (db w) ++ more.
Proof.
  intros H. destruct H;
    try (exists []; rewrite app_nil_r;
         first [ apply useCart_effect_order_items
               | apply fetchCartItems_order_items
               | apply addToCart_order_items
               | apply updateQuantity_order_items
               | apply removeFromCart_order_items
               | apply clearCart_order_items ]).
  - exists []. rewrite app_nil_r. apply request_order_items.
    intros st a st'. apply update_product_price_order_items.
  - apply handleCheckout_order_items_grow.
Qed.

Lemma later_order_items w w' :
  later w w' -> exists more, order_items (db w') = order_items (db w) ++ more.
Proof.
  induction 1 as [w|w w1 w2 _ [more1 IH] Hact].
  - exists []. rewrite app_nil_r. reflexivity.
  - destruct (activity_order_items _ _ Hact) as [more2 H2].
    exists (more1 ++ more2). rewrite H2, IH, app_assoc. reflexivity.
Qed.

Lemma lines_of_entries n order cartItems st :
  Forall2
    (fun item l =>
       OrderItem.order_id l = Order.id order
       /\ OrderItem.product_id l = CartItem.product_id item
       /\ OrderItem.quantity l = CartItem.quantity item
       /\ OrderItem.price l = Product.price (CartItem.product item)
       /\ (price_in_sync st item ->
           price_of st (OrderItem.product_id l) = Some (OrderItem.price l)))
    cartItems (number_order_items n (orderItems_of order cartItems)).
Proof.
  revert n. induction cartItems as [|item rest IH]; intros n; simpl; constructor.
  - simpl. repeat split; auto.
  - apply IH.
Qed.

(** C5, as amended.  The Order Lines that a checkout inserts are one per
    entry of the cart state, each with the product and the quantity of
    its entry and with the price carried by the product of that entry,
    as the client holds it when the order is placed; no price is read
    from the store at that moment, so the line has the catalog price of
    that moment when the entry is in sync with the catalog.  Whatever
    happens later - functions of the cart ledger, further checkouts,
    changes of catalog prices - an Order Line stays in table
    [order_items] as it was inserted, price included. *)
Theorem order_lines_keep_cart_prices s uid data cartItems w :
  user s = Some uid -> isSupabaseConfigured s = true ->
  let st := db w in
  let w' := snd (handleCheckout s data cartItems w) in
  (new_lines w w' = [] \/ new_lines w w' = lines_of uid data cartItems st)
  /\ Forall2
       (fun item l =>
          OrderItem.order_id l = Order.id (order_of uid data cartItems st)
          /\ OrderItem.product_id l = CartItem.product_id item
          /\ OrderItem.quantity l = CartItem.quantity item
          /\ OrderItem.price l = Product.price (CartItem.product item)
          /\ (price_in_sync st item ->
              price_of st (OrderItem.product_id l) = Some (OrderItem.price l)))
       cartItems (lines_of uid data cartItems st)
  /\ (forall w'' n l,
         later w' w'' ->
         order_items (db w') !! n = Some l ->
         order_items (db w'') !! n = Some l).
Proof.
  intros Hu Hc. cbv zeta. split; [|split].
  - unfold new_lines.
    destruct (handleCheckout_order_tables s uid data cartItems w Hu Hc)
      as [[_ H]|(_ & _ & [H|H])]; rewrite H.
    + left. rewrite skipn_all. reflexivity.
    + left. rewrite skipn_all. reflexivity.
    + right. rewrite skipn_app, skipn_all, Nat.sub_diag. reflexivity.
  - apply lines_of_entries.
  - intros w'' n l Hlater Hl.
    destruct (later_order_items _ _ Hlater) as [more ->].
    apply lookup_app_l_Some. exact Hl.
Qed.

Example order_lines_keep_cart_prices_witness :
  let cart := [headphones_entry "user-1" 2; watch_entry "user-1" 1] in
  let w := world_of (store_with_cart "user-1" 2 1) in
  let w' := snd (handleCheckout customer sample_form cart w) in
  let w'' := snd (request T_products Update
                    (update_product_price "admin-1" "prod-headphones" 24999) w') in
  price_of (db w'') "prod-headphones" = Some 24999
  /\ option_map OrderItem.price (order_items (db w'') !! 0%nat) = Some 19999.
Proof.
  intros cart w w' w''.
  destruct (order_lines_keep_cart_prices customer "user-1" sample_form cart w
              eq_refl eq_refl) as (_ & _ & Hkeep).
  split; [reflexivity|].
  rewrite (Hkeep w'' 0%nat
             (OrderItem.mk "uuid-1" "uuid-0" "prod-headphones" 2 19999)).
  - reflexivity.
  - apply (later_then _ w'); [apply later_now|]. apply act_price.
  - reflexivity.
Defined.

(** C5 as stated fails: the price of the headphones went up to 249.99
    after the cart entry was fetched at 199.99; the line inserted by the
    checkout carries 199.99, not the catalog price of that moment. *)
Lemma order_line_not_at_catalog_price :
  let cart := [headphones_entry "user-1" 2; watch_entry "user-1" 1] in
  let w := world_of (store_repriced "user-1" 2 1) in
  let w' := snd (handleCheckout customer sample_form cart w) in
  price_of (db w) "prod-headphones" = Some 24999
  /\ option_map OrderItem.price (hd_error (new_lines w w')) = Some 19999
  /\ ~ lines_at_catalog_price w w'.
Proof.
  intros cart w w'.
  split; [reflexivity|]. split; [reflexivity|].
  unfold lines_at_catalog_price. intros H.
  assert (Hl : new_lines w w'
               = [OrderItem.mk "uuid-1" "uuid-0" "prod-headphones" 2 19999;
                  OrderItem.mk "uuid-2" "uuid-0" "prod-watch" 1 29999])
    by reflexivity.
  rewrite Hl in H. inversion H as [|? ? Hfirst _]; subst.
  vm_compute in Hfirst. discriminate.
Qed.

(** ** Adding the same product twice *)

Lemma cart_row_of_set_quantity uid pid q r :
  cart_row_of uid pid (set_quantity q r) = cart_row_of uid pid r.
Proof. reflexivity. Qed.

Lemma find_none_filter {A : Type} (f : A -> bool) l :
  List.find f l = None -> List.filter f l = [].
Proof.
  induction l as [|x l IH]; simpl; [reflexivity|].
  destruct (f x); [discriminate|exact IH].
Qed.

(** The upsert on the tables: it is accepted only where the pair (user,
    product) has no row, and afterwards the pair has one row, the one
    that is returned. *)
Lemma upsert_cart_item_rows uid pid q st data st' :
  upsert_cart_item uid pid q st = inr (data, st') ->
  CartItem.product_id data = pid /\ CartItem.quantity data = q
  /\ CartItem.user_id data = uid
  /\ rows_of st uid pid = []
  /\ rows_of st' uid pid = [row_of data].
Proof.
  unfold upsert_cart_item, rows_of.
  destruct (negb (0 <? q)); [discriminate|].
  destruct (integer_max <? q); [discriminate|].
  destruct (find_product st pid) as [p|]; [|discriminate].
  destruct (List.find (cart_row_of uid pid) (cart_items st)) as [r|] eqn:Hf;
    [discriminate|].
  simpl. intros H. inversion H; subst. simpl. repeat split; auto.
  - apply find_none_filter. exact Hf.
  - rewrite List.filter_app, (find_none_filter _ _ Hf). simpl.
    unfold cart_row_of. simpl. rewrite !String.eqb_refl. reflexivity.
Qed.

Lemma upsert_cart_item_single uid pid q st data st' :
  upsert_cart_item uid pid q st = inr (data, st') ->
  exists r, rows_of st' uid pid = [r] /\ CartRow.quantity r = q.
Proof.
  intros H. apply upsert_cart_item_rows in H.
  destruct H as (_ & Hq & _ & _ & Hrows).
  exists (row_of data). split; [exact Hrows|exact Hq].
Qed.

Lemma entries_of_app l1 l2 pid :
  entries_of (l1 ++ l2) pid = entries_of l1 pid ++ entries_of l2 pid.
Proof. unfold entries_of. apply List.filter_app. Qed.

Lemma entries_of_none l pid :
  Forall (fun item => String.eqb (CartItem.product_id item) pid = false) l ->
  entries_of l pid = [].
Proof.
  unfold entries_of. induction 1 as [|x l Hx _ IH]; simpl; [reflexivity|].
  rewrite Hx. exact IH.
Qed.

(** The local update of [addToCart] on a cart state that holds at most
    one entry of the product: afterwards it holds exactly the row that
    the store returned. *)
Lemma local_update_single productId data cartItems :
  CartItem.product_id data = productId ->
  (length (entries_of cartItems productId) <= 1)%nat ->
  let existingIndex :=
    findIndex (fun item => String.eqb (CartItem.product_id item) productId) cartItems in
  entries_of (if 0 <=? existingIndex
              then <[Z.to_nat existingIndex := data]> cartItems
              else cartItems ++ [data]) productId
  = [data].
Proof.
  intros Hdata Hlen. cbv zeta.
  assert (Hself : entries_of [data] productId = [data]).
  { unfold entries_of. simpl. rewrite Hdata, String.eqb_refl. reflexivity. }
  destruct (0 <=? findIndex _ cartItems) eqn:E.
  - apply Z.leb_le in E.
    destruct (findIndex_split _ _ E) as (l1 & x & l2 & -> & Hl1 & Hx & Hi).
    rewrite Hi, Nat2Z.id, insert_middle.
    rewrite entries_of_app in Hlen.
    rewrite (entries_of_app l1 (data :: l2)), (entries_of_none l1) in * by exact Hl1.
    simpl in *. change (data :: l2) with ([data] ++ l2).
    unfold entries_of in *. simpl in *. rewrite Hx in Hlen.
    rewrite Hdata, String.eqb_refl. simpl in *.
    destruct (List.filter _ l2); [reflexivity|simpl in Hlen; lia].
  - apply Z.leb_gt in E. apply findIndex_negative in E.
    rewrite entries_of_app, (entries_of_none _ _ E), Hself. reflexivity.
Qed.

Lemma addToCart_inv s uid productId quantity cartItems w :
  user s = Some uid -> isSupabaseConfigured s = true ->
  exists r w1,
    request T_cart_items Upsert (upsert_cart_item uid productId quantity) w = (r, w1)
    /\ db (snd (addToCart s productId quantity cartItems w)) = db w1
    /\ calls (snd (addToCart s productId quantity cartItems w)) = calls w1
    /\ match r with
       | inl _ => fst (addToCart s productId quantity cartItems w) = cartItems
       | inr data =>
           fst (addToCart s productId quantity cartItems w)
           = let existingIndex :=
               findIndex (fun item => String.eqb (CartItem.product_id item) productId)
                         cartItems in
             if 0 <=? existingIndex
             then <[Z.to_nat existingIndex := data]> cartItems
             else cartItems ++ [data]
       end.
Proof.
  intros Hu Hc. unfold addToCart. rewrite Hu, Hc. unfold bind.
  destruct (request T_cart_items Upsert _ w) as [r w1].
  exists r, w1. split; [reflexivity|].
  destruct r as [e|data]; simpl; auto.
Qed.

Lemma request_refused {A : Type} t v (q : Store -> Response (A * Store)) w e :
  q (db w) = inl e ->
  exists e' w1, request t v q w = (inl e', w1)
    /\ db w1 = db w /\ toasts w1 = toasts w
    /\ calls w1 = calls w ++ [{| call_table := t; call_verb := v; call_ok := false |}].
Proof.
  intros Hq. unfold request. rewrite Hq.
  destruct (outages w) as [|[|] rest]; eexists _, _; simpl; repeat split.
Qed.

(** An upsert that the store accepts found no row of the pair and has
    added one. *)
Lemma upsert_cart_item_new_row uid pid q st data st' :
  upsert_cart_item uid pid q st = inr (data, st') ->
  rows_of st uid pid = []
  /\ rows_of st' uid pid = [row_of data]
  /\ CartItem.quantity data = q.
Proof.
  unfold upsert_cart_item, rows_of.
  destruct (negb (0 <? q)); [discriminate|].
  destruct (integer_max <? q); [discriminate|].
  destruct (find_product st pid) as [p|]; [|discriminate].
  destruct (List.find (cart_row_of uid pid) (cart_items st)) as [r|] eqn:Hf;
    [discriminate|].
  simpl. intros H. inversion H; subst. simpl.
  rewrite List.filter_app, (find_none_filter _ _ Hf). simpl.
  unfold cart_row_of. simpl. rewrite !String.eqb_refl. auto.
Qed.

(** The upsert of a pair (user, product) that has a row is refused. *)
Lemma upsert_cart_item_held uid pid q st :
  rows_of st uid pid <> [] -> exists e, upsert_cart_item uid pid q st = inl e.
Proof.
  unfold upsert_cart_item, rows_of. intros Hheld.
  destruct (negb (0 <? q)); [eauto|].
  destruct (integer_max <? q); [eauto|].
  destruct (find_product st pid) as [p|]; [|eauto].
  destruct (List.find (cart_row_of uid pid) (cart_items st)) as [r|] eqn:Hf; [eauto|].
  apply find_none_filter in Hf. contradiction.
Qed.

(** What an [addToCart] does that the store refuses. *)
Lemma addToCart_refused s uid productId quantity cartItems w e :
  user s = Some uid -> isSupabaseConfigured s = true ->
  upsert_cart_item uid productId quantity (db w) = inl e ->
  fst (addToCart s productId quantity cartItems w) = cartItems
  /\ db (snd (addToCart s productId quantity cartItems w)) = db w
  /\ new_calls w (snd (addToCart s productId quantity cartItems w))
     = [{| call_table := T_cart_items; call_verb := Upsert; call_ok := false |}]
  /\ toasts (snd (addToCart s productId quantity cartItems w))
     = toasts w ++ [toast_error "Failed to add to cart"].
Proof.
  intros Hu Hc He.
  destruct (request_refused T_cart_items Upsert _ w e He)
    as (e' & w1 & E & Hdb & Ht & Hcalls).
  unfold addToCart. rewrite Hu, Hc. unfold bind. rewrite E. simpl.
  repeat split; auto.
  - apply new_calls_app. exact Hcalls.
  - rewrite Ht. reflexivity.
Qed.

(** Two calls of [addToCart] for one product: when the store accepts
    the first, it refuses the second, whatever the quantities; the row
    and the cart state are those that the first call left. *)
Lemma addToCart_again_is_refused s uid productId q1 q2 cartItems w :
  user s = Some uid -> isSupabaseConfigured s = true ->
  let first := addToCart s productId q1 cartItems w in
  let second := addToCart s productId q2 (fst first) (snd first) in
  every_call_succeeded w (snd first) ->
  fst second = fst first
  /\ db (snd second) = db (snd first)
  /\ (exists r, rows_of (db (snd second)) uid productId = [r] /\ CartRow.quantity r = q1)
  /\ new_calls (snd first) (snd second)
     = [{| call_table := T_cart_items; call_verb := Upsert; call_ok := false |}]
  /\ toasts (snd second) = toasts (snd first) ++ [toast_error "Failed to add to cart"].
Proof.
  intros Hu Hc first second Hall. subst second.
  destruct (addToCart_inv s uid productId q1 cartItems w Hu Hc)
    as (r & w1 & E & Hdb & Hcalls & _).
  fold first in Hdb, Hcalls.
  apply request_inv in E. destruct E as (C & _ & _ & Q).
  rewrite C in Hcalls.
  assert (Hok : response_ok r = true).
  { apply (every_call_succeeded_app _ _ _ Hcalls) in Hall.
    inversion Hall; subst. assumption. }
  destruct r as [e|data]; [discriminate|]. destruct Q as [_ Q].
  apply upsert_cart_item_new_row in Q. destruct Q as (_ & Hrow & Hq).
  rewrite <- Hdb in Hrow.
  destruct (upsert_cart_item_held uid productId q2 (db (snd first))) as [e He].
  { rewrite Hrow. discriminate. }
  destruct (addToCart_refused s uid productId q2 (fst first) (snd first) e Hu Hc He)
    as (H1 & H2 & H3 & H4).
  split; [exact H1|]. split; [exact H2|].
  split; [exists (row_of data); rewrite H2; split; [exact Hrow|exact Hq]|].
  split; [exact H3|exact H4].
Qed.

(** C4.  The claim fails on the code.  A signed-in customer with an
    empty cart adds the headphones with quantity 2 and then with
    quantity 5.  The upsert names no conflict target, so the second call
    is an insert that [UNIQUE(user_id, product_id)] turns down: the call
    fails, the user is told "Failed to add to cart", and the one row of
    the pair and the one entry of the cart state keep quantity 2. *)
Theorem addToCart_twice_keeps_first_quantity :
  let w := world_of sample_store in
  let first := addToCart customer "prod-headphones" 2 [] w in
  let second := addToCart customer "prod-headphones" 5 (fst first) (snd first) in
  rows_of (db (snd second)) "user-1" "prod-headphones"
  = [CartRow.mk (uuid_of_nat 0) "user-1" "prod-headphones" 2]
  /\ fst second = [CartItem.mk (uuid_of_nat 0) "user-1" "prod-headphones" 2 headphones]
  /\ map call_ok (new_calls w (snd second)) = [true; false]
  /\ toasts (snd second)
     = [toast_success "Added to cart"; toast_error "Failed to add to cart"].
Proof.
  intros w first second.
  assert (Hall : every_call_succeeded w (snd first))
    by (apply every_call_succeeded_by_run; reflexivity).
  destruct (addToCart_again_is_refused customer "user-1" "prod-headphones" 2 5 [] w
              eq_refl eq_refl Hall)
    as (Hcart & Hdb & _ & Hcalls & Htoasts).
  fold first in Hcart, Hdb, Hcalls, Htoasts. fold second in Hcart, Hdb, Hcalls, Htoasts.
  split; [rewrite Hdb; reflexivity|].
  split; [rewrite Hcart; reflexivity|].
  split; [|rewrite Htoasts; reflexivity].
  assert (Hfirst : calls (snd first)
                   = calls w ++ [{| call_table := T_cart_items; call_verb := Upsert;
                                    call_ok := true |}]) by reflexivity.
  assert (Hsecond : calls (snd second) = calls (snd first) ++ new_calls (snd first) (snd second))
    by reflexivity.
  rewrite Hcalls, Hfirst, <- app_assoc in Hsecond.
  rewrite (new_calls_app _ _ _ Hsecond). reflexivity.
Qed.

(** ** The uniqueness of cart entries is kept *)

Lemma filter_map_stable {A : Type} (f : A -> bool) (g : A -> A) l :
  (forall x, f (g x) = f x) ->
  List.filter f (map g l) = map g (List.filter f l).
Proof.
  intros H. induction l as [|x l IH]; simpl; [reflexivity|].
  rewrite H. destruct (f x); simpl; [f_equal|]; exact IH.
Qed.

Lemma filter_length_le {A : Type} (f g : A -> bool) l :
  (length (List.filter f (List.filter g l)) <= length (List.filter f l))%nat.
Proof.
  induction l as [|x l IH]; simpl; [lia|].
  destruct (g x); simpl; destruct (f x); simpl; lia.
Qed.

Lemma overwrite_keeps_pair uid pid q uid' pid' r :
  cart_row_of uid' pid' (if cart_row_of uid pid r then set_quantity q r else r)
  = cart_row_of uid' pid' r.
Proof. destruct (cart_row_of uid pid r); reflexivity. Qed.

Lemma cart_row_of_both uid pid uid' pid' r :
  cart_row_of uid pid r = true -> cart_row_of uid' pid' r = true ->
  uid = uid' /\ pid = pid'.
Proof.
  unfold cart_row_of. rewrite !andb_true_iff, !String.eqb_eq.
  intros [<- <-] [<- <-]. auto.
Qed.

Lemma upsert_cart_item_unique uid pid q st data st' :
  upsert_cart_item uid pid q st = inr (data, st') ->
  unique_in_store st -> unique_in_store st'.
Proof.
  unfold upsert_cart_item, unique_in_store, rows_of.
  destruct (negb (0 <? q)); [discriminate|].
  destruct (integer_max <? q); [discriminate|].
  destruct (find_product st pid) as [p|]; [|discriminate].
  destruct (List.find (cart_row_of uid pid) (cart_items st)) as [r|] eqn:Hf;
    [discriminate|].
  - simpl. intros H Hst uid' pid'. inversion H; subst. simpl.
    rewrite List.filter_app, length_app. simpl.
    destruct (cart_row_of uid' pid' _) eqn:E; simpl.
    + unfold cart_row_of in E. simpl in E.
      apply andb_true_iff in E. rewrite !String.eqb_eq in E. destruct E as [-> ->].
      rewrite (find_none_filter _ _ Hf). simpl. lia.
    + specialize (Hst uid' pid'). lia.
Qed.

Lemma update_cart_quantity_unique uid pid q st data st' :
  update_cart_quantity uid pid q st = inr (data, st') ->
  unique_in_store st -> unique_in_store st'.
Proof.
  unfold update_cart_quantity, unique_in_store, rows_of.
  destruct (List.filter _ (cart_items st)) as [|r [|r' l]]; try discriminate.
  destruct (negb (0 <? q)); [discriminate|].
  destruct (integer_max <? q); [discriminate|].
  destruct (find_product st pid); [|discriminate].
  intros H Hst uid' pid'. inversion H; subst. simpl.
  rewrite filter_map_stable by (intros; apply overwrite_keeps_pair).
  rewrite length_map. apply Hst.
Qed.

Lemma delete_cart_item_unique uid pid st u st' :
  delete_cart_item uid pid st = inr (u, st') ->
  unique_in_store st -> unique_in_store st'.
Proof.
  unfold delete_cart_item, unique_in_store, rows_of.
  intros H Hst uid' pid'. inversion H; subst. simpl.
  eapply Nat.le_trans; [apply filter_length_le|apply Hst].
Qed.

Lemma delete_cart_unique uid st u st' :
  delete_cart uid st = inr (u, st') ->
  unique_in_store st -> unique_in_store st'.
Proof.
  unfold delete_cart, unique_in_store, rows_of.
  intros H Hst uid' pid'. inversion H; subst. simpl.
  eapply Nat.le_trans; [apply filter_length_le|apply Hst].
Qed.

(** What [select_cart] returns for a user holds a product no more often
    than the table does. *)
Lemma select_cart_entries uid st pid rows :
  (length (entries_of
             (flat_map (fun r =>
                          if String.eqb (CartRow.user_id r) uid
                          then match join_product st r with
                               | Some item => [item]
                               | None => []
                               end
                          else [])
                       rows) pid)
   <= length (List.filter (cart_row_of uid pid) rows))%nat.
Proof.
  induction rows as [|r rows IH]; simpl; [lia|].
  rewrite entries_of_app, length_app. unfold cart_row_of at 1.
  destruct (String.eqb (CartRow.user_id r) uid); simpl; [|exact IH].
  destruct (join_product st r) as [item|] eqn:Hj.
  - unfold join_product in Hj.
    destruct (find_product st (CartRow.product_id r)); inversion Hj; subst.
    unfold entries_of at 1. simpl.
    destruct (String.eqb (CartRow.product_id r) pid); simpl; lia.
  - destruct (String.eqb (CartRow.product_id r) pid); simpl; lia.
Qed.

Lemma fetchCartItems_unique s cartItems w :
  unique_in_store (db w) -> unique_in_cart cartItems ->
  unique_in_cart (fst (fetchCartItems s cartItems w)).
Proof.
  intros Hst Hcart. unfold fetchCartItems.
  destruct (user s) as [uid|]; [destruct (isSupabaseConfigured s)|]; try exact Hcart.
  unfold bind. destruct (request T_cart_items Select _ w) as [r w1] eqn:E.
  apply request_inv in E. destruct E as (_ & _ & _ & Q).
  destruct r as [e|data]; simpl; [exact Hcart|].
  destruct Q as [_ Q]. unfold select_cart in Q. inversion Q; subst.
  intros pid. eapply Nat.le_trans; [apply select_cart_entries|apply Hst].
Qed.

Lemma map_replace_entries productId data cartItems pid :
  CartItem.product_id data = productId ->
  length (entries_of
            (map (fun item => if String.eqb (CartItem.product_id item) productId
                              then data else item) cartItems) pid)
  = length (entries_of cartItems pid).
Proof.
  intros Hdata. unfold entries_of.
  induction cartItems as [|x l IH]; simpl; [reflexivity|].
  destruct (String.eqb (CartItem.product_id x) productId) eqn:E.
  - apply String.eqb_eq in E. rewrite Hdata, E.
    destruct (String.eqb productId pid); simpl; rewrite IH; reflexivity.
  - destruct (String.eqb (CartItem.product_id x) pid); simpl; rewrite IH; reflexivity.
Qed.

Lemma local_update_other productId data cartItems pid :
  CartItem.product_id data = productId -> pid <> productId ->
  let existingIndex :=
    findIndex (fun item => String.eqb (CartItem.product_id item) productId) cartItems in
  entries_of (if 0 <=? existingIndex
              then <[Z.to_nat existingIndex := data]> cartItems
              else cartItems ++ [data]) pid
  = entries_of cartItems pid.
Proof.
  intros Hdata Hne. cbv zeta.
  assert (Hd : String.eqb (CartItem.product_id data) pid = false).
  { apply String.eqb_neq. congruence. }
  destruct (0 <=? findIndex _ cartItems) eqn:E.
  - apply Z.leb_le in E.
    destruct (findIndex_split _ _ E) as (l1 & x & l2 & -> & Hl1 & Hx & Hi).
    rewrite Hi, Nat2Z.id, insert_middle, !entries_of_app.
    f_equal. unfold entries_of. simpl. rewrite Hd.
    apply String.eqb_eq in Hx.
    replace (String.eqb (CartItem.product_id x) pid) with false; [reflexivity|].
    symmetry. apply String.eqb_neq. congruence.
  - rewrite entries_of_app. unfold entries_of at 2. simpl. rewrite Hd.
    apply app_nil_r.
Qed.

Lemma addToCart_unique s productId quantity cartItems w :
  unique_in_cart cartItems ->
  unique_in_cart (fst (addToCart s productId quantity cartItems w)).
Proof.
  intros Hcart.
  destruct (user s) as [uid|] eqn:Hu; [destruct (isSupabaseConfigured s) eqn:Hc|];
    try (unfold addToCart; rewrite Hu, ?Hc; exact Hcart).
  destruct (addToCart_inv s uid productId quantity cartItems w Hu Hc)
    as (r & w1 & E & _ & _ & Hres).
  destruct r as [e|data]; rewrite Hres; [exact Hcart|].
  apply request_inv in E. destruct E as (_ & _ & _ & [_ Q]).
  apply upsert_cart_item_rows in Q. destruct Q as (Hpid & _).
  intros pid. destruct (string_dec pid productId) as [->|Hne].
  - rewrite local_update_single; [simpl; lia|exact Hpid|apply Hcart].
  - rewrite local_update_other; [apply Hcart|exact Hpid|exact Hne].
Qed.

Lemma removeFromCart_unique s productId cartItems w :
  unique_in_cart cartItems ->
  unique_in_cart (fst (removeFromCart s productId cartItems w)).
Proof.
  intros Hcart. unfold removeFromCart.
  destruct (user s) as [uid|]; [destruct (isSupabaseConfigured s)|]; try exact Hcart.
  unfold bind. destruct (request T_cart_items Delete _ w) as [[e|u] w1]; simpl;
    [exact Hcart|].
  intros pid. unfold entries_of.
  eapply Nat.le_trans; [apply filter_length_le|apply Hcart].
Qed.

Lemma update_cart_quantity_data uid pid q st data st' :
  update_cart_quantity uid pid q st = inr (data, st') ->
  CartItem.product_id data = pid /\ CartItem.quantity data = q.
Proof.
  unfold update_cart_quantity.
  destruct (List.filter _ (cart_items st)) as [|r [|r' l]]; try discriminate.
  destruct (negb (0 <? q)); [discriminate|].
  destruct (integer_max <? q); [discriminate|].
  destruct (find_product st pid); [|discriminate].
  intros H. inversion H; subst. auto.
Qed.

Lemma updateQuantity_unique s productId quantity cartItems w :
  unique_in_cart cartItems ->
  unique_in_cart (fst (updateQuantity s productId quantity cartItems w)).
Proof.
  intros Hcart. destruct (Z_le_gt_dec quantity 0) as [Hq|Hq].
  - rewrite updateQuantity_delegates by exact Hq.
    apply removeFromCart_unique. exact Hcart.
  - unfold updateQuantity.
    destruct (user s) as [uid|]; [destruct (isSupabaseConfigured s)|]; try exact Hcart.
    replace (quantity <=? 0) with false by (symmetry; apply Z.leb_gt; lia).
    unfold bind. destruct (request T_cart_items Update _ w) as [r w1] eqn:E.
    apply request_inv in E. destruct E as (_ & _ & _ & Q).
    destruct r as [e|data]; simpl; [exact Hcart|].
    destruct Q as [_ Q]. apply update_cart_quantity_data in Q. destruct Q as [Hpid _].
    intros pid. rewrite map_replace_entries by exact Hpid. apply Hcart.
Qed.

Lemma clearCart_unique s cartItems w :
  unique_in_cart cartItems -> unique_in_cart (fst (clearCart s cartItems w)).
Proof.
  intros Hcart. unfold clearCart.
  destruct (user s) as [uid|]; [destruct (isSupabaseConfigured s)|]; try exact Hcart.
  unfold bind. destruct (request T_cart_items Delete _ w) as [[e|u] w1]; simpl;
    [exact Hcart|].
  intros pid. simpl. lia.
Qed.

Lemma request_unique {A : Type} t v (q : Store -> Response (A * Store)) w :
  (forall st a st', q st = inr (a, st') -> unique_in_store st -> unique_in_store st') ->
  unique_in_store (db w) -> unique_in_store (db (snd (request t v q w))).
Proof.
  intros Hq Hst. destruct (request t v q w) as [r w1] eqn:E.
  apply request_inv in E. destruct E as (_ & _ & _ & H). simpl.
  destruct r as [e|a]; [rewrite H; exact Hst|].
  destruct H as [_ H]. exact (Hq _ _ _ H Hst).
Qed.

Lemma select_cart_unique uid st a st' :
  select_cart uid st = inr (a, st') -> unique_in_store st -> unique_in_store st'.
Proof. unfold select_cart. intros H. inversion H; subst. auto. Qed.

Ltac hook_unique Hst :=
  lazymatch goal with
  | |- context [user ?s] =>
      destruct (user s) as [uid|]; [destruct (isSupabaseConfigured s)|];
      try exact Hst
  end;
  unfold bind;
  lazymatch goal with
  | |- context [request ?t ?v ?q ?w] =>
      assert (Hreq : unique_in_store (db (snd (request t v q w))))
        by (apply request_unique; [intros|exact Hst];
            first [ eapply select_cart_unique; eassumption
                  | eapply upsert_cart_item_unique; eassumption
                  | eapply update_cart_quantity_unique; eassumption
                  | eapply delete_cart_item_unique; eassumption
                  | eapply delete_cart_unique; eassumption ]);
      destruct (request t v q w) as [[e|a] w1]; simpl in *; exact Hreq
  end.

(** The functions of the cart ledger keep both forms of uniqueness: on
    a store that satisfies [UNIQUE(user_id, product_id)] and a cart state
    without a repeated product, each of them leaves such a store and
    returns such a cart state. *)
Lemma cart_ledger_keeps_unique s productId quantity cartItems w :
  unique_in_store (db w) -> unique_in_cart cartItems ->
  (unique_in_store (db (snd (fetchCartItems s cartItems w)))
   /\ unique_in_cart (fst (fetchCartItems s cartItems w)))
  /\ (unique_in_store (db (snd (addToCart s productId quantity cartItems w)))
      /\ unique_in_cart (fst (addToCart s productId quantity cartItems w)))
  /\ (unique_in_store (db (snd (updateQuantity s productId quantity cartItems w)))
      /\ unique_in_cart (fst (updateQuantity s productId quantity cartItems w)))
  /\ (unique_in_store (db (snd (removeFromCart s productId cartItems w)))
      /\ unique_in_cart (fst (removeFromCart s productId cartItems w)))
  /\ (unique_in_store (db (snd (clearCart s cartItems w)))
      /\ unique_in_cart (fst (clearCart s cartItems w))).
Proof.
  intros Hst Hcart.
  assert (Hremove : unique_in_store (db (snd (removeFromCart s productId cartItems w)))).
  { unfold removeFromCart. hook_unique Hst. }
  repeat split.
  - unfold fetchCartItems. hook_unique Hst.
  - apply fetchCartItems_unique; assumption.
  - unfold addToCart. hook_unique Hst.
  - apply addToCart_unique; assumption.
  - destruct (Z_le_gt_dec quantity 0) as [Hq|Hq].
    + rewrite updateQuantity_delegates by exact Hq. exact Hremove.
    + unfold updateQuantity.
      replace (quantity <=? 0) with false by (symmetry; apply Z.leb_gt; lia).
      hook_unique Hst.
  - apply updateQuantity_unique; assumption.
  - exact Hremove.
  - apply removeFromCart_unique; assumption.
  - unfold clearCart. hook_unique Hst.
  - apply clearCart_unique; assumption.
Qed.

(** ** The catalog filter *)

Lemma startsWith_app s sub :
  startsWith s sub = true <-> exists post, s = sub ++ post.
Proof.
  revert s. induction sub as [|c sub IH]; intros s; simpl.
  - split; [intros _; exists s; reflexivity|reflexivity].
  - destruct s as [|d s].
    + split; [discriminate|]. intros [post H]. discriminate.
    + rewrite andb_true_iff, N.eqb_eq, IH. split.
      * intros [-> [post ->]]. exists post. reflexivity.
      * intros [post H]. injection H as Hd Hs. split; [congruence|].
        exists post. exact Hs.
Qed.

Lemma includes_empty sub : includes [] sub = startsWith [] sub.
Proof. unfold includes. apply orb_false_r. Qed.

Lemma includes_cons c s sub :
  includes (c :: s) sub = startsWith (c :: s) sub || includes s sub.
Proof. reflexivity. Qed.

Lemma includes_app s sub :
  includes s sub = true
  <-> exists pre post, s = pre ++ sub ++ post.
Proof.
  induction s as [|c s IH].
  - rewrite includes_empty, startsWith_app. split.
    + intros [post H]. exists [], post. exact H.
    + intros (pre & post & H). destruct pre as [|d pre]; [|discriminate].
      exists post. exact H.
  - rewrite includes_cons, orb_true_iff, startsWith_app, IH. split.
    + intros [[post H]|(pre & post & H)].
      * exists [], post. exact H.
      * exists (c :: pre), post. simpl. rewrite H. reflexivity.
    + intros (pre & post & H). destruct pre as [|d pre]; simpl in H.
      * left. exists post. exact H.
      * right. injection H as _ H. exists pre, post. exact H.
Qed.

(** The test of the code is containment up to the case of letters. *)
Lemma includes_contains_ci toLowerCase text query :
  includes (toLowerCase text) (toLowerCase query) = true
  <-> contains_ci toLowerCase text query.
Proof. apply includes_app. Qed.

Lemma map_split {A B : Type} (f : A -> B) text x y :
  map f text = x ++ y ->
  exists t1 t2, text = t1 ++ t2 /\ map f t1 = x /\ map f t2 = y.
Proof.
  revert text. induction x as [|c x IH]; intros text H; simpl in H.
  - exists [], text. auto.
  - destruct text as [|d text]; simpl in H; [discriminate|].
    injection H as Hc Hrest.
    destruct (IH text Hrest) as (t1 & t2 & -> & H1 & H2).
    exists (d :: t1), t2. simpl. rewrite H1, Hc. auto.
Qed.

(** Where lower case is taken unit by unit, a text contains a query
    case-insensitively when one of its parts is the query up to the case
    of each unit. *)
Lemma contains_ci_unit_by_unit toLowerCase lower text query :
  (forall s, toLowerCase s = map lower s) ->
  contains_ci toLowerCase text query <-> contains_up_to_case lower text query.
Proof.
  intros Hlower. unfold contains_ci, contains_up_to_case. rewrite !Hlower. split.
  - intros (pre & post & H).
    destruct (map_split _ _ _ _ H) as (before & rest & -> & Hb & Hrest).
    destruct (map_split _ _ _ _ Hrest) as (hit & after & -> & Hh & Ha).
    exists before, hit, after. auto.
  - intros (before & hit & after & -> & Hh).
    exists (map lower before), (map lower after).
    rewrite !map_app, Hh. reflexivity.
Qed.

Lemma search_hit_matches toLowerCase query p :
  search_hit toLowerCase query p = true <-> matches_query toLowerCase query p.
Proof.
  unfold search_hit, matches_query.
  rewrite orb_true_iff, includes_contains_ci.
  destruct (Product.description p) as [d|].
  - rewrite includes_contains_ci. split; intros [H|H]; auto.
    + right. exists d. auto.
    + destruct H as (d' & Hd & H). inversion Hd; subst. auto.
  - split; intros [H|H]; auto; [discriminate|].
    destruct H as (d' & Hd & _). discriminate.
Qed.

Lemma category_hit_matches c p :
  category_hit c p = true <-> Product.category_id p = Some c.
Proof.
  unfold category_hit. destruct (Product.category_id p) as [c'|].
  - rewrite String.eqb_eq. split; [intros ->; reflexivity|].
    intros H. inversion H. reflexivity.
  - split; discriminate.
Qed.

Lemma keeps_exactly_filter {A : Type} (f : A -> bool) (P : A -> Prop) l :
  (forall x, f x = true <-> P x) -> keeps_exactly P l (List.filter f l).
Proof.
  intros Hf. induction l as [|x l IH]; simpl; [constructor|].
  destruct (f x) eqn:E.
  - apply keeps_keep; [apply Hf; exact E|exact IH].
  - apply keeps_drop; [|exact IH]. intros HP. apply Hf in HP. congruence.
Qed.

Lemma filter_filter {A : Type} (f g : A -> bool) l :
  List.filter g (List.filter f l) = List.filter (fun x => f x && g x) l.
Proof.
  induction l as [|x l IH]; simpl; [reflexivity|].
  destruct (f x); simpl; [|exact IH].
  destruct (g x); [f_equal|]; exact IH.
Qed.

Lemma filter_all {A : Type} (l : list A) : List.filter (fun _ => true) l = l.
Proof. induction l as [|x l IH]; simpl; [reflexivity|]. f_equal. exact IH. Qed.

Lemma filterProducts_one_pass toLowerCase products searchQuery selectedCategory :
  filterProducts toLowerCase products searchQuery selectedCategory
  = List.filter (kept_by_code toLowerCase searchQuery selectedCategory) products.
Proof.
  unfold filterProducts, kept_by_code.
  destruct (truthy_text (trim searchQuery));
    destruct selectedCategory as [c|]; try destruct (truthy c);
    rewrite ?filter_filter; try reflexivity;
    try (symmetry; erewrite List.filter_ext; [apply filter_all|];
         intros; reflexivity);
    try (apply List.filter_ext; intros p; rewrite ?andb_true_r; reflexivity).
Qed.

Lemma truthy_nonempty s : truthy s = true <-> s <> "".
Proof.
  unfold truthy. rewrite negb_true_iff. apply String.eqb_neq.
Qed.

Lemma truthy_text_nonempty s : truthy_text s = true <-> s <> [].
Proof.
  destruct s; simpl; split; congruence.
Qed.

Lemma matches_empty_query toLowerCase p :
  toLowerCase [] = [] -> matches_query toLowerCase [] p.
Proof.
  intros Hempty. left. exists [], (toLowerCase (Product.name p)).
  rewrite Hempty. reflexivity.
Qed.

Lemma kept_by_code_matches toLowerCase query categoryId p :
  kept_by_code toLowerCase query categoryId p = true
  <-> (trim query <> [] -> matches_query toLowerCase query p)
      /\ matches_category categoryId p.
Proof.
  unfold kept_by_code. rewrite andb_true_iff.
  assert (Hq : (if truthy_text (trim query)
                then search_hit toLowerCase query p else true) = true
               <-> (trim query <> [] -> matches_query toLowerCase query p)).
  { destruct (truthy_text (trim query)) eqn:E.
    - rewrite search_hit_matches. apply truthy_text_nonempty in E. tauto.
    - split; [|reflexivity]. intros _ Hne. apply truthy_text_nonempty in Hne.
      congruence. }
  assert (Hc : match categoryId with
               | Some c => if truthy c then category_hit c p else true
               | None => true
               end = true
               <-> matches_category categoryId p).
  { unfold matches_category. destruct categoryId as [c|]; [|tauto].
    destruct (truthy c) eqn:E.
    - rewrite category_hit_matches. apply truthy_nonempty in E. tauto.
    - split; [|reflexivity]. intros _ Hne. apply truthy_nonempty in Hne. congruence. }
  rewrite Hq, Hc. reflexivity.
Qed.

Lemma keeps_exactly_iff {A : Type} (P Q : A -> Prop) l kept :
  (forall x, P x <-> Q x) -> keeps_exactly P l kept -> keeps_exactly Q l kept.
Proof.
  intros H. induction 1 as [|x l kept Hx _ IH|x l kept Hx _ IH].
  - constructor.
  - apply keeps_keep; [apply H; exact Hx|exact IH].
  - apply keeps_drop; [|exact IH]. intros HQ. apply Hx. apply H. exact HQ.
Qed.

(** C9, as amended.  Whatever [toLowerCase] maps a string to,
    [filterProducts] keeps, in the order of the input, exactly the
    products that pass two tests.  The search test applies when the
    query has a character that is not white space: the name of the
    product, or its description when it has one, contains the query
    case-insensitively - put in lower case, it has the lower-cased query
    as a part.  The category test applies when a category that is not
    the empty string is selected: the category of the product is that
    one.  So the result is the filter of the specification whenever the
    query has a character that is not white space, and for the empty
    query (whose lower case is empty); and with the empty query and no
    category the result is the input.  Where lower case is taken unit by
    unit, containing the query case-insensitively is having a part that
    is the query up to the case of each unit. *)
Theorem filterProducts_keeps_matching toLowerCase products query categoryId :
  keeps_exactly
    (fun p => (trim query <> [] -> matches_query toLowerCase query p)
              /\ matches_category categoryId p)
    products (filterProducts toLowerCase products query categoryId)
  /\ (trim query <> [] ->
      filter_as_specified toLowerCase products query categoryId
        (filterProducts toLowerCase products query categoryId))
  /\ (toLowerCase [] = [] ->
      filter_as_specified toLowerCase products [] categoryId
        (filterProducts toLowerCase products [] categoryId))
  /\ filterProducts toLowerCase products [] None = products
  /\ (forall lower text,
        (forall s, toLowerCase s = map lower s) ->
        contains_ci toLowerCase text query <-> contains_up_to_case lower text query).
Proof.
  assert (Hkeeps : forall q, keeps_exactly
            (fun p => (trim q <> [] -> matches_query toLowerCase q p)
                      /\ matches_category categoryId p)
            products (filterProducts toLowerCase products q categoryId)).
  { intros q. rewrite filterProducts_one_pass. apply keeps_exactly_filter.
    intros p. apply kept_by_code_matches. }
  split; [apply Hkeeps|]. split; [|split; [|split; [reflexivity|]]].
  - intros Hne. unfold filter_as_specified.
    eapply keeps_exactly_iff; [|apply Hkeeps]. intros p. simpl. tauto.
  - intros Hempty. unfold filter_as_specified.
    eapply keeps_exactly_iff; [|apply Hkeeps]. intros p. simpl.
    pose proof (matches_empty_query toLowerCase p Hempty). tauto.
  - intros lower text Hlower. apply contains_ci_unit_by_unit. exact Hlower.
Qed.

Example filterProducts_keeps_matching_witness :
  filterProducts toLowerCase_ascii (products sample_store) (js "SHOE") None
  = [running_shoes]
  /\ filter_as_specified toLowerCase_ascii (products sample_store) (js "SHOE") None
       [running_shoes]
  /\ contains_up_to_case lower_unit (js "Running Shoes") (js "SHOE")
  /\ filter_as_specified toLowerCase_ascii (products sample_store) [] None
       (products sample_store).
Proof.
  destruct (filterProducts_keeps_matching toLowerCase_ascii (products sample_store)
              (js "SHOE") None) as (_ & Hspec & Hempty & _ & Hcase).
  split; [reflexivity|]. split; [apply Hspec; discriminate|]. split.
  - apply (Hcase lower_unit (js "Running Shoes") (fun s => eq_refl)).
    exists (js "running "), (js "s"). reflexivity.
  - apply Hempty. reflexivity.
Defined.

(** C9 as stated fails: for the query made of one space, the code skips
    the search test and keeps a product whose name has no space and that
    has no description. *)
Lemma filterProducts_blank_query_keeps_all :
  filterProducts toLowerCase_ascii [plain_shoes] (js " ") None = [plain_shoes]
  /\ ~ matches_query toLowerCase_ascii (js " ") plain_shoes
  /\ ~ filter_as_specified toLowerCase_ascii [plain_shoes] (js " ") None
        (filterProducts toLowerCase_ascii [plain_shoes] (js " ") None).
Proof.
  assert (Hno : ~ matches_query toLowerCase_ascii (js " ") plain_shoes).
  { intros H. apply search_hit_matches in H. discriminate. }
  split; [reflexivity|]. split; [exact Hno|].
  unfold filter_as_specified. intros H.
  inversion H as [|x l kept [Hq _] _|x l kept _ Hrest]; subst.
  - exact (Hno Hq).
  - inversion Hrest.
Qed.

(** * Further properties of the code *)

(** ** The guard of the functions *)

(** X1.  Without an identity, or without a configured client, no
    function of the cart ledger and no checkout calls the store: store,
    log and schedule are as they were.  [fetchCartItems],
    [updateQuantity], [removeFromCart] and [clearCart] return the cart
    state in silence, [addToCart] and [handleCheckout] return it with one
    notification each, and the effect of the hook empties it. *)
Theorem signed_out_functions_make_no_call s productId quantity data cartItems w :
  signed_out s ->
  fetchCartItems s cartItems w = (cartItems, w)
  /\ useCart_effect s cartItems w = ([], w)
  /\ updateQuantity s productId quantity cartItems w = (cartItems, w)
  /\ removeFromCart s productId cartItems w = (cartItems, w)
  /\ clearCart s cartItems w = (cartItems, w)
  /\ addToCart s productId quantity cartItems w
     = (cartItems, notified (toast_error "Please sign in to add items to cart") w)
  /\ handleCheckout s data cartItems w
     = ((NotConnected, cartItems),
        notified (toast_error "Please connect to Supabase first") w).
Proof.
  unfold signed_out, fetchCartItems, useCart_effect, updateQuantity, removeFromCart,
    clearCart, addToCart, handleCheckout.
  intros [Hu|Hc].
  - rewrite Hu. repeat split.
  - rewrite Hc. destruct (user s); repeat split.
Qed.

Example signed_out_functions_make_no_call_witness :
  let s := {| user := Some "user-1"; isSupabaseConfigured := false |} in
  let cart := [headphones_entry "user-1" 2] in
  let w := world_of (store_with_cart "user-1" 2 1) in
  useCart_effect s cart w = ([], w)
  /\ calls (snd (handleCheckout s sample_form cart w)) = [].
Proof.
  intros s cart w.
  destruct (signed_out_functions_make_no_call s "prod-watch" 1 sample_form cart w)
    as (_ & Heffect & _ & _ & _ & _ & Hcheckout).
  { right. reflexivity. }
  split; [exact Heffect|]. rewrite Hcheckout. reflexivity.
Defined.

(** ** Loading the cart *)

Lemma fetchCartItems_inv s uid cartItems w :
  user s = Some uid -> isSupabaseConfigured s = true ->
  exists c, calls (snd (fetchCartItems s cartItems w)) = calls w ++ [c]
    /\ db (snd (fetchCartItems s cartItems w)) = db w
    /\ toasts (snd (fetchCartItems s cartItems w)) = toasts w
    /\ fst (fetchCartItems s cartItems w)
       = if call_ok c then cart_of (db w) uid else cartItems.
Proof.
  intros Hu Hc. unfold fetchCartItems. rewrite Hu, Hc. unfold bind.
  destruct (request T_cart_items Select _ w) as [r w1] eqn:E.
  apply request_inv in E. destruct E as (Hcalls & Ht & _ & Q).
  eexists. split; [destruct r; simpl; exact Hcalls|].
  destruct r as [e|data]; simpl.
  - auto.
  - destruct Q as [_ Q]. unfold cart_of. rewrite Q.
    unfold select_cart in Q. inversion Q; subst. auto.
Qed.

Lemma cart_of_items st uid :
  Forall (fun item =>
            CartItem.user_id item = uid
            /\ In (row_of item) (cart_items st)
            /\ find_product st (CartItem.product_id item) = Some (CartItem.product item))
         (cart_of st uid).
Proof.
  unfold cart_of, select_cart.
  induction (cart_items st) as [|r rows IH]; simpl; [constructor|].
  apply List.Forall_app. split.
  - destruct (String.eqb (CartRow.user_id r) uid) eqn:E; [|constructor].
    unfold join_product.
    destruct (find_product st (CartRow.product_id r)) as [p|] eqn:Hp; [|constructor].
    constructor; [|constructor]. simpl.
    apply String.eqb_eq in E. split; [exact E|]. split; [|exact Hp].
    left. destruct r; reflexivity.
  - eapply List.Forall_impl; [|exact IH].
    intros item (H1 & H2 & H3). split; [exact H1|]. split; [right; exact H2|exact H3].
Qed.

Lemma cart_of_mirrors st uid :
  products_referenced st -> mirrors st uid (cart_of st uid).
Proof.
  unfold products_referenced, mirrors, cart_of, select_cart, rows_of_user.
  induction (cart_items st) as [|r rows IH]; intros Hfk; simpl; [reflexivity|].
  inversion Hfk as [|? ? Hr Hrows]; subst.
  rewrite map_app, (IH Hrows).
  destruct (String.eqb (CartRow.user_id r) uid); [|reflexivity].
  unfold join_product.
  destruct (find_product st (CartRow.product_id r)); [|contradiction].
  simpl. destruct r; reflexivity.
Qed.

Lemma single_call_ok w w' c :
  calls w' = calls w ++ [c] -> every_call_succeeded w w' -> call_ok c = true.
Proof.
  intros Hc Hall. apply (every_call_succeeded_app _ _ _ Hc) in Hall.
  inversion Hall; subst. assumption.
Qed.

(** X2.  A [fetchCartItems] whose select succeeds reads and does not
    write: the store is as it was.  Every entry it returns belongs to the
    signed-in user and comes from a row of table [cart_items]; where the
    user may read the product that the store holds under its
    [product_id], the entry is joined with that product.  On a store
    whose cart rows all reference a product, the entries are the rows of
    the user, all of them and each once, in some order. *)
Theorem fetchCartItems_loads_own_rows s uid cartItems w :
  user s = Some uid -> isSupabaseConfigured s = true ->
  every_call_succeeded w (snd (fetchCartItems s cartItems w)) ->
  db (snd (fetchCartItems s cartItems w)) = db w
  /\ Forall (fun item =>
               CartItem.user_id item = uid
               /\ In (row_of item) (cart_items (db w))
               /\ (forall p, find_product (db w) (CartItem.product_id item) = Some p ->
                      readable (db w) uid p = true ->
                      CartItem.product item = p))
            (fst (fetchCartItems s cartItems w))
  /\ (products_referenced (db w) ->
      Permutation (map row_of (fst (fetchCartItems s cartItems w)))
                  (rows_of_user (db w) uid)).
Proof.
  intros Hu Hc Hall.
  destruct (fetchCartItems_inv s uid cartItems w Hu Hc) as (c & Hcalls & Hdb & _ & Hres).
  rewrite (single_call_ok _ _ _ Hcalls Hall) in Hres. rewrite Hres.
  split; [exact Hdb|]. split.
  - eapply List.Forall_impl; [|apply cart_of_items].
    intros item (Hid & Hin & Hp). split; [exact Hid|]. split; [exact Hin|].
    intros p Hfound _. congruence.
  - intros Href. pose proof (cart_of_mirrors (db w) uid Href) as Hm.
    unfold mirrors in Hm. rewrite Hm. apply Permutation_refl.
Qed.

Example fetchCartItems_loads_own_rows_witness :
  let st := set_cart_items sample_store
              [CartRow.mk "cart-1" "user-1" "prod-headphones" 2;
               CartRow.mk "cart-9" "admin-1" "prod-tshirt" 7;
               CartRow.mk "cart-2" "user-1" "prod-watch" 1] in
  Forall (fun item => CartItem.user_id item = "user-1")
         (fst (fetchCartItems customer [] (world_of st)))
  /\ Permutation (map row_of (fst (fetchCartItems customer [] (world_of st))))
                 [CartRow.mk "cart-2" "user-1" "prod-watch" 1;
                  CartRow.mk "cart-1" "user-1" "prod-headphones" 2].
Proof.
  intros st.
  destruct (fetchCartItems_loads_own_rows customer "user-1" [] (world_of st)
              eq_refl eq_refl) as (_ & Hown & Hrows).
  { apply every_call_succeeded_by_run. reflexivity. }
  split.
  - eapply List.Forall_impl; [|exact Hown]. intros item H. apply H.
  - eapply Permutation_trans.
    + apply Hrows. unfold products_referenced. simpl.
      repeat constructor; discriminate.
    + apply perm_swap.
Defined.

(** ** The cart state mirrors the rows of the store *)

Lemma rows_of_user_overwrite uid pid q rows :
  List.filter (fun r => String.eqb (CartRow.user_id r) uid) (map (overwrite uid pid q) rows)
  = map (overwrite uid pid q)
      (List.filter (fun r => String.eqb (CartRow.user_id r) uid) rows).
Proof.
  apply filter_map_stable. intros r. unfold overwrite.
  destruct (cart_row_of uid pid r); reflexivity.
Qed.

Lemma rows_of_as_user_rows uid pid rows :
  List.filter (cart_row_of uid pid) rows
  = List.filter (fun r => String.eqb (CartRow.product_id r) pid)
      (List.filter (fun r => String.eqb (CartRow.user_id r) uid) rows).
Proof.
  rewrite filter_filter. reflexivity.
Qed.

Lemma filter_map_comm {A B : Type} (f : B -> bool) (g : A -> B) l :
  List.filter f (map g l) = map g (List.filter (fun x => f (g x)) l).
Proof.
  induction l as [|x l IH]; simpl; [reflexivity|].
  destruct (f (g x)); simpl; [f_equal|]; exact IH.
Qed.

(** Under the mirror, the entries of a product in the cart state are the
    rows of the pair in the store. *)
Lemma mirrors_entries st uid cartItems pid :
  mirrors st uid cartItems ->
  map row_of (entries_of cartItems pid) = rows_of st uid pid.
Proof.
  unfold mirrors, rows_of, rows_of_user, entries_of. intros H.
  rewrite rows_of_as_user_rows, <- H, filter_map_comm. reflexivity.
Qed.

Lemma mirrors_user st uid cartItems item :
  mirrors st uid cartItems -> In item cartItems -> CartItem.user_id item = uid.
Proof.
  unfold mirrors, rows_of_user. intros H Hin.
  apply (in_map row_of) in Hin. rewrite H in Hin.
  apply List.filter_In in Hin. destruct Hin as [_ Hu].
  apply String.eqb_eq in Hu. exact Hu.
Qed.

Lemma entries_of_In cartItems pid item :
  In item cartItems -> CartItem.product_id item = pid ->
  In item (entries_of cartItems pid).
Proof.
  intros Hin Hp. unfold entries_of. apply List.filter_In.
  split; [exact Hin|]. apply String.eqb_eq. exact Hp.
Qed.

(** The replacement of the entries of a product by the row that the
    store returned, against the update of the rows in the store. *)
Lemma replace_overwrite st uid pid q r data cartItems :
  mirrors st uid cartItems ->
  rows_of st uid pid = [r] ->
  row_of data = set_quantity q r ->
  forall part,
    (forall item, In item part -> In item cartItems) ->
    map row_of
      (map (fun item => if String.eqb (CartItem.product_id item) pid then data else item)
           part)
    = map (overwrite uid pid q) (map row_of part).
Proof.
  intros Hm Hr Hdata part. induction part as [|x part IH]; intros Hsub; simpl;
    [reflexivity|].
  rewrite IH by (intros item Hin; apply Hsub; right; exact Hin).
  f_equal. unfold overwrite, cart_row_of. simpl.
  rewrite (mirrors_user st uid cartItems x Hm) by (apply Hsub; left; reflexivity).
  rewrite String.eqb_refl. simpl.
  destruct (String.eqb (CartItem.product_id x) pid) eqn:E; [|reflexivity].
  apply String.eqb_eq in E.
  assert (Hx : In (row_of x) (rows_of st uid pid)).
  { rewrite <- (mirrors_entries st uid cartItems pid Hm).
    apply in_map. apply entries_of_In; [apply Hsub; left; reflexivity|exact E]. }
  rewrite Hr in Hx. destruct Hx as [Hx|[]].
  rewrite Hdata, Hx. reflexivity.
Qed.

Lemma map_replace_absent pid data part :
  Forall (fun item => String.eqb (CartItem.product_id item) pid = false) part ->
  map (fun item => if String.eqb (CartItem.product_id item) pid then data else item) part
  = part.
Proof.
  induction 1 as [|x part Hx _ IH]; simpl; [reflexivity|].
  rewrite Hx, IH. reflexivity.
Qed.

Lemma entries_of_empty_absent cartItems pid :
  entries_of cartItems pid = [] ->
  Forall (fun item => String.eqb (CartItem.product_id item) pid = false) cartItems.
Proof.
  unfold entries_of. induction cartItems as [|x l IH]; simpl; [constructor|].
  destruct (String.eqb (CartItem.product_id x) pid) eqn:E; [discriminate|].
  intros H. constructor; [exact E|apply IH; exact H].
Qed.

Lemma upsert_cart_item_inv uid pid q st data st' :
  upsert_cart_item uid pid q st = inr (data, st') ->
  0 < q
  /\ exists p, find_product st pid = Some p /\ products st' = products st
     /\ List.find (cart_row_of uid pid) (cart_items st) = None
     /\ data = CartItem.mk (uuid_of_nat (next_uuid st)) uid pid q p
     /\ cart_items st' = cart_items st ++ [row_of data].
Proof.
  unfold upsert_cart_item.
  destruct (0 <? q) eqn:Hq; simpl; [|discriminate].
  destruct (integer_max <? q); [discriminate|].
  destruct (find_product st pid) as [p|]; [|discriminate].
  intros H. split; [apply Z.ltb_lt; exact Hq|]. exists p. split; [reflexivity|].
  destruct (List.find (cart_row_of uid pid) (cart_items st)) as [r|];
    [discriminate|].
  simpl in H. inversion H; subst. split; [reflexivity|]. auto.
Qed.

Lemma update_cart_quantity_inv uid pid q st data st' :
  update_cart_quantity uid pid q st = inr (data, st') ->
  0 < q
  /\ exists r p, rows_of st uid pid = [r] /\ find_product st pid = Some p
     /\ data = CartItem.mk (CartRow.id r) uid pid q p
     /\ cart_items st' = map (overwrite uid pid q) (cart_items st)
     /\ products st' = products st.
Proof.
  unfold update_cart_quantity, rows_of.
  destruct (List.filter _ (cart_items st)) as [|r [|r' l]]; try discriminate.
  destruct (0 <? q) eqn:Hq; simpl; [|discriminate].
  destruct (integer_max <? q); [discriminate|].
  destruct (find_product st pid) as [p|]; [|discriminate].
  intros H. inversion H; subst. split; [apply Z.ltb_lt; exact Hq|].
  exists r, p. auto.
Qed.

Lemma updateQuantity_inv s uid productId quantity cartItems w :
  user s = Some uid -> isSupabaseConfigured s = true -> 0 < quantity ->
  exists r w1,
    request T_cart_items Update (update_cart_quantity uid productId quantity) w = (r, w1)
    /\ db (snd (updateQuantity s productId quantity cartItems w)) = db w1
    /\ calls (snd (updateQuantity s productId quantity cartItems w)) = calls w1
    /\ match r with
       | inl _ =>
           fst (updateQuantity s productId quantity cartItems w) = cartItems
           /\ toasts (snd (updateQuantity s productId quantity cartItems w))
              = toasts w1 ++ [toast_error "Failed to update quantity"]
       | inr data =>
           fst (updateQuantity s productId quantity cartItems w)
           = map (fun item => if String.eqb (CartItem.product_id item) productId
                              then data else item) cartItems
           /\ toasts (snd (updateQuantity s productId quantity cartItems w)) = toasts w1
       end.
Proof.
  intros Hu Hc Hq. unfold updateQuantity. rewrite Hu, Hc.
  replace (quantity <=? 0) with false by (symmetry; apply Z.leb_gt; exact Hq).
  unfold bind. destruct (request T_cart_items Update _ w) as [r w1].
  exists r, w1. split; [reflexivity|].
  destruct r as [e|data]; simpl; auto.
Qed.

Lemma removeFromCart_inv s uid productId cartItems w :
  user s = Some uid -> isSupabaseConfigured s = true ->
  exists r w1,
    request T_cart_items Delete (delete_cart_item uid productId) w = (r, w1)
    /\ db (snd (removeFromCart s productId cartItems w)) = db w1
    /\ calls (snd (removeFromCart s productId cartItems w)) = calls w1
    /\ match r with
       | inl _ =>
           fst (removeFromCart s productId cartItems w) = cartItems
           /\ toasts (snd (removeFromCart s productId cartItems w))
              = toasts w1 ++ [toast_error "Failed to remove from cart"]
       | inr _ =>
           fst (removeFromCart s productId cartItems w)
           = List.filter
               (fun item => negb (String.eqb (CartItem.product_id item) productId))
               cartItems
           /\ toasts (snd (removeFromCart s productId cartItems w))
              = toasts w1 ++ [toast_success "Removed from cart"]
       end.
Proof.
  intros Hu Hc. unfold removeFromCart. rewrite Hu, Hc.
  unfold bind. destruct (request T_cart_items Delete _ w) as [r w1].
  exists r, w1. split; [reflexivity|].
  destruct r as [e|u]; simpl; auto.
Qed.

Lemma rows_of_user_app uid rows1 rows2 :
  List.filter (fun r => String.eqb (CartRow.user_id r) uid) (rows1 ++ rows2)
  = List.filter (fun r => String.eqb (CartRow.user_id r) uid) rows1
    ++ List.filter (fun r => String.eqb (CartRow.user_id r) uid) rows2.
Proof. apply List.filter_app. Qed.

Lemma rows_of_user_delete_item uid pid rows :
  List.filter (fun r => String.eqb (CartRow.user_id r) uid)
    (List.filter (fun r => negb (cart_row_of uid pid r)) rows)
  = List.filter (fun r => negb (String.eqb (CartRow.product_id r) pid))
      (List.filter (fun r => String.eqb (CartRow.user_id r) uid) rows).
Proof.
  induction rows as [|r rows IH]; simpl; [reflexivity|].
  unfold cart_row_of at 1.
  destruct (String.eqb (CartRow.user_id r) uid) eqn:Eu; simpl.
  - destruct (String.eqb (CartRow.product_id r) pid); simpl.
    + exact IH.
    + rewrite Eu. f_equal. exact IH.
  - rewrite Eu. exact IH.
Qed.

Lemma mirrors_add st st' uid pid q data cartItems :
  upsert_cart_item uid pid q st = inr (data, st') ->
  mirrors st uid cartItems ->
  (length (rows_of st uid pid) <= 1)%nat ->
  mirrors st' uid
    (let existingIndex :=
       findIndex (fun item => String.eqb (CartItem.product_id item) pid) cartItems in
     if 0 <=? existingIndex
     then <[Z.to_nat existingIndex := data]> cartItems
     else cartItems ++ [data]).
Proof.
  intros Hup Hm Hlen. cbv zeta.
  pose proof (mirrors_entries st uid cartItems pid Hm) as Hent.
  apply upsert_cart_item_inv in Hup.
  destruct Hup as (_ & p & _ & _ & Hfind & Hdata & Hrows).
  assert (Hnone : rows_of st uid pid = []) by (apply find_none_filter; exact Hfind).
  rewrite Hnone in Hent.
  destruct (entries_of cartItems pid) eqn:Hx; [|discriminate].
  apply entries_of_empty_absent in Hx.
  rewrite (findIndex_absent _ _ Hx). simpl.
  unfold mirrors, rows_of_user in *. rewrite Hrows, rows_of_user_app, map_app, Hm.
  f_equal. rewrite Hdata. simpl. rewrite String.eqb_refl. reflexivity.
Qed.

Lemma addToCart_mirror s uid productId quantity cartItems w :
  user s = Some uid -> isSupabaseConfigured s = true ->
  mirrors (db w) uid cartItems ->
  (length (rows_of (db w) uid productId) <= 1)%nat ->
  mirrors (db (snd (addToCart s productId quantity cartItems w))) uid
    (fst (addToCart s productId quantity cartItems w)).
Proof.
  intros Hu Hc Hm Hlen.
  destruct (addToCart_inv s uid productId quantity cartItems w Hu Hc)
    as (r & w1 & E & Hdb & _ & Hres).
  apply request_inv in E. destruct E as (_ & _ & _ & Q).
  rewrite Hdb. destruct r as [e|data]; rewrite Hres.
  - rewrite Q. exact Hm.
  - destruct Q as [_ Q]. exact (mirrors_add _ _ _ _ _ _ _ Q Hm Hlen).
Qed.

Lemma removeFromCart_mirror s uid productId cartItems w :
  user s = Some uid -> isSupabaseConfigured s = true ->
  mirrors (db w) uid cartItems ->
  mirrors (db (snd (removeFromCart s productId cartItems w))) uid
    (fst (removeFromCart s productId cartItems w)).
Proof.
  intros Hu Hc Hm.
  destruct (removeFromCart_inv s uid productId cartItems w Hu Hc)
    as (r & w1 & E & Hdb & _ & Hres).
  apply request_inv in E. destruct E as (_ & _ & _ & Q).
  rewrite Hdb. destruct r as [e|u]; destruct Hres as [Hres _]; rewrite Hres.
  - rewrite Q. exact Hm.
  - destruct Q as [_ Q]. unfold delete_cart_item in Q. inversion Q as [Hst].
    unfold mirrors, rows_of_user in *. simpl.
    rewrite rows_of_user_delete_item, <- Hm, filter_map_comm. reflexivity.
Qed.

Lemma updateQuantity_mirror s uid productId quantity cartItems w :
  user s = Some uid -> isSupabaseConfigured s = true ->
  mirrors (db w) uid cartItems ->
  mirrors (db (snd (updateQuantity s productId quantity cartItems w))) uid
    (fst (updateQuantity s productId quantity cartItems w)).
Proof.
  intros Hu Hc Hm. destruct (Z_le_gt_dec quantity 0) as [Hq|Hq].
  - rewrite updateQuantity_delegates by exact Hq.
    apply removeFromCart_mirror; assumption.
  - destruct (updateQuantity_inv s uid productId quantity cartItems w Hu Hc)
      as (r & w1 & E & Hdb & _ & Hres); [lia|].
    apply request_inv in E. destruct E as (_ & _ & _ & Q).
    rewrite Hdb. destruct r as [e|data]; destruct Hres as [Hres _]; rewrite Hres.
    + rewrite Q. exact Hm.
    + destruct Q as [_ Q]. apply update_cart_quantity_inv in Q.
      destruct Q as (_ & row & p & Hrow & _ & Hdata & Hrows & _).
      unfold mirrors.
      rewrite (replace_overwrite (db w) uid productId quantity row data cartItems Hm Hrow).
      * unfold rows_of_user. rewrite Hrows, rows_of_user_overwrite.
        unfold mirrors, rows_of_user in Hm. rewrite Hm. reflexivity.
      * rewrite Hdata. unfold set_quantity, row_of. simpl.
        assert (Hrin : In row (rows_of (db w) uid productId))
          by (rewrite Hrow; left; reflexivity).
        unfold rows_of in Hrin. apply List.filter_In in Hrin. destruct Hrin as [_ Hpair].
        unfold cart_row_of in Hpair. apply andb_true_iff in Hpair.
        rewrite !String.eqb_eq in Hpair. destruct Hpair as [<- <-]. reflexivity.
      * auto.
Qed.

Lemma clearCart_mirror s uid cartItems w :
  user s = Some uid -> isSupabaseConfigured s = true ->
  mirrors (db w) uid cartItems ->
  mirrors (db (snd (clearCart s cartItems w))) uid (fst (clearCart s cartItems w)).
Proof.
  intros Hu Hc Hm.
  destruct (clearCart s cartItems w) as [cleared w'] eqn:E. simpl.
  destruct (clearCart_inv _ _ _ _ _ _ Hu Hc E)
    as (c & _ & _ & _ & [(_ & -> & Hdel & _)|(_ & -> & Hdb & _)]).
  - apply delete_cart_inv in Hdel. rewrite Hdel. unfold mirrors, rows_of_user. simpl.
    symmetry. apply rows_of_user_deleted.
  - rewrite Hdb. exact Hm.
Qed.

(** X3.  The functions of the cart ledger keep the cart state a mirror of
    the store: if the state holds the cart rows of the signed-in user,
    row by row ([id], [user_id], [product_id], [quantity]) in the order
    of the table, then it still does after [addToCart], [updateQuantity],
    [removeFromCart] and [clearCart], whether the store accepted the call
    or reported an error.  For [addToCart] the pair (user, product) must
    have at most one row, which is the UNIQUE constraint. *)
Theorem cart_ledger_keeps_mirror s uid productId quantity cartItems w :
  user s = Some uid -> isSupabaseConfigured s = true ->
  mirrors (db w) uid cartItems ->
  ((length (rows_of (db w) uid productId) <= 1)%nat ->
   mirrors (db (snd (addToCart s productId quantity cartItems w))) uid
     (fst (addToCart s productId quantity cartItems w)))
  /\ mirrors (db (snd (updateQuantity s productId quantity cartItems w))) uid
       (fst (updateQuantity s productId quantity cartItems w))
  /\ mirrors (db (snd (removeFromCart s productId cartItems w))) uid
       (fst (removeFromCart s productId cartItems w))
  /\ mirrors (db (snd (clearCart s cartItems w))) uid
       (fst (clearCart s cartItems w)).
Proof.
  intros Hu Hc Hm.
  split; [intros Hlen; apply addToCart_mirror; assumption|].
  split; [apply updateQuantity_mirror; assumption|].
  split; [apply removeFromCart_mirror; assumption|apply clearCart_mirror; assumption].
Qed.

Example cart_ledger_keeps_mirror_witness :
  let cart := [headphones_entry "user-1" 2; watch_entry "user-1" 1] in
  let w := world_of (store_with_cart "user-1" 2 1) in
  mirrors (db w) "user-1" cart
  /\ mirrors (db (snd (addToCart customer "prod-tshirt" 3 cart w))) "user-1"
       (fst (addToCart customer "prod-tshirt" 3 cart w))
  /\ mirrors (db (snd (updateQuantity customer "prod-watch" 4 cart w))) "user-1"
       (fst (updateQuantity customer "prod-watch" 4 cart w)).
Proof.
  intros cart w.
  assert (Hm : mirrors (db w) "user-1" cart) by reflexivity.
  destruct (cart_ledger_keeps_mirror customer "user-1" "prod-tshirt" 3 cart w
              eq_refl eq_refl Hm) as (Hadd & _).
  destruct (cart_ledger_keeps_mirror customer "user-1" "prod-watch" 4 cart w
              eq_refl eq_refl Hm) as (_ & Hupd & _).
  split; [exact Hm|]. split; [|exact Hupd].
  apply Hadd. simpl. lia.
Defined.

(** ** What the cart ledger leaves alone *)

Lemma only_cart_of_refl uid st : only_cart_of uid st st.
Proof. unfold only_cart_of. repeat split; auto. Qed.

Lemma other_user_overwrite uid pid q other rows :
  other <> uid ->
  List.filter (fun r => String.eqb (CartRow.user_id r) other) (map (overwrite uid pid q) rows)
  = List.filter (fun r => String.eqb (CartRow.user_id r) other) rows.
Proof.
  intros Hne. induction rows as [|r rows IH]; simpl; [reflexivity|].
  rewrite IH. unfold overwrite.
  destruct (cart_row_of uid pid r) eqn:E; [|reflexivity].
  unfold cart_row_of in E. apply andb_true_iff in E. destruct E as [Eu _].
  apply String.eqb_eq in Eu. simpl.
  replace (String.eqb (CartRow.user_id r) other) with false; [reflexivity|].
  symmetry. apply String.eqb_neq. congruence.
Qed.

Lemma other_user_filter uid other (f : CartRow.t -> bool) rows :
  other <> uid ->
  (forall r, f r = false -> CartRow.user_id r = uid) ->
  List.filter (fun r => String.eqb (CartRow.user_id r) other) (List.filter f rows)
  = List.filter (fun r => String.eqb (CartRow.user_id r) other) rows.
Proof.
  intros Hne Hf. induction rows as [|r rows IH]; simpl; [reflexivity|].
  destruct (f r) eqn:E; simpl.
  - destruct (String.eqb (CartRow.user_id r) other); [f_equal|]; exact IH.
  - replace (String.eqb (CartRow.user_id r) other) with false; [exact IH|].
    symmetry. apply String.eqb_neq. rewrite (Hf r E). congruence.
Qed.

Lemma upsert_cart_item_only uid pid q st data st' :
  upsert_cart_item uid pid q st = inr (data, st') -> only_cart_of uid st st'.
Proof.
  unfold upsert_cart_item, only_cart_of, rows_of_user.
  destruct (negb (0 <? q)); [discriminate|].
  destruct (integer_max <? q); [discriminate|].
  destruct (find_product st pid) as [p|]; [|discriminate].
  destruct (List.find (cart_row_of uid pid) (cart_items st)) as [r|];
    [discriminate|].
  - simpl. intros H. inversion H; subst. simpl. repeat split; auto.
    intros other Hne. rewrite List.filter_app. simpl.
    replace (String.eqb uid other) with false; [apply app_nil_r|].
    symmetry. apply String.eqb_neq. congruence.
Qed.

Lemma update_cart_quantity_only uid pid q st data st' :
  update_cart_quantity uid pid q st = inr (data, st') -> only_cart_of uid st st'.
Proof.
  unfold update_cart_quantity, only_cart_of, rows_of_user.
  destruct (List.filter _ (cart_items st)) as [|r [|r' l]]; try discriminate.
  destruct (negb (0 <? q)); [discriminate|].
  destruct (integer_max <? q); [discriminate|].
  destruct (find_product st pid); [|discriminate].
  intros H. inversion H; subst. simpl. repeat split; auto.
  intros other Hne. apply (other_user_overwrite uid pid q other _ Hne).
Qed.

Lemma delete_cart_item_only uid pid st u st' :
  delete_cart_item uid pid st = inr (u, st') -> only_cart_of uid st st'.
Proof.
  unfold delete_cart_item, only_cart_of, rows_of_user.
  intros H. inversion H; subst. simpl. repeat split; auto.
  intros other Hne. apply other_user_filter with (uid := uid); [exact Hne|].
  intros r Hr. apply negb_false_iff in Hr. unfold cart_row_of in Hr.
  apply andb_true_iff in Hr. destruct Hr as [Hr _]. apply String.eqb_eq. exact Hr.
Qed.

Lemma delete_cart_only uid st u st' :
  delete_cart uid st = inr (u, st') -> only_cart_of uid st st'.
Proof.
  unfold delete_cart, only_cart_of, rows_of_user.
  intros H. inversion H; subst. simpl. repeat split; auto.
  intros other Hne. apply other_user_filter with (uid := uid); [exact Hne|].
  intros r Hr. apply negb_false_iff in Hr. apply String.eqb_eq. exact Hr.
Qed.

Lemma request_only {A : Type} uid t v (q : Store -> Response (A * Store)) w r w1 :
  (forall st a st', q st = inr (a, st') -> only_cart_of uid st st') ->
  request t v q w = (r, w1) -> only_cart_of uid (db w) (db w1).
Proof.
  intros Hq E. apply request_inv in E. destruct E as (_ & _ & _ & Q).
  destruct r as [e|a]; [rewrite Q; apply only_cart_of_refl|].
  destruct Q as [_ Q]. exact (Hq _ _ _ Q).
Qed.

(** X4.  A function of the cart ledger changes nothing in the store but
    cart rows of the signed-in user (and the counter of identifiers):
    tables [profiles], [products], [orders] and [order_items] are as they
    were, and so are the cart rows of every other user. *)
Theorem cart_ledger_touches_own_cart_only s uid productId quantity cartItems w :
  user s = Some uid -> isSupabaseConfigured s = true ->
  only_cart_of uid (db w) (db (snd (fetchCartItems s cartItems w)))
  /\ only_cart_of uid (db w) (db (snd (addToCart s productId quantity cartItems w)))
  /\ only_cart_of uid (db w) (db (snd (updateQuantity s productId quantity cartItems w)))
  /\ only_cart_of uid (db w) (db (snd (removeFromCart s productId cartItems w)))
  /\ only_cart_of uid (db w) (db (snd (clearCart s cartItems w))).
Proof.
  intros Hu Hc.
  assert (Hremove : only_cart_of uid (db w)
                      (db (snd (removeFromCart s productId cartItems w)))).
  { destruct (removeFromCart_inv s uid productId cartItems w Hu Hc)
      as (r & w1 & E & Hdb & _). rewrite Hdb.
    eapply request_only; [|exact E]. intros st a st'. apply delete_cart_item_only. }
  split.
  { destruct (fetchCartItems_inv s uid cartItems w Hu Hc) as (c & _ & Hdb & _).
    rewrite Hdb. apply only_cart_of_refl. }
  split.
  { destruct (addToCart_inv s uid productId quantity cartItems w Hu Hc)
      as (r & w1 & E & Hdb & _). rewrite Hdb.
    eapply request_only; [|exact E]. intros st a st'. apply upsert_cart_item_only. }
  split.
  { destruct (Z_le_gt_dec quantity 0) as [Hq|Hq].
    - rewrite updateQuantity_delegates by exact Hq. exact Hremove.
    - destruct (updateQuantity_inv s uid productId quantity cartItems w Hu Hc)
        as (r & w1 & E & Hdb & _); [lia|]. rewrite Hdb.
      eapply request_only; [|exact E]. intros st a st'. apply update_cart_quantity_only. }
  split; [exact Hremove|].
  destruct (clearCart s cartItems w) as [cleared w'] eqn:E. simpl.
  destruct (clearCart_inv _ _ _ _ _ _ Hu Hc E)
    as (c & _ & _ & _ & [(_ & _ & Hdel & _)|(_ & _ & Hdb & _)]).
  - eapply delete_cart_only. exact Hdel.
  - rewrite Hdb. apply only_cart_of_refl.
Qed.

Example cart_ledger_touches_own_cart_only_witness :
  let st := set_cart_items sample_store
              [CartRow.mk "cart-1" "user-1" "prod-headphones" 2;
               CartRow.mk "cart-9" "admin-1" "prod-tshirt" 7] in
  rows_of_user (db (snd (clearCart customer [] (world_of st)))) "admin-1"
  = [CartRow.mk "cart-9" "admin-1" "prod-tshirt" 7]
  /\ rows_of_user (db (snd (clearCart customer [] (world_of st)))) "user-1" = [].
Proof.
  intros st.
  destruct (cart_ledger_touches_own_cart_only customer "user-1" "prod-watch" 1 []
              (world_of st) eq_refl eq_refl)
    as (_ & _ & _ & _ & (_ & _ & _ & _ & Hother & _)).
  split; [|reflexivity].
  rewrite (Hother "admin-1"); [reflexivity|discriminate].
Defined.

(** ** What is added is what is loaded *)

Lemma cart_of_entries st uid pid p :
  find_product st pid = Some p ->
  entries_of (cart_of st uid) pid = map (joined p) (rows_of st uid pid).
Proof.
  intros Hp. unfold cart_of, select_cart, rows_of.
  induction (cart_items st) as [|r rows IH]; simpl; [reflexivity|].
  rewrite entries_of_app, IH. unfold cart_row_of at 2.
  destruct (String.eqb (CartRow.user_id r) uid); simpl; [|reflexivity].
  unfold join_product.
  destruct (String.eqb (CartRow.product_id r) pid) eqn:E.
  - apply String.eqb_eq in E. rewrite E, Hp. unfold entries_of. simpl.
    rewrite String.eqb_refl. simpl. unfold joined. rewrite E. reflexivity.
  - destruct (find_product st (CartRow.product_id r)); [|reflexivity].
    unfold entries_of. simpl. rewrite E. reflexivity.
Qed.

(** X5.  Round trip of the cart ledger through the store: after an
    [addToCart] of a product with a quantity that the store accepted, a
    [fetchCartItems] that succeeds - in this or any other instance of
    the hook - returns exactly one entry of the product, of the
    signed-in user and with that quantity; where the user may read the
    product of the catalog, the entry is joined with it. *)
Theorem addToCart_then_fetchCartItems s uid productId quantity cartItems other w :
  user s = Some uid -> isSupabaseConfigured s = true ->
  let added := addToCart s productId quantity cartItems w in
  let loaded := fetchCartItems s other (snd added) in
  every_call_succeeded w (snd loaded) ->
  exists item,
    entries_of (fst loaded) productId = [item]
    /\ CartItem.quantity item = quantity
    /\ CartItem.user_id item = uid
    /\ rows_of (db w) uid productId = []
    /\ (forall p, find_product (db w) productId = Some p ->
                  readable (db w) uid p = true -> CartItem.product item = p).
Proof.
  intros Hu Hc added loaded Hall.
  destruct (addToCart_inv s uid productId quantity cartItems w Hu Hc)
    as (r & w1 & E & Hdb & Hcalls & _).
  fold added in Hdb, Hcalls.
  destruct (fetchCartItems_inv s uid other (snd added) Hu Hc)
    as (c2 & Hcalls2 & _ & _ & Hres).
  fold loaded in Hcalls2, Hres.
  apply request_inv in E. destruct E as (C1 & _ & _ & Q).
  rewrite Hcalls, C1, <- app_assoc in Hcalls2.
  apply (every_call_succeeded_app _ _ _ Hcalls2) in Hall.
  inversion Hall as [|? ? Hok1 Hrest]; subst. inversion Hrest as [|? ? Hok2 _]; subst.
  rewrite Hok2 in Hres. simpl in Hok1.
  destruct r as [e|data]; [discriminate|]. destruct Q as [_ Q].
  destruct (upsert_cart_item_new_row _ _ _ _ _ _ Q) as (Hnone & Hrow & Hq).
  pose proof (upsert_cart_item_rows _ _ _ _ _ _ Q) as (_ & _ & Hduid & _).
  apply upsert_cart_item_inv in Q. destruct Q as (_ & p & Hp & Hproducts & _).
  assert (Hp' : find_product (db (snd added)) productId = Some p).
  { rewrite Hdb. rewrite (find_product_products (db w) (db w1)); assumption. }
  exists (joined p (row_of data)).
  rewrite Hres, (cart_of_entries _ _ _ _ Hp'), Hdb, Hrow.
  split; [reflexivity|]. split; [exact Hq|]. split; [exact Hduid|].
  split; [exact Hnone|].
  intros p' Hp'' _. simpl. congruence.
Qed.

Example addToCart_then_fetchCartItems_witness :
  let added := addToCart customer "prod-tshirt" 4 []
                 (world_of (store_with_cart "user-1" 2 1)) in
  let loaded := fetchCartItems customer [] (snd added) in
  exists item,
    entries_of (fst loaded) "prod-tshirt" = [item]
    /\ CartItem.quantity item = 4
    /\ CartItem.user_id item = "user-1"
    /\ CartItem.product item = tshirt.
Proof.
  intros added loaded.
  assert (Hall : every_call_succeeded (world_of (store_with_cart "user-1" 2 1))
                   (snd loaded))
    by (apply every_call_succeeded_by_run; reflexivity).
  destruct (addToCart_then_fetchCartItems customer "user-1" "prod-tshirt" 4 [] []
              (world_of (store_with_cart "user-1" 2 1)) eq_refl eq_refl Hall)
    as (item & Hitem & Hq & Hu & _ & Hproduct).
  exists item. split; [exact Hitem|]. split; [exact Hq|]. split; [exact Hu|].
  apply Hproduct; reflexivity.
Defined.

(** ** Calls that the store refuses *)

Lemma update_cart_quantity_no_row uid pid q st :
  rows_of st uid pid = [] -> update_cart_quantity uid pid q st = inl NotSingleRow.
Proof. unfold update_cart_quantity, rows_of. intros ->. reflexivity. Qed.

Lemma upsert_cart_item_refused uid pid q st :
  quantity_not_positive_or_unknown q (find_product st pid) ->
  exists e, upsert_cart_item uid pid q st = inl e.
Proof.
  unfold quantity_not_positive_or_unknown, upsert_cart_item. intros [Hq|Hp].
  - replace (0 <? q) with false by (symmetry; apply Z.ltb_ge; exact Hq).
    simpl. eauto.
  - rewrite Hp. destruct (negb (0 <? q)); [eauto|].
    destruct (integer_max <? q); eauto.
Qed.

(** X6.  Inputs that the store turns down.  An [addToCart] with a
    quantity that is zero or negative ([CHECK (quantity > 0)]), or for a
    product that the catalog does not hold (foreign key), and an
    [updateQuantity] with a positive quantity for a product of which the
    user has no cart row ([single()] finds no row): each issues one call,
    which fails; the store and the cart state are as they were, and the
    user is notified ("Failed to add to cart", "Failed to update
    quantity"). *)
Theorem refused_cart_changes s uid productId quantity cartItems w :
  user s = Some uid -> isSupabaseConfigured s = true ->
  (quantity_not_positive_or_unknown quantity (find_product (db w) productId) ->
   fst (addToCart s productId quantity cartItems w) = cartItems
   /\ db (snd (addToCart s productId quantity cartItems w)) = db w
   /\ new_calls w (snd (addToCart s productId quantity cartItems w))
      = [{| call_table := T_cart_items; call_verb := Upsert; call_ok := false |}]
   /\ toasts (snd (addToCart s productId quantity cartItems w))
      = toasts w ++ [toast_error "Failed to add to cart"])
  /\ (0 < quantity -> rows_of (db w) uid productId = [] ->
      fst (updateQuantity s productId quantity cartItems w) = cartItems
      /\ db (snd (updateQuantity s productId quantity cartItems w)) = db w
      /\ new_calls w (snd (updateQuantity s productId quantity cartItems w))
         = [{| call_table := T_cart_items; call_verb := Update; call_ok := false |}]
      /\ toasts (snd (updateQuantity s productId quantity cartItems w))
         = toasts w ++ [toast_error "Failed to update quantity"]).
Proof.
  intros Hu Hc. split.
  - intros Hbad.
    destruct (upsert_cart_item_refused uid productId quantity (db w) Hbad) as [e He].
    destruct (request_refused T_cart_items Upsert _ w e He)
      as (e' & w1 & E & Hdb & Ht & Hcalls).
    unfold addToCart. rewrite Hu, Hc. unfold bind. rewrite E. simpl.
    repeat split; auto.
    + apply new_calls_app. exact Hcalls.
    + rewrite Ht. reflexivity.
  - intros Hq Hnone.
    pose proof (update_cart_quantity_no_row uid productId quantity (db w) Hnone) as He.
    destruct (request_refused T_cart_items Update _ w _ He)
      as (e' & w1 & E & Hdb & Ht & Hcalls).
    unfold updateQuantity. rewrite Hu, Hc.
    replace (quantity <=? 0) with false by (symmetry; apply Z.leb_gt; exact Hq).
    unfold bind. rewrite E. simpl.
    repeat split; auto.
    + apply new_calls_app. exact Hcalls.
    + rewrite Ht. reflexivity.
Qed.

Example refused_cart_changes_witness :
  let cart := [headphones_entry "user-1" 2; watch_entry "user-1" 1] in
  let w := world_of (store_with_cart "user-1" 2 1) in
  fst (addToCart customer "prod-watch" 0 cart w) = cart
  /\ fst (addToCart customer "prod-unknown" 1 cart w) = cart
  /\ fst (updateQuantity customer "prod-tshirt" 3 cart w) = cart
  /\ toasts (snd (updateQuantity customer "prod-tshirt" 3 cart w))
     = [toast_error "Failed to update quantity"].
Proof.
  intros cart w.
  destruct (refused_cart_changes customer "user-1" "prod-watch" 0 cart w eq_refl eq_refl)
    as (Hzero & _).
  destruct (refused_cart_changes customer "user-1" "prod-unknown" 1 cart w eq_refl eq_refl)
    as (Hunknown & _).
  destruct (refused_cart_changes customer "user-1" "prod-tshirt" 3 cart w eq_refl eq_refl)
    as (_ & Hupdate).
  split; [apply Hzero; left; lia|].
  split; [apply Hunknown; right; reflexivity|].
  destruct Hupdate as (H1 & _ & _ & H2); [lia|reflexivity|].
  split; [exact H1|exact H2].
Defined.

(** ** Changing a quantity *)

Lemma overwrite_other_pair uid pid q uid' pid' rows :
  (uid', pid') <> (uid, pid) ->
  List.filter (cart_row_of uid' pid') (map (overwrite uid pid q) rows)
  = List.filter (cart_row_of uid' pid') rows.
Proof.
  intros Hne. induction rows as [|r rows IH]; simpl; [reflexivity|].
  rewrite IH. unfold overwrite.
  destruct (cart_row_of uid pid r) eqn:E; [|reflexivity].
  rewrite cart_row_of_set_quantity.
  destruct (cart_row_of uid' pid' r) eqn:E'; [|reflexivity].
  destruct (cart_row_of_both _ _ _ _ _ E E') as [-> ->]. congruence.
Qed.

Lemma overwrite_own_pair uid pid q rows :
  List.filter (cart_row_of uid pid) (map (overwrite uid pid q) rows)
  = map (set_quantity q) (List.filter (cart_row_of uid pid) rows).
Proof.
  induction rows as [|r rows IH]; simpl; [reflexivity|].
  unfold overwrite at 1.
  destruct (cart_row_of uid pid r) eqn:E.
  - rewrite cart_row_of_set_quantity, E. simpl. unfold overwrite at 1.
    rewrite E. f_equal. exact IH.
  - rewrite E. exact IH.
Qed.

(** X7.  An [updateQuantity] with a positive quantity that the store
    accepts changes one row and nothing else: the user had exactly one
    cart row of the product, that row now carries the new quantity (same
    [id]), every row of another pair (user, product) is as it was and no
    row is added or removed.  In the cart state every entry of the
    product becomes the returned row - the new quantity, joined with the
    product of the catalog where the user may read it - and every other
    entry keeps its place; the user gets no notification. *)
Theorem updateQuantity_changes_one_row s uid productId quantity cartItems w :
  user s = Some uid -> isSupabaseConfigured s = true ->
  0 < quantity ->
  every_call_succeeded w (snd (updateQuantity s productId quantity cartItems w)) ->
  let st := db w in
  let st' := db (snd (updateQuantity s productId quantity cartItems w)) in
  exists r data,
    rows_of st uid productId = [r]
    /\ rows_of st' uid productId = [set_quantity quantity r]
    /\ (forall uid' pid', (uid', pid') <> (uid, productId) ->
          rows_of st' uid' pid' = rows_of st uid' pid')
    /\ length (cart_items st') = length (cart_items st)
    /\ row_of data = set_quantity quantity r
    /\ (forall p, find_product st productId = Some p ->
          readable st uid p = true -> CartItem.product data = p)
    /\ fst (updateQuantity s productId quantity cartItems w)
       = map (fun item => if String.eqb (CartItem.product_id item) productId
                          then data else item) cartItems
    /\ toasts (snd (updateQuantity s productId quantity cartItems w)) = toasts w.
Proof.
  intros Hu Hc Hq Hall. cbv zeta.
  destruct (updateQuantity_inv s uid productId quantity cartItems w Hu Hc Hq)
    as (r & w1 & E & Hdb & Hcalls & Hres).
  apply request_inv in E. destruct E as (C & Ht & _ & Q).
  rewrite C in Hcalls. pose proof (single_call_ok _ _ _ Hcalls Hall) as Hok.
  destruct r as [e|data]; [discriminate|]. destruct Q as [_ Q].
  destruct Hres as [Hres Htoasts].
  apply update_cart_quantity_inv in Q.
  destruct Q as (_ & row & p & Hrow & Hp & Hdata & Hrows & _).
  exists row, data. rewrite Hdb. unfold rows_of in *. rewrite Hrows.
  split; [exact Hrow|].
  split; [rewrite overwrite_own_pair, Hrow; reflexivity|].
  split; [intros uid' pid' Hne; apply overwrite_other_pair; exact Hne|].
  split; [apply length_map|].
  split.
  { rewrite Hdata. unfold set_quantity, row_of. simpl.
    assert (Hrin : In row (List.filter (cart_row_of uid productId) (cart_items (db w))))
      by (rewrite Hrow; left; reflexivity).
    apply List.filter_In in Hrin. destruct Hrin as [_ Hpair].
    unfold cart_row_of in Hpair. apply andb_true_iff in Hpair.
    rewrite !String.eqb_eq in Hpair. destruct Hpair as [<- <-]. reflexivity. }
  split; [intros p' Hp' _; rewrite Hdata; simpl; congruence|].
  split; [exact Hres|congruence].
Qed.

Example updateQuantity_changes_one_row_witness :
  let cart := [headphones_entry "user-1" 2; watch_entry "user-1" 1] in
  let w := world_of (store_with_cart "user-1" 2 1) in
  fst (updateQuantity customer "prod-watch" 4 cart w)
  = [headphones_entry "user-1" 2; watch_entry "user-1" 4]
  /\ rows_of (db (snd (updateQuantity customer "prod-watch" 4 cart w)))
       "user-1" "prod-headphones"
     = [CartRow.mk "cart-1" "user-1" "prod-headphones" 2].
Proof.
  intros cart w. split; [reflexivity|].
  assert (Hall : every_call_succeeded w
                   (snd (updateQuantity customer "prod-watch" 4 cart w)))
    by (apply every_call_succeeded_by_run; reflexivity).
  destruct (updateQuantity_changes_one_row customer "user-1" "prod-watch" 4 cart w
              eq_refl eq_refl ltac:(lia) Hall)
    as (r & data & _ & _ & Hother & _).
  rewrite Hother; [reflexivity|]. intros H. inversion H.
Defined.

(** ** Removing a product *)

Lemma filter_none_excluded {A : Type} (f : A -> bool) l :
  List.filter f l = [] -> List.filter (fun x => negb (f x)) l = l.
Proof.
  induction l as [|x l IH]; simpl; [reflexivity|].
  destruct (f x); simpl; [discriminate|]. intros H. f_equal. apply IH. exact H.
Qed.

Lemma filter_other_pair uid pid uid' pid' rows :
  (uid', pid') <> (uid, pid) ->
  List.filter (cart_row_of uid' pid')
              (List.filter (fun r => negb (cart_row_of uid pid r)) rows)
  = List.filter (cart_row_of uid' pid') rows.
Proof.
  intros Hne. induction rows as [|r rows IH]; simpl; [reflexivity|].
  destruct (cart_row_of uid pid r) eqn:E; simpl.
  - destruct (cart_row_of uid' pid' r) eqn:E'; [|exact IH].
    destruct (cart_row_of_both _ _ _ _ _ E E') as [-> ->]. congruence.
  - rewrite IH. reflexivity.
Qed.

Lemma entries_of_other_removed pid pid' (l : list CartItem.t) :
  pid' <> pid ->
  entries_of (List.filter (fun item => negb (String.eqb (CartItem.product_id item) pid)) l)
             pid'
  = entries_of l pid'.
Proof.
  intros Hne. unfold entries_of.
  induction l as [|x l IH]; simpl; [reflexivity|].
  destruct (String.eqb (CartItem.product_id x) pid) eqn:E; simpl.
  - apply String.eqb_eq in E.
    destruct (String.eqb (CartItem.product_id x) pid') eqn:E'; [|exact IH].
    apply String.eqb_eq in E'. congruence.
  - rewrite IH. reflexivity.
Qed.

Lemma set_cart_items_twice st rows rows' :
  set_cart_items (set_cart_items st rows) rows' = set_cart_items st rows'.
Proof. reflexivity. Qed.

Lemma set_cart_items_same st : set_cart_items st (cart_items st) = st.
Proof. destruct st. reflexivity. Qed.

Lemma removeFromCart_run s uid productId cartItems w :
  user s = Some uid -> isSupabaseConfigured s = true ->
  every_call_succeeded w (snd (removeFromCart s productId cartItems w)) ->
  db (snd (removeFromCart s productId cartItems w))
  = set_cart_items (db w)
      (List.filter (fun r => negb (cart_row_of uid productId r)) (cart_items (db w)))
  /\ fst (removeFromCart s productId cartItems w)
     = List.filter (fun item => negb (String.eqb (CartItem.product_id item) productId))
         cartItems
  /\ toasts (snd (removeFromCart s productId cartItems w))
     = toasts w ++ [toast_success "Removed from cart"].
Proof.
  intros Hu Hc Hall.
  destruct (removeFromCart_inv s uid productId cartItems w Hu Hc)
    as (r & w1 & E & Hdb & Hcalls & Hres).
  apply request_inv in E. destruct E as (C & Ht & _ & Q).
  rewrite C in Hcalls. pose proof (single_call_ok _ _ _ Hcalls Hall) as Hok.
  destruct r as [e|u]; [discriminate|]. destruct Q as [_ Q].
  destruct Hres as [Hres Htoasts].
  unfold delete_cart_item in Q. injection Q as _ Hst.
  split; [rewrite Hdb, <- Hst; reflexivity|].
  split; [exact Hres|]. rewrite Htoasts, Ht. reflexivity.
Qed.

(** X8.  A [removeFromCart] that the store accepts deletes the rows of
    the pair (user, product) and nothing else: the rows of every other
    pair are as they were, in the cart state the entries of other
    products stay in their order and nothing of the store but
    [cart_items] changes.  Where the product was in neither the table
    nor the cart state, store and cart state are left exactly as they
    were - and the user is still told "Removed from cart". *)
Theorem removeFromCart_deletes_one_pair s uid productId cartItems w :
  user s = Some uid -> isSupabaseConfigured s = true ->
  every_call_succeeded w (snd (removeFromCart s productId cartItems w)) ->
  let st := db w in
  let st' := db (snd (removeFromCart s productId cartItems w)) in
  rows_of st' uid productId = []
  /\ (forall uid' pid', (uid', pid') <> (uid, productId) ->
        rows_of st' uid' pid' = rows_of st uid' pid')
  /\ (forall pid', pid' <> productId ->
        entries_of (fst (removeFromCart s productId cartItems w)) pid'
        = entries_of cartItems pid')
  /\ only_cart_of uid st st'
  /\ (rows_of st uid productId = [] -> st' = st)
  /\ (entries_of cartItems productId = [] ->
        fst (removeFromCart s productId cartItems w) = cartItems)
  /\ toasts (snd (removeFromCart s productId cartItems w))
     = toasts w ++ [toast_success "Removed from cart"].
Proof.
  intros Hu Hc Hall. cbv zeta.
  destruct (removeFromCart_run s uid productId cartItems w Hu Hc Hall)
    as (Hdb & Hres & Htoasts).
  rewrite Hdb, Hres. unfold rows_of. simpl.
  split; [apply filter_excluded|].
  split; [intros uid' pid' Hne; apply filter_other_pair; exact Hne|].
  split.
  { intros pid' Hne. apply entries_of_other_removed. exact Hne. }
  split.
  { apply (delete_cart_item_only uid productId (db w) tt). reflexivity. }
  split.
  { intros Habsent. rewrite (filter_none_excluded _ _ Habsent).
    apply set_cart_items_same. }
  split; [|exact Htoasts].
  intros Habsent. apply (filter_none_excluded _ _ Habsent).
Qed.

Example removeFromCart_deletes_one_pair_witness :
  let cart := [headphones_entry "user-1" 2; watch_entry "user-1" 1] in
  let w := world_of (store_with_cart "user-1" 2 1) in
  fst (removeFromCart customer "prod-tshirt" cart w) = cart
  /\ db (snd (removeFromCart customer "prod-tshirt" cart w)) = db w
  /\ toasts (snd (removeFromCart customer "prod-tshirt" cart w))
     = [toast_success "Removed from cart"].
Proof.
  intros cart w.
  assert (Hall : every_call_succeeded w
                   (snd (removeFromCart customer "prod-tshirt" cart w)))
    by (apply every_call_succeeded_by_run; reflexivity).
  destruct (removeFromCart_deletes_one_pair customer "user-1" "prod-tshirt" cart w
              eq_refl eq_refl Hall)
    as (_ & _ & _ & _ & Hst & Hcart & Htoasts).
  split; [apply Hcart; reflexivity|].
  split; [apply Hst; reflexivity|exact Htoasts].
Defined.

Lemma two_calls_ok w w1 w2 c1 c2 :
  calls w1 = calls w ++ [c1] -> calls w2 = calls w1 ++ [c2] ->
  every_call_succeeded w w2 -> call_ok c1 = true /\ call_ok c2 = true.
Proof.
  intros H1 H2 Hall. rewrite H1, <- app_assoc in H2. simpl in H2.
  pose proof (every_call_succeeded_app _ _ _ H2 Hall) as F.
  inversion F as [|? ? Ha F']; subst. inversion F' as [|? ? Hb ?]; subst.
  split; assumption.
Qed.

(** X9.  Adding a product that is in neither the table nor the cart
    state and then removing it is a round trip: the cart state and the
    table [cart_items] are what they were before the two calls (the
    store has only handed out one more identifier), and the user has
    been told "Added to cart" and "Removed from cart". *)
Theorem addToCart_then_removeFromCart s uid productId quantity cartItems w :
  user s = Some uid -> isSupabaseConfigured s = true ->
  rows_of (db w) uid productId = [] ->
  entries_of cartItems productId = [] ->
  let added := addToCart s productId quantity cartItems w in
  let removed := removeFromCart s productId (fst added) (snd added) in
  every_call_succeeded w (snd removed) ->
  fst removed = cartItems
  /\ db (snd removed) = set_next_uuid (db w) (S (next_uuid (db w)))
  /\ toasts (snd removed)
     = toasts w ++ [toast_success "Added to cart"; toast_success "Removed from cart"].
Proof.
  intros Hu Hc Hrows Hentries added removed Hall. subst removed.
  destruct (addToCart_inv s uid productId quantity cartItems w Hu Hc)
    as (r & w1 & E & Hdb & Hcalls & Hres).
  pose proof E as E0.
  apply request_inv in E. destruct E as (C & Ht & _ & Q).
  destruct (removeFromCart_inv s uid productId (fst added) (snd added) Hu Hc)
    as (r2 & w2 & E2 & Hdb2 & Hcalls2 & Hres2).
  apply request_inv in E2. destruct E2 as (C2 & _ & _ & _).
  assert (C1 : calls (snd added) = calls w ++
                 [{| call_table := T_cart_items; call_verb := Upsert;
                     call_ok := response_ok r |}])
    by (subst added; rewrite Hcalls; exact C).
  rewrite C2 in Hcalls2.
  destruct (two_calls_ok _ _ _ _ _ C1 Hcalls2 Hall) as [Hok1 Hok2].
  assert (Hall2 : every_call_succeeded (snd added)
                    (snd (removeFromCart s productId (fst added) (snd added)))).
  { unfold every_call_succeeded. rewrite (new_calls_app _ _ _ Hcalls2).
    constructor; [exact Hok2|constructor]. }
  destruct (removeFromCart_run s uid productId (fst added) (snd added) Hu Hc Hall2)
    as (Hdb' & Hres' & Htoasts').
  destruct r as [e|data]; [discriminate|]. destruct Q as [_ Q].
  apply upsert_cart_item_inv in Q.
  unfold rows_of in Hrows.
  destruct Q as (_ & p & _ & _ & Hfind & Hdata & Hnew).
  assert (Hfst : fst added = cartItems ++ [data]).
  { subst added. rewrite Hres. cbv zeta.
    rewrite (findIndex_absent _ _ (entries_of_empty_absent _ _ Hentries)).
    reflexivity. }
  assert (Hpid : CartItem.product_id data = productId) by (rewrite Hdata; reflexivity).
  assert (Huid : CartItem.user_id data = uid) by (rewrite Hdata; reflexivity).
  split.
  { rewrite Hres', Hfst, List.filter_app. simpl.
    rewrite Hpid, String.eqb_refl. simpl. rewrite app_nil_r.
    apply filter_none_excluded. exact Hentries. }
  split.
  { rewrite Hdb'. subst added. rewrite Hdb.
    assert (Hw1 : db w1 = set_cart_items (set_next_uuid (db w) (S (next_uuid (db w))))
                            (cart_items (db w) ++ [row_of data])).
    { apply request_inv in E0. destruct E0 as (_ & _ & _ & _ & Q).
      unfold upsert_cart_item in Q.
      destruct (negb (0 <? quantity)); [discriminate|].
      destruct (integer_max <? quantity); [discriminate|].
      destruct (find_product (db w) productId); [|discriminate].
      destruct (List.find (cart_row_of uid productId) (cart_items (db w)));
        [discriminate|].
      simpl in Q. inversion Q; subst. reflexivity. }
    rewrite Hw1. simpl. rewrite List.filter_app. simpl.
    unfold cart_row_of at 2. simpl. rewrite Huid, Hpid, !String.eqb_refl. simpl.
    rewrite app_nil_r, (filter_none_excluded _ _ Hrows).
    destruct (db w). reflexivity. }
  rewrite Htoasts'. subst added.
  unfold addToCart. rewrite Hu, Hc. unfold bind. rewrite E0. simpl.
  rewrite Ht, <- app_assoc. reflexivity.
Qed.

Example addToCart_then_removeFromCart_witness :
  let cart := [headphones_entry "user-1" 2; watch_entry "user-1" 1] in
  let w := world_of (store_with_cart "user-1" 2 1) in
  let added := addToCart customer "prod-tshirt" 3 cart w in
  fst (removeFromCart customer "prod-tshirt" (fst added) (snd added)) = cart
  /\ cart_items (db (snd (removeFromCart customer "prod-tshirt" (fst added) (snd added))))
     = cart_items (db w).
Proof.
  intros cart w added.
  assert (Hall : every_call_succeeded w
            (snd (removeFromCart customer "prod-tshirt" (fst added) (snd added))))
    by (apply every_call_succeeded_by_run; reflexivity).
  destruct (addToCart_then_removeFromCart customer "user-1" "prod-tshirt" 3 cart w
              eq_refl eq_refl eq_refl eq_refl Hall)
    as (Hcart & Hst & _).
  split; [exact Hcart|exact (f_equal cart_items Hst)].
Defined.

(** ** The buttons of the sidebar *)

Lemma updateQuantity_run s uid productId quantity cartItems w :
  user s = Some uid -> isSupabaseConfigured s = true ->
  0 < quantity ->
  every_call_succeeded w (snd (updateQuantity s productId quantity cartItems w)) ->
  exists r p,
    rows_of (db w) uid productId = [r]
    /\ find_product (db w) productId = Some p
    /\ db (snd (updateQuantity s productId quantity cartItems w))
       = set_cart_items (db w)
           (map (overwrite uid productId quantity) (cart_items (db w)))
    /\ fst (updateQuantity s productId quantity cartItems w)
       = map (replaced productId (joined p (set_quantity quantity r))) cartItems.
Proof.
  intros Hu Hc Hq Hall.
  destruct (updateQuantity_inv s uid productId quantity cartItems w Hu Hc Hq)
    as (r & w1 & E & Hdb & Hcalls & Hres).
  apply request_inv in E. destruct E as (C & Ht & _ & Q).
  rewrite C in Hcalls. pose proof (single_call_ok _ _ _ Hcalls Hall) as Hok.
  destruct r as [e|data]; [discriminate|]. destruct Q as [_ Q].
  destruct Hres as [Hres _].
  pose proof Q as Q0. apply update_cart_quantity_inv in Q.
  destruct Q as (_ & row & p & Hrow & Hp & Hdata & _).
  exists row, p. split; [exact Hrow|]. split; [exact Hp|].
  assert (Hpair : CartRow.user_id row = uid /\ CartRow.product_id row = productId).
  { assert (Hrin : In row (rows_of (db w) uid productId))
      by (rewrite Hrow; left; reflexivity).
    apply List.filter_In in Hrin. destruct Hrin as [_ Hpair].
    unfold cart_row_of in Hpair. apply andb_true_iff in Hpair.
    rewrite !String.eqb_eq in Hpair. exact Hpair. }
  split.
  - rewrite Hdb. unfold update_cart_quantity in Q0.
    unfold rows_of in Hrow. rewrite Hrow in Q0.
    destruct (negb (0 <? quantity)); [discriminate|].
    destruct (integer_max <? quantity); [discriminate|].
    rewrite Hp in Q0. injection Q0 as _ Hst. rewrite <- Hst. reflexivity.
  - rewrite Hres. unfold replaced, joined, set_quantity. simpl.
    destruct Hpair as [-> ->]. rewrite Hdata. reflexivity.
Qed.

Lemma entries_of_replaced pid data l :
  CartItem.product_id data = pid ->
  entries_of (map (replaced pid data) l) pid = map (fun _ => data) (entries_of l pid).
Proof.
  intros Hd. unfold entries_of, replaced.
  induction l as [|x l IH]; simpl; [reflexivity|].
  destruct (String.eqb (CartItem.product_id x) pid) eqn:E.
  - rewrite Hd, String.eqb_refl. simpl. f_equal. exact IH.
  - rewrite E. exact IH.
Qed.

Lemma entries_of_replaced_other pid pid' data l :
  CartItem.product_id data = pid -> pid' <> pid ->
  entries_of (map (replaced pid data) l) pid' = entries_of l pid'.
Proof.
  intros Hd Hne. unfold entries_of, replaced.
  induction l as [|x l IH]; simpl; [reflexivity|].
  destruct (String.eqb (CartItem.product_id x) pid) eqn:E.
  - apply String.eqb_eq in E.
    assert (E1 : String.eqb (CartItem.product_id data) pid' = false)
      by (apply String.eqb_neq; congruence).
    assert (E2 : String.eqb (CartItem.product_id x) pid' = false)
      by (apply String.eqb_neq; congruence).
    rewrite E1, E2. exact IH.
  - destruct (String.eqb (CartItem.product_id x) pid'); [f_equal|]; exact IH.
Qed.

Lemma overwrite_twice uid pid q1 q2 rows :
  map (overwrite uid pid q2) (map (overwrite uid pid q1) rows)
  = map (overwrite uid pid q2) rows.
Proof.
  rewrite map_map. apply map_ext. intros r. unfold overwrite.
  destruct (cart_row_of uid pid r) eqn:E.
  - rewrite cart_row_of_set_quantity, E. reflexivity.
  - rewrite E. reflexivity.
Qed.

Lemma overwrite_same uid pid q rows :
  Forall (fun r => CartRow.quantity r = q) (List.filter (cart_row_of uid pid) rows) ->
  map (overwrite uid pid q) rows = rows.
Proof.
  induction rows as [|r rows IH]; simpl; [reflexivity|].
  unfold overwrite at 1.
  destruct (cart_row_of uid pid r) eqn:E; intros F.
  - inversion F as [|? ? Hq F']; subst. rewrite (IH F').
    destruct r. reflexivity.
  - rewrite (IH F). reflexivity.
Qed.

(** X10.  The buttons of an entry of the sidebar.  On an entry of
    quantity 1 (or less) the minus button does exactly what "Remove"
    does.  On an entry of positive quantity that is the user's row of
    the product, the plus button followed by the minus button on the
    entry shown after it is a round trip for the store: the two
    accepted updates leave the store as it was; the entries of the
    product are back at the row of the entry, the entries of other
    products have not changed and the cart has kept its length. *)
Theorem sidebar_buttons s uid item cartItems w :
  user s = Some uid -> isSupabaseConfigured s = true ->
  (CartItem.quantity item <= 1 ->
     minus_click s item cartItems w = remove_click s item cartItems w)
  /\ (0 < CartItem.quantity item ->
      rows_of (db w) uid (CartItem.product_id item) = [row_of item] ->
      let plus := plus_click s item cartItems w in
      forall shown, In shown (entries_of (fst plus) (CartItem.product_id item)) ->
        let minus := minus_click s shown (fst plus) (snd plus) in
        every_call_succeeded w (snd minus) ->
        CartItem.quantity shown = CartItem.quantity item + 1
        /\ db (snd minus) = db w
        /\ Forall (fun e => row_of e = row_of item)
                  (entries_of (fst minus) (CartItem.product_id item))
        /\ (forall pid', pid' <> CartItem.product_id item ->
              entries_of (fst minus) pid' = entries_of cartItems pid')
        /\ length (fst minus) = length cartItems).
Proof.
  intros Hu Hc. split.
  { intros Hq. unfold minus_click, remove_click.
    apply updateQuantity_delegates. lia. }
  intros Hq Hrow plus shown Hshown minus Hall.
  subst minus plus. unfold plus_click, minus_click in *.
  set (pid := CartItem.product_id item) in *.
  set (q := CartItem.quantity item) in *.
  set (plus := updateQuantity s pid (q + 1) cartItems w) in *.
  set (minus := updateQuantity s (CartItem.product_id shown)
                  (CartItem.quantity shown - 1) (fst plus) (snd plus)) in *.
  assert (Hpair : CartItem.user_id item = uid /\ pid = CartItem.product_id item)
    by (split; [|reflexivity];
        assert (Hrin : In (row_of item) (rows_of (db w) uid pid))
          by (rewrite Hrow; left; reflexivity);
        apply List.filter_In in Hrin; destruct Hrin as [_ Hp];
        unfold cart_row_of in Hp; apply andb_true_iff in Hp;
        rewrite !String.eqb_eq in Hp; exact (proj1 Hp)).
  destruct Hpair as [Hiu _].
  (* the two calls *)
  assert (Hq1 : 0 < q + 1) by lia.
  destruct (updateQuantity_inv s uid pid (q + 1) cartItems w Hu Hc Hq1)
    as (r1 & w1 & E1 & _ & Hcalls1 & _).
  apply request_inv in E1. destruct E1 as (C1 & _). rewrite C1 in Hcalls1.
  fold plus in Hcalls1.
  (* what the plus button leaves *)
  assert (Hplus : forall Hall1 : every_call_succeeded w (snd plus),
            exists p, find_product (db w) pid = Some p
              /\ db (snd plus)
                 = set_cart_items (db w)
                     (map (overwrite uid pid (q + 1)) (cart_items (db w)))
              /\ fst plus
                 = map (replaced pid (joined p (set_quantity (q + 1) (row_of item))))
                       cartItems).
  { intros Hall1.
    destruct (updateQuantity_run s uid pid (q + 1) cartItems w Hu Hc Hq1 Hall1)
      as (r & p & Hr & Hp & Hdb & Hfst).
    rewrite Hrow in Hr. injection Hr as <-. exists p. auto. }
  (* the entry shown carries the product and the new quantity *)
  assert (Hshape : forall Hall1 : every_call_succeeded w (snd plus),
            CartItem.product_id shown = pid /\ CartItem.quantity shown = q + 1).
  { intros Hall1. destruct (Hplus Hall1) as (p & _ & _ & Hfst).
    rewrite Hfst, entries_of_replaced in Hshown by reflexivity.
    apply in_map_iff in Hshown. destruct Hshown as (_ & <- & _).
    split; reflexivity. }
  (* both calls were accepted *)
  assert (Hboth : every_call_succeeded w (snd plus)
                  /\ every_call_succeeded (snd plus) (snd minus)).
  { destruct (Z_le_gt_dec (CartItem.quantity shown - 1) 0) as [Hle|Hgt].
    - subst minus.
      rewrite updateQuantity_delegates in * by exact Hle.
      destruct (removeFromCart_inv s uid (CartItem.product_id shown)
                  (fst plus) (snd plus) Hu Hc)
        as (r2 & w2 & E2 & _ & Hcalls2 & _).
      apply request_inv in E2. destruct E2 as (C2 & _). rewrite C2 in Hcalls2.
      destruct (two_calls_ok _ _ _ _ _ Hcalls1 Hcalls2 Hall) as [Hok1 Hok2].
      split; unfold every_call_succeeded.
      + rewrite (new_calls_app _ _ _ Hcalls1). constructor; [exact Hok1|constructor].
      + rewrite (new_calls_app _ _ _ Hcalls2). constructor; [exact Hok2|constructor].
    - assert (Hgt' : 0 < CartItem.quantity shown - 1) by lia.
      destruct (updateQuantity_inv s uid (CartItem.product_id shown)
                  (CartItem.quantity shown - 1) (fst plus) (snd plus) Hu Hc Hgt')
        as (r2 & w2 & E2 & _ & Hcalls2 & _).
      apply request_inv in E2. destruct E2 as (C2 & _). rewrite C2 in Hcalls2.
      fold minus in Hcalls2.
      destruct (two_calls_ok _ _ _ _ _ Hcalls1 Hcalls2 Hall) as [Hok1 Hok2].
      split; unfold every_call_succeeded.
      + rewrite (new_calls_app _ _ _ Hcalls1). constructor; [exact Hok1|constructor].
      + rewrite (new_calls_app _ _ _ Hcalls2). constructor; [exact Hok2|constructor]. }
  destruct Hboth as [Hall1 Hall2].
  destruct (Hshape Hall1) as [Hspid Hsq].
  destruct (Hplus Hall1) as (p & Hp & Hdb1 & Hfst1).
  split; [exact Hsq|].
  assert (Hq2 : 0 < CartItem.quantity shown - 1) by lia.
  subst minus. rewrite Hspid in *.
  destruct (updateQuantity_run s uid pid (CartItem.quantity shown - 1)
              (fst plus) (snd plus) Hu Hc Hq2 Hall2)
    as (r2 & p2 & Hr2 & Hp2 & Hdb2 & Hfst2).
  assert (Hback : CartItem.quantity shown - 1 = q) by lia.
  rewrite Hback in *.
  rewrite Hdb1 in Hr2, Hp2, Hdb2. unfold rows_of in Hr2. simpl in Hr2, Hdb2.
  rewrite overwrite_own_pair in Hr2. unfold rows_of in Hrow. rewrite Hrow in Hr2.
  simpl in Hr2. injection Hr2 as <-.
  assert (Hp2' : find_product (db w) pid = Some p2) by exact Hp2.
  rewrite Hp in Hp2'. injection Hp2' as <-.
  split.
  { rewrite Hdb2, set_cart_items_twice, overwrite_twice, (overwrite_same uid pid q).
    - apply set_cart_items_same.
    - rewrite Hrow. constructor; [reflexivity|constructor]. }
  assert (Hd2 : CartItem.product_id
                  (joined p (set_quantity q (set_quantity (q + 1) (row_of item)))) = pid)
    by reflexivity.
  assert (Hd1 : CartItem.product_id (joined p (set_quantity (q + 1) (row_of item))) = pid)
    by reflexivity.
  split.
  { rewrite Hfst2, entries_of_replaced by exact Hd2.
    apply List.Forall_forall. intros e He. apply in_map_iff in He.
    destruct He as (_ & <- & _). destruct item. reflexivity. }
  split.
  { intros pid' Hne. rewrite Hfst2, entries_of_replaced_other by assumption.
    rewrite Hfst1. apply entries_of_replaced_other; assumption. }
  rewrite Hfst2, length_map, Hfst1, length_map. reflexivity.
Qed.

Example sidebar_buttons_witness :
  let cart := [headphones_entry "user-1" 2; watch_entry "user-1" 1] in
  let w := world_of (store_with_cart "user-1" 2 1) in
  let item := watch_entry "user-1" 1 in
  let plus := plus_click customer item cart w in
  minus_click customer item cart w = remove_click customer item cart w
  /\ db (snd (minus_click customer (watch_entry "user-1" 2) (fst plus) (snd plus)))
     = db w.
Proof.
  intros cart w item plus.
  destruct (sidebar_buttons customer "user-1" item cart w eq_refl eq_refl)
    as [Hone Hround].
  split; [apply Hone; simpl; lia|].
  assert (Hall : every_call_succeeded w
            (snd (minus_click customer (watch_entry "user-1" 2) (fst plus) (snd plus))))
    by (apply every_call_succeeded_by_run; reflexivity).
  destruct (Hround ltac:(simpl; lia) eq_refl (watch_entry "user-1" 2)
              ltac:(left; reflexivity) Hall)
    as (_ & Hst & _).
  exact Hst.
Defined.

(** ** The bounds of the CHECK constraints in the cart state *)

Lemma overwrite_positive uid pid q rows :
  0 < q ->
  Forall (fun r => 0 < CartRow.quantity r) rows ->
  Forall (fun r => 0 < CartRow.quantity r) (map (overwrite uid pid q) rows).
Proof.
  intros Hq F. induction F as [|r rows Hr F IH]; simpl; constructor; [|exact IH].
  unfold overwrite. destruct (cart_row_of uid pid r); [simpl; exact Hq|exact Hr].
Qed.

Lemma filter_Forall {A : Type} (P : A -> Prop) (f : A -> bool) l :
  Forall P l -> Forall P (List.filter f l).
Proof.
  intros F. induction F as [|x l Hx F IH]; simpl; [constructor|].
  destruct (f x); [constructor; assumption|exact IH].
Qed.

Lemma found_price st pid p :
  checks_hold st -> find_product st pid = Some p -> 0 <= Product.price p.
Proof.
  intros [_ Hp] Hf. unfold find_product in Hf. apply List.find_some in Hf.
  destruct Hf as [Hin _]. rewrite List.Forall_forall in Hp. exact (Hp _ Hin).
Qed.

Lemma upsert_cart_item_checks uid pid q st data st' :
  upsert_cart_item uid pid q st = inr (data, st') ->
  checks_hold st ->
  checks_hold st'
  /\ 0 < CartItem.quantity data /\ 0 <= Product.price (CartItem.product data).
Proof.
  intros H Hst. apply upsert_cart_item_inv in H.
  destruct H as (Hq & p & Hp & Hprod & _ & Hdata & Hrows).
  split; [split; [rewrite Hrows|rewrite Hprod; exact (proj2 Hst)]
         |rewrite Hdata; simpl; split; [exact Hq|exact (found_price _ _ _ Hst Hp)]].
  apply List.Forall_app. split; [exact (proj1 Hst)|].
  constructor; [rewrite Hdata; simpl; exact Hq|constructor].
Qed.

Lemma update_cart_quantity_checks uid pid q st data st' :
  update_cart_quantity uid pid q st = inr (data, st') ->
  checks_hold st ->
  checks_hold st'
  /\ 0 < CartItem.quantity data /\ 0 <= Product.price (CartItem.product data).
Proof.
  intros H Hst. apply update_cart_quantity_inv in H.
  destruct H as (Hq & r & p & _ & Hp & Hdata & Hrows & Hprod).
  split; [split; [rewrite Hrows|rewrite Hprod; exact (proj2 Hst)]
         |rewrite Hdata; simpl; split; [exact Hq|exact (found_price _ _ _ Hst Hp)]].
  apply overwrite_positive; [exact Hq|exact (proj1 Hst)].
Qed.

Lemma delete_cart_item_checks uid pid st u st' :
  delete_cart_item uid pid st = inr (u, st') -> checks_hold st -> checks_hold st'.
Proof.
  unfold delete_cart_item. intros H [Hr Hp]. injection H as _ <-.
  split; [apply filter_Forall; exact Hr|exact Hp].
Qed.

Lemma delete_cart_checks uid st u st' :
  delete_cart uid st = inr (u, st') -> checks_hold st -> checks_hold st'.
Proof.
  unfold delete_cart. intros H [Hr Hp]. injection H as _ <-.
  split; [apply filter_Forall; exact Hr|exact Hp].
Qed.

Lemma cart_of_well_formed st uid : checks_hold st -> well_formed (cart_of st uid).
Proof.
  intros Hst. eapply List.Forall_impl; [|apply cart_of_items].
  intros item (_ & Hrow & Hp). split.
  - destruct Hst as [Hr _]. rewrite List.Forall_forall in Hr.
    exact (Hr _ Hrow).
  - exact (found_price _ _ _ Hst Hp).
Qed.

Lemma select_cart_of uid st data st' :
  select_cart uid st = inr (data, st') -> data = cart_of st uid /\ st' = st.
Proof.
  unfold cart_of. intros H. rewrite H. unfold select_cart in H.
  injection H as _ <-. auto.
Qed.

Lemma well_formed_insert (i : nat) data cartItems :
  well_formed cartItems ->
  0 < CartItem.quantity data /\ 0 <= Product.price (CartItem.product data) ->
  well_formed (<[i := data]> cartItems).
Proof.
  intros F Hd. revert i. induction F as [|x l Hx F IH]; intros [|i]; simpl.
  - constructor.
  - constructor.
  - constructor; [exact Hd|exact F].
  - constructor; [exact Hx|apply IH].
Qed.

Lemma fetchCartItems_checks s cartItems w :
  checks_hold (db w) -> well_formed cartItems ->
  checks_hold (db (snd (fetchCartItems s cartItems w)))
  /\ well_formed (fst (fetchCartItems s cartItems w)).
Proof.
  intros Hst Hcart. unfold fetchCartItems.
  destruct (user s) as [uid|]; [destruct (isSupabaseConfigured s)|];
    try (split; assumption).
  unfold bind. destruct (request T_cart_items Select (select_cart uid) w) as [r w1] eqn:E.
  apply request_inv in E. destruct E as (_ & _ & _ & Q).
  destruct r as [e|data]; simpl; [rewrite Q; split; assumption|].
  destruct Q as [_ Q]. apply select_cart_of in Q. destruct Q as [Hd Hs].
  rewrite Hd, Hs. split; [exact Hst|apply cart_of_well_formed; exact Hst].
Qed.

Lemma addToCart_checks s productId quantity cartItems w :
  checks_hold (db w) -> well_formed cartItems ->
  checks_hold (db (snd (addToCart s productId quantity cartItems w)))
  /\ well_formed (fst (addToCart s productId quantity cartItems w)).
Proof.
  intros Hst Hcart. unfold addToCart.
  destruct (user s) as [uid|]; [destruct (isSupabaseConfigured s)|];
    try (split; assumption).
  unfold bind.
  destruct (request T_cart_items Upsert (upsert_cart_item uid productId quantity) w)
    as [r w1] eqn:E.
  apply request_inv in E. destruct E as (_ & _ & _ & Q).
  destruct r as [e|data]; simpl; [rewrite Q; split; assumption|].
  destruct Q as [_ Q].
  destruct (upsert_cart_item_checks _ _ _ _ _ _ Q Hst) as [Hst' Hd].
  split; [exact Hst'|].
  destruct (0 <=? findIndex _ cartItems).
  - apply well_formed_insert; assumption.
  - apply List.Forall_app. split; [exact Hcart|constructor; [exact Hd|constructor]].
Qed.

Lemma removeFromCart_checks s productId cartItems w :
  checks_hold (db w) -> well_formed cartItems ->
  checks_hold (db (snd (removeFromCart s productId cartItems w)))
  /\ well_formed (fst (removeFromCart s productId cartItems w)).
Proof.
  intros Hst Hcart. unfold removeFromCart.
  destruct (user s) as [uid|]; [destruct (isSupabaseConfigured s)|];
    try (split; assumption).
  unfold bind.
  destruct (request T_cart_items Delete (delete_cart_item uid productId) w)
    as [r w1] eqn:E.
  apply request_inv in E. destruct E as (_ & _ & _ & Q).
  destruct r as [e|u]; simpl; [rewrite Q; split; assumption|].
  destruct Q as [_ Q].
  split; [exact (delete_cart_item_checks _ _ _ _ _ Q Hst)|].
  apply filter_Forall. exact Hcart.
Qed.

Lemma updateQuantity_checks s productId quantity cartItems w :
  checks_hold (db w) -> well_formed cartItems ->
  checks_hold (db (snd (updateQuantity s productId quantity cartItems w)))
  /\ well_formed (fst (updateQuantity s productId quantity cartItems w)).
Proof.
  intros Hst Hcart.
  destruct (Z_le_gt_dec quantity 0) as [Hq|Hq].
  { rewrite updateQuantity_delegates by exact Hq.
    apply removeFromCart_checks; assumption. }
  unfold updateQuantity.
  replace (quantity <=? 0) with false by (symmetry; apply Z.leb_gt; lia).
  destruct (user s) as [uid|]; [destruct (isSupabaseConfigured s)|];
    try (split; assumption).
  unfold bind.
  destruct (request T_cart_items Update (update_cart_quantity uid productId quantity) w)
    as [r w1] eqn:E.
  apply request_inv in E. destruct E as (_ & _ & _ & Q).
  destruct r as [e|data]; simpl; [rewrite Q; split; assumption|].
  destruct Q as [_ Q].
  destruct (update_cart_quantity_checks _ _ _ _ _ _ Q Hst) as [Hst' Hd].
  split; [exact Hst'|].
  unfold well_formed. rewrite List.Forall_map.
  eapply List.Forall_impl; [|exact Hcart].
  intros item Hi. simpl.
  destruct (String.eqb (CartItem.product_id item) productId); assumption.
Qed.

Lemma clearCart_checks s cartItems w :
  checks_hold (db w) -> well_formed cartItems ->
  checks_hold (db (snd (clearCart s cartItems w)))
  /\ well_formed (fst (clearCart s cartItems w)).
Proof.
  intros Hst Hcart. unfold clearCart.
  destruct (user s) as [uid|]; [destruct (isSupabaseConfigured s)|];
    try (split; assumption).
  unfold bind.
  destruct (request T_cart_items Delete (delete_cart uid) w) as [r w1] eqn:E.
  apply request_inv in E. destruct E as (_ & _ & _ & Q).
  destruct r as [e|u]; simpl; [rewrite Q; split; assumption|].
  destruct Q as [_ Q].
  split; [exact (delete_cart_checks _ _ _ _ Q Hst)|constructor].
Qed.

(** X11.  The bounds of the CHECK constraints reach the cart state and
    stay there.  For a signed-in user who may read every product of the
    catalog, on a store whose cart rows have a positive quantity and
    whose products have a non-negative price, and with a cart state
    whose entries have both, every function of the cart ledger -
    whatever the arguments and the answer of the store - leaves such a
    store and returns such a cart state. *)
Theorem cart_ledger_keeps_checks s uid productId quantity cartItems w :
  user s = Some uid -> catalog_readable (db w) uid ->
  checks_hold (db w) -> well_formed cartItems ->
  (checks_hold (db (snd (fetchCartItems s cartItems w)))
   /\ well_formed (fst (fetchCartItems s cartItems w)))
  /\ (checks_hold (db (snd (addToCart s productId quantity cartItems w)))
      /\ well_formed (fst (addToCart s productId quantity cartItems w)))
  /\ (checks_hold (db (snd (updateQuantity s productId quantity cartItems w)))
      /\ well_formed (fst (updateQuantity s productId quantity cartItems w)))
  /\ (checks_hold (db (snd (removeFromCart s productId cartItems w)))
      /\ well_formed (fst (removeFromCart s productId cartItems w)))
  /\ (checks_hold (db (snd (clearCart s cartItems w)))
      /\ well_formed (fst (clearCart s cartItems w))).
Proof.
  intros _ _ Hst Hcart.
  split; [apply fetchCartItems_checks; assumption|].
  split; [apply addToCart_checks; assumption|].
  split; [apply updateQuantity_checks; assumption|].
  split; [apply removeFromCart_checks; assumption|].
  apply clearCart_checks; assumption.
Qed.

Lemma sample_catalog_readable uid cart : catalog_readable (set_cart_items sample_store cart) uid.
Proof. unfold catalog_readable. simpl. repeat constructor. Qed.

Example cart_ledger_keeps_checks_witness :
  let cart := [headphones_entry "user-1" 2; watch_entry "user-1" 1] in
  let w := world_of (store_with_cart "user-1" 2 1) in
  well_formed (fst (addToCart customer "prod-tshirt" 3 cart w))
  /\ checks_hold (db (snd (updateQuantity customer "prod-watch" 4 cart w))).
Proof.
  intros cart w.
  assert (Hst : checks_hold (db w)).
  { split; simpl; repeat (constructor; [simpl; lia|]); constructor. }
  assert (Hcart : well_formed cart).
  { unfold well_formed, cart. repeat (constructor; [simpl; lia|]). constructor. }
  assert (Hread : catalog_readable (db w) "user-1") by apply sample_catalog_readable.
  destruct (cart_ledger_keeps_checks customer "user-1" "prod-tshirt" 3 cart w
              eq_refl Hread Hst Hcart)
    as (_ & [_ Hadd] & _).
  destruct (cart_ledger_keeps_checks customer "user-1" "prod-watch" 4 cart w
              eq_refl Hread Hst Hcart)
    as (_ & _ & [Hupdate _] & _).
  split; [exact Hadd|exact Hupdate].
Defined.

(** ** The total of the cart *)

Lemma cartTotal_acc l a :
  fold_left
    (fun total item => total + Product.price (CartItem.product item) * CartItem.quantity item)
    l a
  = a + cartTotal l.
Proof.
  unfold cartTotal. revert a. induction l as [|x l IH]; intros a; simpl; [lia|].
  rewrite IH, (IH (0 + _)). lia.
Qed.

Lemma cartTotal_cons x l :
  cartTotal (x :: l)
  = Product.price (CartItem.product x) * CartItem.quantity x + cartTotal l.
Proof. unfold cartTotal at 1. simpl. rewrite cartTotal_acc. lia. Qed.

Lemma well_formed_total cartItems : well_formed cartItems -> 0 <= cartTotal cartItems.
Proof.
  intros F. induction F as [|x l [Hq Hp] F IH]; [reflexivity|].
  rewrite cartTotal_cons. nia.
Qed.

(** ** The button of the product card *)

(** X14.  "Add to Cart" on a product card asks for quantity 1, and the
    store takes it only for a product the user has no cart row of.  For
    a product the user holds, the call is refused: the store and the
    cart state are as they were - the quantity held included - and the
    user is told "Failed to add to cart".  When the call succeeds, the
    user had no row of the product and has one now, with quantity 1, and
    a cart state without an entry of the product has the row that the
    store returned at its end. *)
Theorem handleAddToCart_adds_one_or_is_refused s uid product cartItems w :
  user s = Some uid -> isSupabaseConfigured s = true ->
  let run := handleAddToCart s product cartItems w in
  (rows_of (db w) uid (Product.id product) <> [] ->
     fst run = cartItems
     /\ db (snd run) = db w
     /\ store_reported_error w (snd run)
     /\ toasts (snd run) = toasts w ++ [toast_error "Failed to add to cart"])
  /\ (every_call_succeeded w (snd run) ->
      rows_of (db w) uid (Product.id product) = []
      /\ exists data,
           rows_of (db (snd run)) uid (Product.id product) = [row_of data]
           /\ CartItem.quantity data = 1
           /\ CartItem.product_id data = Product.id product
           /\ (entries_of cartItems (Product.id product) = [] ->
               fst run = cartItems ++ [data])).
Proof.
  intros Hu Hc run. subst run. unfold handleAddToCart.
  set (pid := Product.id product). split.
  - intros Hheld.
    destruct (upsert_cart_item_held uid pid 1 (db w) Hheld) as [e He].
    destruct (addToCart_refused s uid pid 1 cartItems w e Hu Hc He)
      as (H1 & H2 & H3 & H4).
    split; [exact H1|]. split; [exact H2|]. split; [|exact H4].
    unfold store_reported_error. rewrite H3. apply Exists_cons_hd. reflexivity.
  - intros Hall.
    destruct (addToCart_inv s uid pid 1 cartItems w Hu Hc)
      as (r & w1 & E & Hdb & Hcalls & Hres).
    apply request_inv in E. destruct E as (C & _ & _ & Q).
    rewrite C in Hcalls. pose proof (single_call_ok _ _ _ Hcalls Hall) as Hok.
    destruct r as [e|data]; [discriminate|]. destruct Q as [_ Q].
    destruct (upsert_cart_item_new_row _ _ _ _ _ _ Q) as (Hnone & Hrow & Hq).
    apply upsert_cart_item_rows in Q. destruct Q as (Hdp & _).
    split; [exact Hnone|]. exists data. rewrite Hdb.
    split; [exact Hrow|]. split; [exact Hq|]. split; [exact Hdp|].
    intros Hentries. rewrite Hres. cbv zeta.
    rewrite (findIndex_absent _ _ (entries_of_empty_absent _ _ Hentries)).
    reflexivity.
Qed.

Example handleAddToCart_adds_one_or_is_refused_witness :
  let cart := [headphones_entry "user-1" 2; watch_entry "user-1" 1] in
  let w := world_of (store_with_cart "user-1" 2 1) in
  fst (handleAddToCart customer headphones cart w) = cart
  /\ rows_of (db (snd (handleAddToCart customer headphones cart w)))
       "user-1" "prod-headphones"
     = [CartRow.mk "cart-1" "user-1" "prod-headphones" 2]
  /\ exists data,
       fst (handleAddToCart customer tshirt cart w) = cart ++ [data]
       /\ CartItem.quantity data = 1.
Proof.
  intros cart w.
  destruct (handleAddToCart_adds_one_or_is_refused customer "user-1" headphones cart w
              eq_refl eq_refl) as [Hheld _].
  destruct Hheld as (Hcart & Hdb & _); [discriminate|].
  split; [exact Hcart|]. split; [rewrite Hdb; reflexivity|].
  destruct (handleAddToCart_adds_one_or_is_refused customer "user-1" tshirt cart w
              eq_refl eq_refl) as [_ Hnew].
  destruct Hnew as (_ & data & _ & Hq & _ & Happend).
  { apply every_call_succeeded_by_run. reflexivity. }
  exists data. split; [apply Happend; reflexivity|exact Hq].
Defined.

(** ** The stages of a checkout *)

Lemma update_stock_stage uid items w r w' :
  update_stock uid items w = (r, w') ->
  toasts w' = toasts w
  /\ match r with
     | inr _ =>
         calls w' = calls w ++ repeat (call T_products Update true) (length items)
         /\ apply_stock uid items (db w) = inr (db w')
     | inl _ =>
         exists k, (k < length items)%nat
           /\ calls w' = calls w ++ repeat (call T_products Update true) k
                                 ++ [call T_products Update false]
           /\ apply_stock uid (firstn k items) (db w) = inr (db w')
     end.
Proof.
  revert w r w'. induction items as [|item rest IH]; intros w r w' H.
  - simpl in H. unfold ret in H. inversion H; subst.
    split; [reflexivity|]. simpl. rewrite app_nil_r. auto.
  - simpl in H. unfold bind in H.
    destruct (request T_products Update _ w) as [r1 w1] eqn:E.
    apply request_inv in E. destruct E as (Hcalls & Htoasts & _ & Hq).
    destruct r1 as [e|u].
    + unfold ret in H. inversion H; subst.
      split; [exact Htoasts|]. exists 0%nat.
      split; [simpl; lia|]. split; [exact Hcalls|]. simpl. rewrite Hq. reflexivity.
    + destruct Hq as [_ Hq]. destruct (IH _ _ _ H) as (Ht & Hr).
      split; [congruence|]. destruct r as [e|u'].
      * destruct Hr as (k & Hk & Hl & Happly). exists (S k).
        split; [simpl; lia|]. split.
        { rewrite Hl, Hcalls. simpl. rewrite <- app_assoc. reflexivity. }
        simpl. rewrite Hq. exact Happly.
      * destruct Hr as [Hl Happly]. split.
        { rewrite Hl, Hcalls. simpl. rewrite <- app_assoc. reflexivity. }
        simpl. rewrite Hq. exact Happly.
Qed.

Lemma order_insert_stage uid data cartItems w r w1 :
  order_insert uid data cartItems w = (r, w1) ->
  toasts w1 = toasts w
  /\ calls w1 = calls w ++ [call T_orders Insert (response_ok r)]
  /\ match r with
     | inl _ => db w1 = db w
     | inr order => order = order_of uid data cartItems (db w)
                    /\ db w1 = with_order uid data cartItems (db w)
     end.
Proof.
  unfold order_insert. intros E. apply request_inv in E.
  destruct E as (Hcalls & Ht & _ & Q).
  split; [exact Ht|]. split; [exact Hcalls|].
  destruct r as [e|order]; [exact Q|].
  destruct Q as [_ Q]. apply insert_order_inv in Q. destruct Q as (_ & Ho & Hst).
  split; [exact Ho|]. rewrite Hst. unfold with_order, order_of. rewrite <- Ho.
  reflexivity.
Qed.

Lemma order_items_insert_stage uid data cartItems st w1 r w2 :
  db w1 = with_order uid data cartItems st ->
  order_items_insert (order_of uid data cartItems st) cartItems w1 = (r, w2) ->
  toasts w2 = toasts w1
  /\ calls w2 = calls w1 ++ [call T_order_items Insert (response_ok r)]
  /\ match r with
     | inl _ => db w2 = db w1
     | inr _ => db w2 = with_lines uid data cartItems st
     end.
Proof.
  unfold order_items_insert. intros Hdb E. apply request_inv in E.
  destruct E as (Hcalls & Ht & _ & Q).
  split; [exact Ht|]. split; [exact Hcalls|].
  destruct r as [e|u]; [exact Q|].
  destruct Q as [_ Q]. apply insert_order_items_inv in Q. destruct Q as (_ & Hst).
  rewrite Hst, Hdb. unfold with_lines, lines_of, orderItems_of.
  rewrite length_map. reflexivity.
Qed.

Lemma handleCheckout_stage s uid data cartItems w :
  user s = Some uid -> isSupabaseConfigured s = true ->
  exists stage,
    new_calls w (snd (handleCheckout s data cartItems w))
    = log_of (length cartItems) stage
    /\ fst (handleCheckout s data cartItems w) = result_of cartItems stage
    /\ toasts (snd (handleCheckout s data cartItems w)) = toasts w ++ toasts_of stage
    /\ tables_of uid data cartItems (db w) stage
         (db (snd (handleCheckout s data cartItems w))).
Proof.
  intros Hu Hc.
  destruct (handleCheckout s data cartItems w) as [res w'] eqn:E. simpl.
  destruct (handleCheckout_inv _ _ _ _ _ _ _ Hu Hc E)
    as [(e & w1 & E1 & Ef)
       |[(order & w1 & e & w2 & E1 & E2 & Ef)
        |[(order & w1 & w2 & e & w3 & E1 & E2 & E3 & Ef)
         |(order & w1 & w2 & w3 & cleared & w4 & E1 & E2 & E3 & E4 & Hres & Et)]]].
  - apply order_insert_stage in E1. destruct E1 as (T1 & C1 & D1).
    apply checkout_failed_inv in Ef. destruct Ef as (-> & Df & Cf & Tf).
    exists AtOrder. simpl.
    split; [apply new_calls_app; rewrite Cf; exact C1|].
    split; [reflexivity|]. split; [congruence|congruence].
  - apply order_insert_stage in E1. destruct E1 as (T1 & C1 & -> & D1).
    apply (order_items_insert_stage uid data cartItems (db w)) in E2; [|exact D1].
    destruct E2 as (T2 & C2 & D2).
    apply checkout_failed_inv in Ef. destruct Ef as (-> & Df & Cf & Tf).
    exists AtOrderItems. simpl.
    split; [apply new_calls_app; rewrite Cf, C2, C1, <- app_assoc; reflexivity|].
    split; [reflexivity|]. split; [congruence|congruence].
  - apply order_insert_stage in E1. destruct E1 as (T1 & C1 & -> & D1).
    apply (order_items_insert_stage uid data cartItems (db w)) in E2; [|exact D1].
    destruct E2 as (T2 & C2 & D2).
    apply update_stock_stage in E3. destruct E3 as (T3 & k & Hk & C3 & D3).
    apply checkout_failed_inv in Ef. destruct Ef as (-> & Df & Cf & Tf).
    exists (AtStock k). simpl.
    split; [apply new_calls_app; rewrite Cf, C3, C2, C1, <- !app_assoc; reflexivity|].
    split; [reflexivity|]. split; [congruence|].
    split; [exact Hk|]. rewrite Df, <- D2. exact D3.
  - apply order_insert_stage in E1. destruct E1 as (T1 & C1 & -> & D1).
    apply (order_items_insert_stage uid data cartItems (db w)) in E2; [|exact D1].
    destruct E2 as (T2 & C2 & D2).
    apply update_stock_stage in E3. destruct E3 as (T3 & C3 & D3).
    apply (clearCart_inv s uid) in E4; [|exact Hu|exact Hc].
    destruct E4 as (c & C4 & Hct & Hcv & Hcase).
    apply toast_inv in Et. destruct Et as (Dt & Ct & _ & Tt).
    assert (Hc4 : c = call T_cart_items Delete (call_ok c))
      by (destruct c; simpl in *; subst; reflexivity).
    destruct Hcase as [(Hok & -> & D4 & T4)|(Hok & -> & D4 & T4)].
    + exists (AtClear true). simpl. rewrite Hres.
      split.
      { apply new_calls_app. rewrite Ct, C4, C3, C2, C1, Hc4, Hok, <- !app_assoc.
        reflexivity. }
      split; [reflexivity|]. split; [congruence|].
      exists (db w3). split; [rewrite <- D2; exact D3|].
      rewrite Dt. unfold delete_cart in D4. injection D4 as <-. reflexivity.
    + exists (AtClear false). simpl. rewrite Hres.
      split.
      { apply new_calls_app. rewrite Ct, C4, C3, C2, C1, Hc4, Hok, <- !app_assoc.
        reflexivity. }
      split; [reflexivity|].
      split; [rewrite Tt, T4, T3, T2, T1, <- app_assoc; reflexivity|].
      rewrite Dt, D4, <- D2. exact D3.
Qed.

Lemma repeat_Forall {A : Type} (P : A -> Prop) x n : P x -> Forall P (repeat x n).
Proof. intros H. induction n; simpl; constructor; assumption. Qed.

Lemma log_of_shape n stage :
  Forall (fun c => call_ok c = true) (removelast (log_of n stage))
  /\ Forall (fun c => call_verb c <> Select) (log_of n stage)
  /\ log_of n stage <> [].
Proof.
  assert (Hlast : forall k c,
            removelast ([call T_orders Insert true; call T_order_items Insert true]
                        ++ repeat (call T_products Update true) k ++ [c])
            = [call T_orders Insert true; call T_order_items Insert true]
              ++ repeat (call T_products Update true) k).
  { intros k c. rewrite app_assoc. apply removelast_last. }
  assert (Hoks : forall k,
            Forall (fun c => call_ok c = true)
              ([call T_orders Insert true; call T_order_items Insert true]
               ++ repeat (call T_products Update true) k)).
  { intros k. apply List.Forall_app. split; [repeat constructor|].
    apply repeat_Forall. reflexivity. }
  assert (Hverbs : forall k c, call_verb c <> Select ->
            Forall (fun c => call_verb c <> Select)
              ([call T_orders Insert true; call T_order_items Insert true]
               ++ repeat (call T_products Update true) k ++ [c])).
  { intros k c Hc. apply List.Forall_app. split; [repeat constructor; discriminate|].
    apply List.Forall_app. split; [apply repeat_Forall; discriminate|].
    constructor; [exact Hc|constructor]. }
  destruct stage as [| |k|b]; unfold log_of.
  - split; [constructor|]. split; [repeat constructor; discriminate|discriminate].
  - split; [repeat constructor|]. split; [repeat constructor; discriminate|discriminate].
  - split; [rewrite Hlast; apply Hoks|].
    split; [apply Hverbs; discriminate|discriminate].
  - split; [rewrite Hlast; apply Hoks|].
    split; [apply Hverbs; discriminate|discriminate].
Qed.

Lemma log_of_length n stage :
  match stage with AtStock k => (k < n)%nat | _ => True end ->
  (length (log_of n stage) <= n + 3)%nat.
Proof.
  destruct stage as [| |k|b]; simpl; intros H; try lia;
    rewrite length_app, repeat_length; simpl; lia.
Qed.

(** X15.  A checkout of a signed-in user ends at one of its calls and
    nothing is taken back.  The calls are, in this order, the insert of
    the order, the insert of its lines, one stock update per entry and
    the delete of the cart rows; the first call that the store answers
    with an error is the last call made (so every call before the last
    succeeded), there are at most [n + 3] of them for [n] entries and
    none is a read.  The outcome, the cart state, the notifications and
    the tables are those of the stage: what was written before the
    failing call stays written - the order without its lines, or the
    order and its lines with the stock of the first [k] entries - while
    the cart state and the cart rows are kept; and a checkout whose
    cart could not be cleared still ends as "Order placed
    successfully!", with the cart as it was. *)
Theorem handleCheckout_ends_at_a_stage s uid data cartItems w :
  user s = Some uid -> isSupabaseConfigured s = true ->
  let run := handleCheckout s data cartItems w in
  exists stage,
    new_calls w (snd run) = log_of (length cartItems) stage
    /\ fst run = result_of cartItems stage
    /\ toasts (snd run) = toasts w ++ toasts_of stage
    /\ tables_of uid data cartItems (db w) stage (db (snd run))
    /\ Forall (fun c => call_ok c = true) (removelast (new_calls w (snd run)))
    /\ Forall (fun c => call_verb c <> Select) (new_calls w (snd run))
    /\ (1 <= length (new_calls w (snd run)) <= length cartItems + 3)%nat.
Proof.
  intros Hu Hc run. subst run.
  destruct (handleCheckout_stage s uid data cartItems w Hu Hc)
    as (stage & Hlog & Hres & Htoasts & Htables).
  exists stage. rewrite Hlog.
  destruct (log_of_shape (length cartItems) stage) as (Hoks & Hverbs & Hne).
  split; [reflexivity|]. repeat (split; [assumption|]).
  split.
  - destruct (log_of (length cartItems) stage) eqn:E; [congruence|simpl; lia].
  - apply log_of_length. destruct stage; try exact I. exact (proj1 Htables).
Qed.

Example handleCheckout_ends_at_a_stage_witness :
  let cart := [last_unit_entry "admin-1" 2] in
  let w := world_of (store_last_unit "admin-1" 2) in
  let run := handleCheckout administrator sample_form cart w in
  Forall (fun c => call_ok c = true) (removelast (new_calls w (snd run)))
  /\ (length (new_calls w (snd run)) <= 4)%nat.
Proof.
  intros cart w run.
  destruct (handleCheckout_ends_at_a_stage administrator "admin-1" sample_form cart w
              eq_refl eq_refl)
    as (stage & _ & _ & _ & _ & Hoks & _ & Hlen).
  split; [exact Hoks|exact (proj2 Hlen)].
Defined.

(** ** A failed checkout that is tried again *)

Lemma uuid_of_nat_inj n m : uuid_of_nat n = uuid_of_nat m -> n = m.
Proof.
  unfold uuid_of_nat. intros H. simpl in H. injection H as H.
  apply (f_equal NilEmpty.uint_of_string) in H.
  rewrite !NilEmpty.usu in H. injection H as H.
  apply (f_equal Nat.of_uint) in H.
  rewrite !DecimalNat.Unsigned.of_to in H. exact H.
Qed.

Lemma apply_stock_next_uuid uid items st st' :
  apply_stock uid items st = inr st' -> next_uuid st' = next_uuid st.
Proof. intros H. apply apply_stock_frame in H. apply H. Qed.

Lemma tables_of_next_uuid uid data cartItems st stage st' :
  tables_of uid data cartItems st stage st' ->
  stage <> AtOrder -> (next_uuid st < next_uuid st')%nat.
Proof.
  destruct stage as [| |k|[|]]; simpl; intros H Hne.
  - congruence.
  - rewrite H. simpl. lia.
  - destruct H as [_ H]. apply apply_stock_next_uuid in H. rewrite H. simpl. lia.
  - destruct H as (st3 & H & ->). apply apply_stock_next_uuid in H. simpl.
    rewrite H. simpl. lia.
  - apply apply_stock_next_uuid in H. rewrite H. simpl. lia.
Qed.

(** X16.  A checkout that failed after the store had accepted the
    order, and that is tried again with the cart it kept, leaves two
    orders.  The failed attempt returns the cart state unchanged; when
    the second attempt goes through, table [orders] holds two new rows
    for the one cart, both of the user, both with the total of the cart
    and the same address, under two different identifiers. *)
Theorem failed_checkout_retried s uid data cartItems w :
  user s = Some uid -> isSupabaseConfigured s = true ->
  let first := handleCheckout s data cartItems w in
  let second := handleCheckout s data (snd (fst first)) (snd first) in
  fst (fst first) = CheckoutFailed ->
  response_ok (fst (order_insert uid data cartItems w)) = true ->
  every_call_succeeded (snd first) (snd second) ->
  let o1 := order_of uid data cartItems (db w) in
  let o2 := order_of uid data cartItems (db (snd first)) in
  snd (fst first) = cartItems
  /\ fst second = (OrderPlaced, [])
  /\ orders (db (snd second)) = orders (db w) ++ [o1; o2]
  /\ Order.id o1 <> Order.id o2
  /\ Order.total_amount o1 = cartTotal cartItems
  /\ Order.total_amount o2 = cartTotal cartItems.
Proof.
  intros Hu Hc first second Hfailed Hok Hall o1 o2. subst second.
  destruct (handleCheckout_stage s uid data cartItems w Hu Hc)
    as (stage & Hlog & Hres & _ & Htables).
  fold first in Hlog, Hres, Htables.
  assert (Hcart : snd (fst first) = cartItems).
  { rewrite Hres. destruct stage as [| |k|[|]]; try reflexivity.
    rewrite Hres in Hfailed. discriminate. }
  rewrite Hcart in *.
  destruct (handleCheckout_order_tables s uid data cartItems w Hu Hc)
    as [[Hno _]|(_ & Horders & _)]; [congruence|].
  fold first in Horders.
  destruct (handleCheckout_placed s uid data cartItems (snd first) Hu Hc Hall)
    as (Hres2 & Horders2 & _).
  split; [reflexivity|]. split; [exact Hres2|].
  split.
  { rewrite Horders2, Horders, <- app_assoc. reflexivity. }
  split; [|split; reflexivity].
  subst o1 o2. unfold order_of. simpl. intros Hid. apply uuid_of_nat_inj in Hid.
  assert (Hstage : stage <> AtOrder).
  { intros ->. simpl in Htables. rewrite Htables in Horders.
    apply (f_equal (@length Order.t)) in Horders.
    rewrite length_app in Horders. simpl in Horders. lia. }
  pose proof (tables_of_next_uuid _ _ _ _ _ _ Htables Hstage). lia.
Qed.

Example failed_checkout_retried_witness :
  let cart := [headphones_entry "user-1" 2; watch_entry "user-1" 1] in
  let w := world_down_after 1 (store_with_cart "user-1" 2 1) in
  let first := handleCheckout customer sample_form cart w in
  let second := handleCheckout customer sample_form (snd (fst first)) (snd first) in
  length (orders (db (snd second))) = 2%nat
  /\ length (order_items (db (snd second))) = 2%nat.
Proof.
  intros cart w first second.
  assert (Hall : every_call_succeeded (snd first) (snd second))
    by (apply every_call_succeeded_by_run; reflexivity).
  destruct (failed_checkout_retried customer "user-1" sample_form cart w
              eq_refl eq_refl eq_refl eq_refl Hall)
    as (_ & _ & Horders & _).
  fold first second in Horders. rewrite Horders.
  split; reflexivity.
Defined.

(** ** A checkout on a store that can be reached *)

Lemma request_reachable {A : Type} t v (q : Store -> Response (A * Store)) w r w' :
  reachable w -> request t v q w = (r, w') ->
  reachable w' /\ (forall e, r = inl e -> q (db w) = inl e).
Proof.
  unfold reachable, request. intros Hr.
  destruct (outages w) as [|[|] rest] eqn:Ho.
  - destruct (q (db w)) as [e|[a st']]; intros H; inversion H; subst; simpl;
      (split; [constructor|]); intros e' He; congruence.
  - inversion Hr; subst. discriminate.
  - inversion Hr as [|? ? _ Hrest]; subst.
    destruct (q (db w)) as [e|[a st']]; intros H; inversion H; subst; simpl;
      (split; [exact Hrest|]); intros e' He; congruence.
Qed.

Lemma update_product_stock_accepts uid pid v st :
  is_admin st uid = false \/ 0 <= v ->
  exists st', update_product_stock uid pid v st = inr (tt, st').
Proof.
  unfold update_product_stock. intros [Ha|Hv].
  - rewrite Ha. simpl. eauto.
  - destruct (negb (is_admin st uid)); [eauto|].
    destruct (find_product st pid); [|eauto].
    replace (v <? 0) with false by (symmetry; apply Z.ltb_ge; exact Hv). eauto.
Qed.

Lemma update_stock_reachable uid items w r w' :
  reachable w ->
  is_admin (db w) uid = false \/ stock_covers items ->
  update_stock uid items w = (r, w') ->
  r = inr tt /\ reachable w'.
Proof.
  revert w r w'. induction items as [|item rest IH]; intros w r w' Hr Hcov H.
  - simpl in H. unfold ret in H. inversion H; subst. auto.
  - simpl in H. unfold bind in H.
    destruct (request T_products Update _ w) as [r1 w1] eqn:E.
    pose proof (request_reachable _ _ _ _ _ _ Hr E) as [Hr1 Hwhy].
    apply request_inv in E. destruct E as (_ & _ & _ & Q).
    destruct r1 as [e|u].
    + exfalso.
      destruct (update_product_stock_accepts uid (CartItem.product_id item)
                  (Product.stock_quantity (CartItem.product item) - CartItem.quantity item)
                  (db w)) as [st' Hacc].
      { destruct Hcov as [Ha|Hcov]; [left; exact Ha|right].
        inversion Hcov; subst. lia. }
      rewrite (Hwhy e eq_refl) in Hacc. discriminate.
    + destruct Q as [_ Q]. apply (IH w1); [exact Hr1| |exact H].
      destruct Hcov as [Ha|Hcov]; [left|right; inversion Hcov; assumption].
      rewrite <- Ha. apply is_admin_frame.
      apply update_product_stock_frame in Q. apply Q.
Qed.

Lemma find_app_some {A : Type} (f : A -> bool) l x :
  f x = true -> List.find f (l ++ [x]) <> None.
Proof.
  intros Hx. induction l as [|y l IH]; simpl.
  - rewrite Hx. discriminate.
  - destruct (f y); [discriminate|exact IH].
Qed.

Lemma lines_accepted st o cartItems :
  well_formed cartItems ->
  fits_columns cartItems ->
  Forall (fun item => find_product st (CartItem.product_id item) <> None) cartItems ->
  find_order st (Order.id o) <> None ->
  first_violation st (orderItems_of o cartItems) = None.
Proof.
  intros Hwf Hfit Hfound Horder. unfold orderItems_of.
  induction cartItems as [|item rest IH]; simpl; [reflexivity|].
  inversion Hwf as [|? ? [Hq Hp] Hwf']; subst.
  inversion Hfit as [|? ? (Hqmax & Hpmax & _) Hfit']; subst.
  inversion Hfound as [|? ? Hf Hfound']; subst.
  unfold order_item_ok. simpl.
  replace (0 <? CartItem.quantity item) with true by (symmetry; apply Z.ltb_lt; exact Hq).
  replace (Product.price (CartItem.product item) <? 0) with false
    by (symmetry; apply Z.ltb_ge; exact Hp).
  replace (integer_max <? CartItem.quantity item) with false
    by (symmetry; apply Z.ltb_ge; exact Hqmax).
  replace (decimal_10_2_max <? Product.price (CartItem.product item)) with false
    by (symmetry; apply Z.ltb_ge; exact Hpmax).
  simpl.
  destruct (find_order st (Order.id o)); [|congruence].
  destruct (find_product st (CartItem.product_id item)); [|congruence].
  exact (IH Hwf' Hfit' Hfound').
Qed.

Lemma with_order_finds uid data cartItems st :
  find_order (with_order uid data cartItems st)
    (Order.id (order_of uid data cartItems st)) <> None.
Proof.
  unfold find_order, with_order. simpl. apply find_app_some. apply String.eqb_refl.
Qed.

Lemma handleCheckout_reachable s uid data cartItems w :
  user s = Some uid -> isSupabaseConfigured s = true ->
  reachable w ->
  well_formed cartItems ->
  fits_columns cartItems ->
  cartTotal cartItems <= decimal_10_2_max ->
  Forall (fun item => find_product (db w) (CartItem.product_id item) <> None) cartItems ->
  is_admin (db w) uid = false \/ stock_covers cartItems ->
  fst (handleCheckout s data cartItems w) = (OrderPlaced, [])
  /\ new_calls w (snd (handleCheckout s data cartItems w))
     = log_of (length cartItems) (AtClear true).
Proof.
  intros Hu Hc Hr Hwf Hfit Hmax Hfound Hcov.
  pose proof (well_formed_total _ Hwf) as Htotal.
  destruct (handleCheckout s data cartItems w) as [res w'] eqn:E. simpl.
  assert (Horder : forall r1 w1, order_insert uid data cartItems w = (r1, w1) ->
            r1 = inr (order_of uid data cartItems (db w))
            /\ db w1 = with_order uid data cartItems (db w)
            /\ reachable w1
            /\ calls w1 = calls w ++ [call T_orders Insert true]).
  { intros r1 w1 E1. pose proof E1 as E1'. unfold order_insert in E1'.
    destruct (request_reachable _ _ _ _ _ _ Hr E1') as [Hr1 Hwhy].
    apply order_insert_stage in E1. destruct E1 as (_ & C1 & D1).
    destruct r1 as [e|order].
    - exfalso. pose proof (Hwhy e eq_refl) as Hq. unfold insert_order in Hq.
      replace (cartTotal cartItems <? 0) with false in Hq
        by (symmetry; apply Z.ltb_ge; exact Htotal).
      replace (decimal_10_2_max <? cartTotal cartItems) with false in Hq
        by (symmetry; apply Z.ltb_ge; exact Hmax).
      discriminate.
    - destruct D1 as [-> D1]. auto. }
  assert (Hlines : forall w1 r2 w2,
            db w1 = with_order uid data cartItems (db w) -> reachable w1 ->
            order_items_insert (order_of uid data cartItems (db w)) cartItems w1 = (r2, w2) ->
            r2 = inr tt
            /\ db w2 = with_lines uid data cartItems (db w)
            /\ reachable w2
            /\ calls w2 = calls w1 ++ [call T_order_items Insert true]).
  { intros w1 r2 w2 D1 Hr1 E2. pose proof E2 as E2'. unfold order_items_insert in E2'.
    destruct (request_reachable _ _ _ _ _ _ Hr1 E2') as [Hr2 Hwhy].
    apply (order_items_insert_stage uid data cartItems (db w)) in E2; [|exact D1].
    destruct E2 as (_ & C2 & D2).
    destruct r2 as [e|[]].
    - exfalso. pose proof (Hwhy e eq_refl) as Hq. unfold insert_order_items in Hq.
      rewrite D1, lines_accepted in Hq; [discriminate|exact Hwf|exact Hfit|exact Hfound|].
      apply with_order_finds.
    - auto. }
  assert (Hstock : forall w2 r3 w3,
            db w2 = with_lines uid data cartItems (db w) -> reachable w2 ->
            update_stock uid cartItems w2 = (r3, w3) ->
            r3 = inr tt /\ reachable w3
            /\ calls w3 = calls w2 ++ repeat (call T_products Update true) (length cartItems)).
  { intros w2 r3 w3 D2 Hr2 E3.
    destruct (update_stock_reachable uid cartItems w2 r3 w3 Hr2) as [-> Hr3];
      [|exact E3|].
    - destruct Hcov as [Ha|Hcov]; [left|right; exact Hcov].
      rewrite <- Ha. apply is_admin_frame. rewrite D2. reflexivity.
    - apply update_stock_stage in E3. destruct E3 as (_ & C3 & _). auto. }
  destruct (handleCheckout_inv _ _ _ _ _ _ _ Hu Hc E)
    as [(e & w1 & E1 & Ef)
       |[(order & w1 & e & w2 & E1 & E2 & Ef)
        |[(order & w1 & w2 & e & w3 & E1 & E2 & E3 & Ef)
         |(order & w1 & w2 & w3 & cleared & w4 & E1 & E2 & E3 & E4 & Hres & Et)]]].
  - destruct (Horder _ _ E1) as (H & _). discriminate.
  - destruct (Horder _ _ E1) as (H & D1 & Hr1 & _). injection H as ->.
    destruct (Hlines _ _ _ D1 Hr1 E2) as (H & _). discriminate.
  - destruct (Horder _ _ E1) as (H & D1 & Hr1 & _). injection H as ->.
    destruct (Hlines _ _ _ D1 Hr1 E2) as (_ & D2 & Hr2 & _).
    destruct (Hstock _ _ _ D2 Hr2 E3) as (H & _). discriminate.
  - destruct (Horder _ _ E1) as (H & D1 & Hr1 & C1). injection H as ->.
    destruct (Hlines _ _ _ D1 Hr1 E2) as (_ & D2 & Hr2 & C2).
    destruct (Hstock _ _ _ D2 Hr2 E3) as (_ & Hr3 & C3).
    apply toast_inv in Et. destruct Et as (_ & Ct & _).
    unfold clearCart in E4. rewrite Hu, Hc in E4. unfold bind in E4.
    destruct (request T_cart_items Delete (delete_cart uid) w3) as [r4 w4'] eqn:E4'.
    destruct (request_reachable _ _ _ _ _ _ Hr3 E4') as [_ Hwhy].
    apply request_inv in E4'. destruct E4' as (C4 & _).
    destruct r4 as [e|[]].
    + pose proof (Hwhy e eq_refl) as Hq. unfold delete_cart in Hq. discriminate.
    + unfold ret in E4. injection E4 as <- <-.
      split; [exact Hres|].
      apply new_calls_app. rewrite Ct, C4, C3, C2, C1, <- !app_assoc. reflexivity.
Qed.

(** X17.  On a store that can be reached a checkout goes through.  For
    a signed-in user whose cart state has positive quantities,
    non-negative prices and products that exist, whose entries and
    total are within the ranges of the columns ([integer] for
    quantities and stock, [decimal(10,2)] for prices and the total),
    and who either is no administrator or asks for no more than the
    stock shown in the cart, every call is answered without an error:
    the outcome is "order placed", the cart state is empty and the calls
    are the insert of the order, the insert of the lines, one stock
    update per entry and the delete of the cart rows.  For a customer
    this holds whatever the stock of the products is in the store. *)
Theorem handleCheckout_goes_through s uid data cartItems w :
  user s = Some uid -> isSupabaseConfigured s = true ->
  reachable w ->
  well_formed cartItems ->
  fits_columns cartItems ->
  cartTotal cartItems <= decimal_10_2_max ->
  Forall (fun item => find_product (db w) (CartItem.product_id item) <> None) cartItems ->
  is_admin (db w) uid = false \/ stock_covers cartItems ->
  let run := handleCheckout s data cartItems w in
  fst run = (OrderPlaced, [])
  /\ every_call_succeeded w (snd run)
  /\ new_calls w (snd run) = log_of (length cartItems) (AtClear true)
  /\ length (new_calls w (snd run)) = (length cartItems + 3)%nat
  /\ rows_of_user (db (snd run)) uid = [].
Proof.
  intros Hu Hc Hr Hwf Hfit Hmax Hfound Hcov run. subst run.
  destruct (handleCheckout_reachable s uid data cartItems w
              Hu Hc Hr Hwf Hfit Hmax Hfound Hcov) as [Hres Hlog].
  assert (Hall : every_call_succeeded w (snd (handleCheckout s data cartItems w))).
  { unfold every_call_succeeded. rewrite Hlog. unfold log_of.
    apply List.Forall_app. split; [repeat constructor|].
    apply List.Forall_app. split; [apply repeat_Forall; reflexivity|].
    repeat constructor. }
  split; [exact Hres|]. split; [exact Hall|]. split; [exact Hlog|]. split.
  - rewrite Hlog. unfold log_of. rewrite !length_app, repeat_length. simpl. lia.
  - destruct (handleCheckout_placed s uid data cartItems w Hu Hc Hall)
      as (_ & _ & _ & Hrows & _).
    unfold rows_of_user. rewrite Hrows. apply rows_of_user_deleted.
Qed.

Example handleCheckout_goes_through_witness :
  let cart := [last_unit_entry "user-1" 2] in
  let w := world_of (store_last_unit "user-1" 2) in
  stock_of (db w) "prod-headphones" = Some 1
  /\ fst (handleCheckout customer sample_form cart w) = (OrderPlaced, []).
Proof.
  intros cart w. split; [reflexivity|].
  assert (Hwf : well_formed cart).
  { unfold well_formed, cart. repeat (constructor; [simpl; lia|]). constructor. }
  assert (Hfit : fits_columns cart).
  { unfold fits_columns, cart, integer_max, decimal_10_2_max.
    repeat (constructor; [simpl; lia|]). constructor. }
  assert (Hmax : cartTotal cart <= decimal_10_2_max).
  { unfold cartTotal, cart, decimal_10_2_max. simpl. lia. }
  assert (Hfound : Forall (fun item => find_product (db w) (CartItem.product_id item)
                                       <> None) cart).
  { repeat constructor. discriminate. }
  destruct (handleCheckout_goes_through customer "user-1" sample_form cart w
              eq_refl eq_refl ltac:(constructor) Hwf Hfit Hmax Hfound
              ltac:(left; reflexivity))
    as (Hres & _).
  exact Hres.
Defined.

(** ** What a checkout leaves alone *)

Lemma forget_stock_restock pid v ps :
  map forget_stock (map (restock pid v) ps) = map forget_stock ps.
Proof.
  rewrite map_map. apply map_ext. intros p. unfold restock.
  destruct (String.eqb (Product.id p) pid); reflexivity.
Qed.

Lemma apply_stock_fields uid items st st' :
  apply_stock uid items st = inr st' ->
  map forget_stock (products st') = map forget_stock (products st).
Proof.
  revert st. induction items as [|item rest IH]; intros st H; simpl in H.
  - injection H as <-. reflexivity.
  - destruct (update_product_stock uid _ _ st) as [e|[u st1]] eqn:E; [discriminate|].
    rewrite (IH _ H).
    apply update_product_stock_inv in E.
    destruct E as [[-> _]|(_ & _ & _ & ->)]; [reflexivity|].
    simpl. apply forget_stock_restock.
Qed.

Lemma tables_of_frame uid data cartItems st stage st' :
  tables_of uid data cartItems st stage st' ->
  profiles st' = profiles st
  /\ (exists os, orders st' = orders st ++ os /\ (length os <= 1)%nat)
  /\ (exists ls, order_items st' = order_items st ++ ls
                 /\ (ls = [] \/ length ls = length cartItems))
  /\ map forget_stock (products st') = map forget_stock (products st)
  /\ (cart_items st' = cart_items st
      \/ cart_items st'
         = List.filter (fun r => negb (String.eqb (CartRow.user_id r) uid)) (cart_items st)).
Proof.
  assert (Hlen : length (lines_of uid data cartItems st) = length cartItems).
  { unfold lines_of, orderItems_of.
    generalize (S (next_uuid st)). induction cartItems as [|x l IH]; intros n; simpl;
      [reflexivity|]. f_equal. apply IH. }
  assert (Hstock : forall items st3,
            apply_stock uid items (with_lines uid data cartItems st) = inr st3 ->
            profiles st3 = profiles st
            /\ orders st3 = orders st ++ [order_of uid data cartItems st]
            /\ order_items st3 = order_items st ++ lines_of uid data cartItems st
            /\ map forget_stock (products st3) = map forget_stock (products st)
            /\ cart_items st3 = cart_items st).
  { intros items st3 H. pose proof (apply_stock_fields _ _ _ _ H) as Hf.
    apply apply_stock_frame in H. destruct H as (H1 & H2 & H3 & H4 & _).
    rewrite H1, H2, H3, H4, Hf. repeat split; reflexivity. }
  destruct stage as [| |k|[|]]; simpl; intros H.
  - subst st'. split; [reflexivity|].
    split; [exists []; rewrite app_nil_r; split; [reflexivity|simpl; lia]|].
    split; [exists []; rewrite app_nil_r; auto|]. auto.
  - subst st'. simpl. split; [reflexivity|].
    split; [eexists; split; [reflexivity|simpl; lia]|].
    split; [exists []; rewrite app_nil_r; auto|]. auto.
  - destruct H as [_ H]. destruct (Hstock _ _ H) as (H1 & H2 & H3 & H4 & H5).
    split; [exact H1|].
    split; [eexists; split; [exact H2|simpl; lia]|].
    split; [eexists; split; [exact H3|right; exact Hlen]|]. auto.
  - destruct H as (st3 & H & ->). destruct (Hstock _ _ H) as (H1 & H2 & H3 & H4 & H5).
    simpl. split; [exact H1|].
    split; [eexists; split; [exact H2|simpl; lia]|].
    split; [eexists; split; [exact H3|right; exact Hlen]|].
    split; [exact H4|]. right. rewrite H5. reflexivity.
  - destruct (Hstock _ _ H) as (H1 & H2 & H3 & H4 & H5).
    split; [exact H1|].
    split; [eexists; split; [exact H2|simpl; lia]|].
    split; [eexists; split; [exact H3|right; exact Hlen]|]. auto.
Qed.

(** X18.  What a checkout leaves alone, however it ends.  It changes
    no profile; it adds at most one order and either no line or one
    line per entry, after the rows that were there; of a product it
    changes nothing but the stock; it touches no cart row of another
    user, and the cart rows of the user are either all kept or all
    deleted. *)
Theorem handleCheckout_leaves_alone s uid data cartItems w :
  user s = Some uid -> isSupabaseConfigured s = true ->
  let st := db w in
  let st' := db (snd (handleCheckout s data cartItems w)) in
  profiles st' = profiles st
  /\ (exists os, orders st' = orders st ++ os /\ (length os <= 1)%nat)
  /\ (exists ls, order_items st' = order_items st ++ ls
                 /\ (ls = [] \/ length ls = length cartItems))
  /\ map forget_stock (products st') = map forget_stock (products st)
  /\ (forall other, other <> uid -> rows_of_user st' other = rows_of_user st other)
  /\ (rows_of_user st' uid = rows_of_user st uid \/ rows_of_user st' uid = []).
Proof.
  intros Hu Hc. cbv zeta.
  destruct (handleCheckout_stage s uid data cartItems w Hu Hc)
    as (stage & _ & _ & _ & Htables).
  apply tables_of_frame in Htables.
  destruct Htables as (H1 & H2 & H3 & H4 & H5).
  repeat (split; [assumption|]). unfold rows_of_user. split.
  - intros other Hne. destruct H5 as [->| ->]; [reflexivity|].
    apply other_user_filter with (uid := uid); [exact Hne|].
    intros r Hr. apply negb_false_iff in Hr. apply String.eqb_eq. exact Hr.
  - destruct H5 as [->| ->]; [left; reflexivity|right; apply rows_of_user_deleted].
Qed.

Example handleCheckout_leaves_alone_witness :
  let cart := [headphones_entry "admin-1" 2; watch_entry "admin-1" 1] in
  let w := world_of (store_with_cart "admin-1" 2 1) in
  map Product.price (products (db (snd (handleCheckout administrator sample_form cart w))))
  = map Product.price (products (db w)).
Proof.
  intros cart w.
  destruct (handleCheckout_leaves_alone administrator "admin-1" sample_form cart w
              eq_refl eq_refl)
    as (_ & _ & _ & Hfields & _).
  apply (f_equal (map Product.price)) in Hfields.
  rewrite !map_map in Hfields. exact Hfields.
Defined.

(** ** The order and its lines, for any cart *)

Lemma number_order_items_length n ls : length (number_order_items n ls) = length ls.
Proof.
  revert n. induction ls as [|l ls IH]; intros n; simpl; [reflexivity|].
  f_equal. apply IH.
Qed.

Lemma lines_of_order n order cartItems :
  Forall (fun l => OrderItem.order_id l = Order.id order)
         (number_order_items n (orderItems_of order cartItems)).
Proof.
  revert n. induction cartItems as [|x l IH]; intros n; simpl; constructor.
  - reflexivity.
  - apply IH.
Qed.

(** X19.  The order of a checkout and its lines agree, whatever the
    cart holds.  When every call of a checkout succeeds, the store has
    one more order - of the user, confirmed and paid, with the total of
    the cart state and the address of the form - and one more line per
    entry of the cart state, and the prices times quantities of these
    lines add up to the total of the order.  The e-mail address of the
    form takes no part: with another address the checkout makes the
    same calls and leaves the same store. *)
Theorem handleCheckout_order_matches_lines s uid data cartItems w :
  user s = Some uid -> isSupabaseConfigured s = true ->
  every_call_succeeded w (snd (handleCheckout s data cartItems w)) ->
  let st := db w in
  let st' := db (snd (handleCheckout s data cartItems w)) in
  (exists order lines,
      orders st' = orders st ++ [order]
      /\ order_items st' = order_items st ++ lines
      /\ Order.user_id order = uid
      /\ Order.status order = Confirmed /\ Order.payment_status order = Paid
      /\ Order.shipping_address order = shipping_of data
      /\ Order.total_amount order = cartTotal cartItems
      /\ length lines = length cartItems
      /\ Forall (fun l => OrderItem.order_id l = Order.id order) lines
      /\ lines_total lines = Order.total_amount order)
  /\ (forall email,
        handleCheckout s (with_email data email) cartItems w
        = handleCheckout s data cartItems w).
Proof.
  intros Hu Hc Hall. cbv zeta.
  destruct (handleCheckout_placed s uid data cartItems w Hu Hc Hall)
    as (_ & Horders & Hlines & _).
  split; [|intros email; reflexivity].
  eexists. eexists. split; [exact Horders|]. split; [exact Hlines|].
  repeat (split; [reflexivity|]).
  split.
  { rewrite number_order_items_length. unfold orderItems_of. apply length_map. }
  split.
  { apply lines_of_order. }
  apply lines_total_cartTotal.
Qed.

Example handleCheckout_order_matches_lines_witness :
  let cart := [headphones_entry "user-1" 2; watch_entry "user-1" 1] in
  let w := world_of (store_with_cart "user-1" 2 1) in
  exists order lines,
    orders (db (snd (handleCheckout customer sample_form cart w))) = [order]
    /\ order_items (db (snd (handleCheckout customer sample_form cart w))) = lines
    /\ lines_total lines = Order.total_amount order.
Proof.
  intros cart w.
  assert (Hall : every_call_succeeded w (snd (handleCheckout customer sample_form cart w)))
    by (apply every_call_succeeded_by_run; reflexivity).
  destruct (handleCheckout_order_matches_lines customer "user-1" sample_form cart w
              eq_refl eq_refl Hall)
    as [(order & lines & Ho & Hl & _ & _ & _ & _ & _ & _ & _ & Hsum) _].
  exists order, lines. split; [exact Ho|]. split; [exact Hl|exact Hsum].
Defined.

(** ** The catalog page *)

Lemma filter_sublist {A : Type} (f : A -> bool) l : sublist (List.filter f l) l.
Proof.
  induction l as [|x l IH]; simpl; [constructor|].
  destruct (f x); [apply sublist_skip|apply sublist_cons]; exact IH.
Qed.

Lemma firstn_all_short {A : Type} (n : nat) (l : list A) :
  (length l <= n)%nat -> firstn n l = l.
Proof.
  revert n. induction l as [|x l IH]; intros [|n] H; simpl in *; try reflexivity;
    [lia|]. f_equal. apply IH. lia.
Qed.

(** X20.  The featured products of the page are the first four
    featured products of the filtered list: at most four, each of them
    featured and in the filtered list, in the order of that list; all of
    the featured ones when there are no more than four; and none exactly
    when the filtered list has no featured product. *)
Theorem featuredProducts_first_four filteredProducts :
  (length (featuredProducts filteredProducts) <= 4)%nat
  /\ Forall (fun p => Product.is_featured p = true) (featuredProducts filteredProducts)
  /\ sublist (featuredProducts filteredProducts) filteredProducts
  /\ ((length (List.filter Product.is_featured filteredProducts) <= 4)%nat ->
      featuredProducts filteredProducts
      = List.filter Product.is_featured filteredProducts)
  /\ (featuredProducts filteredProducts = []
      <-> Forall (fun p => Product.is_featured p = false) filteredProducts).
Proof.
  unfold featuredProducts.
  split; [rewrite length_firstn; lia|].
  split.
  { apply Forall_take. apply List.Forall_forall. intros p Hp.
    apply List.filter_In in Hp. apply Hp. }
  split.
  { etransitivity; [apply sublist_take|apply filter_sublist]. }
  split; [apply firstn_all_short|].
  split.
  - intros H. apply List.Forall_forall. intros p Hp.
    destruct (Product.is_featured p) eqn:E; [|reflexivity]. exfalso.
    assert (Hin : In p (List.filter Product.is_featured filteredProducts))
      by (apply List.filter_In; split; assumption).
    destruct (List.filter Product.is_featured filteredProducts) as [|x l];
      [exact Hin|]. simpl in H. discriminate.
  - intros F. induction F as [|p l Hp F IH]; simpl; [reflexivity|].
    rewrite Hp. exact IH.
Qed.

Lemma kept_by_code_split toLowerCase searchQuery selectedCategory p :
  kept_by_code toLowerCase searchQuery selectedCategory p
  = kept_by_code toLowerCase searchQuery None p
    && kept_by_code toLowerCase [] selectedCategory p.
Proof.
  unfold kept_by_code. simpl. rewrite andb_true_r. reflexivity.
Qed.

(** X21.  How [filterProducts] composes.  Its result is a sub-list of
    the products, in their order; filtering the parts of a list and
    putting the results together is filtering the list; filtering a
    result again with the same query and category changes nothing; and
    the search and the category can be applied one after the other, in
    either order, with the result of applying both. *)
Theorem filterProducts_composes toLowerCase products more searchQuery selectedCategory :
  let filterProducts := filterProducts toLowerCase in
  sublist (filterProducts products searchQuery selectedCategory) products
  /\ filterProducts (products ++ more) searchQuery selectedCategory
     = filterProducts products searchQuery selectedCategory
       ++ filterProducts more searchQuery selectedCategory
  /\ filterProducts (filterProducts products searchQuery selectedCategory)
       searchQuery selectedCategory
     = filterProducts products searchQuery selectedCategory
  /\ filterProducts (filterProducts products searchQuery None) [] selectedCategory
     = filterProducts products searchQuery selectedCategory
  /\ filterProducts (filterProducts products [] selectedCategory) searchQuery None
     = filterProducts products searchQuery selectedCategory.
Proof.
  cbv zeta. rewrite !filterProducts_one_pass.
  split; [apply filter_sublist|].
  split; [apply List.filter_app|].
  split.
  { rewrite filter_filter. apply List.filter_ext. intros p. apply andb_diag. }
  split.
  - rewrite filter_filter. apply List.filter_ext. intros p.
    symmetry. apply kept_by_code_split.
  - rewrite filter_filter. apply List.filter_ext. intros p.
    rewrite (kept_by_code_split toLowerCase searchQuery selectedCategory).
    apply andb_comm.
Qed.

(** X22.  The sections of the page and the filter read the search box
    differently.  The hero and the featured section are rendered only
    over the unfiltered catalog: whenever one of them is shown,
    [filterProducts] has kept every product, the heading is "All
    Products", the featured products are those of the whole catalog and
    "View All Products" is not offered.  The converse fails for a query
    of white space alone: the filter keeps every product while the
    heading reads "Search Results for" the query and the hero and the
    featured section are hidden. *)
Theorem page_sections toLowerCase products searchQuery selectedCategory :
  let filterProducts := filterProducts toLowerCase in
  let filteredProducts := filterProducts products searchQuery selectedCategory in
  (hero_shown searchQuery selectedCategory = true ->
     filteredProducts = products
     /\ heading searchQuery selectedCategory = AllProducts
     /\ featuredProducts filteredProducts = featuredProducts products
     /\ view_all_offered searchQuery selectedCategory filteredProducts = false)
  /\ (featured_shown searchQuery selectedCategory filteredProducts = true ->
      hero_shown searchQuery selectedCategory = true
      /\ exists p, In p products /\ Product.is_featured p = true)
  /\ (searchQuery <> [] -> trim searchQuery = [] ->
      filterProducts products searchQuery None = products
      /\ heading searchQuery None = SearchResultsFor searchQuery
      /\ hero_shown searchQuery None = false
      /\ featured_shown searchQuery None products = false).
Proof.
  cbv zeta.
  assert (Hhero : hero_shown searchQuery selectedCategory = true ->
                  searchQuery = [] /\ selected selectedCategory = false).
  { unfold hero_shown. intros H. apply andb_true_iff in H. destruct H as [Hq Hc].
    apply negb_true_iff in Hq, Hc. split; [|exact Hc].
    destruct searchQuery; [reflexivity|discriminate]. }
  assert (Hfull : searchQuery = [] -> selected selectedCategory = false ->
                  filterProducts toLowerCase products searchQuery selectedCategory
                  = products).
  { intros -> Hc. unfold filterProducts. simpl.
    destruct selectedCategory as [c|]; [|reflexivity].
    simpl in Hc. rewrite Hc. reflexivity. }
  split; [|split].
  - intros H. destruct (Hhero H) as [Hq Hc]. rewrite (Hfull Hq Hc).
    split; [reflexivity|]. split; [|split; [reflexivity|]].
    + unfold heading. rewrite Hq. simpl.
      destruct selectedCategory as [c|]; [|reflexivity].
      simpl in Hc. rewrite Hc. reflexivity.
    + unfold view_all_offered. rewrite Hq, Hc. simpl. apply andb_false_r.
  - intros H. unfold featured_shown in H. apply andb_true_iff in H.
    destruct H as [H Hlen]. fold (hero_shown searchQuery selectedCategory) in H.
    split; [exact H|]. destruct (Hhero H) as [Hq Hc]. rewrite (Hfull Hq Hc) in Hlen.
    apply Nat.ltb_lt in Hlen. unfold featuredProducts in Hlen.
    destruct (List.filter Product.is_featured products) as [|p l] eqn:E;
      [simpl in Hlen; lia|].
    exists p. apply List.filter_In. rewrite E. left. reflexivity.
  - intros Hne Hblank.
    assert (Ht : truthy_text searchQuery = true)
      by (apply truthy_text_nonempty; exact Hne).
    split; [unfold filterProducts; rewrite Hblank; reflexivity|].
    split; [unfold heading; rewrite Ht; reflexivity|].
    split; [unfold hero_shown; rewrite Ht; reflexivity|].
    unfold featured_shown. rewrite Ht. reflexivity.
Qed.

Example page_sections_witness :
  filterProducts toLowerCase_ascii (products sample_store) (js " ") None
  = products sample_store
  /\ heading (js " ") None = SearchResultsFor (js " ")
  /\ hero_shown (js " ") None = false
  /\ hero_shown [] None = true.
Proof.
  destruct (page_sections toLowerCase_ascii (products sample_store) (js " ") None)
    as (_ & _ & Hblank).
  destruct Hblank as (H1 & H2 & H3 & _); [discriminate|reflexivity|].
  split; [exact H1|]. split; [exact H2|]. split; [exact H3|reflexivity].
Defined.

(** ** When the store accepts a change of the cart *)

Lemma request_reachable_ok {A : Type} t v (q : Store -> Response (A * Store)) w :
  reachable w ->
  response_ok (fst (request t v q w)) = response_ok (q (db w)).
Proof.
  intros Hr. destruct (request t v q w) as [r w1] eqn:E.
  destruct (request_reachable _ _ _ _ _ _ Hr E) as [_ Hwhy].
  apply request_inv in E. destruct E as (_ & _ & _ & Q). simpl.
  destruct r as [e|a].
  - rewrite (Hwhy e eq_refl). reflexivity.
  - destruct Q as [_ ->]. reflexivity.
Qed.

Lemma one_call_succeeded {A : Type} t v (q : Store -> Response (A * Store)) w w' :
  reachable w ->
  calls w' = calls (snd (request t v q w)) ->
  every_call_succeeded w w' <-> response_ok (q (db w)) = true.
Proof.
  intros Hr Hcalls. rewrite <- (request_reachable_ok t v q w Hr).
  destruct (request t v q w) as [r w1] eqn:E. simpl in *.
  apply request_inv in E. destruct E as (C & _). rewrite C in Hcalls.
  unfold every_call_succeeded. rewrite (new_calls_app _ _ _ Hcalls). split.
  - intros F. inversion F; subst. assumption.
  - intros H. constructor; [exact H|constructor].
Qed.

Lemma upsert_cart_item_ok uid pid q st :
  response_ok (upsert_cart_item uid pid q st) = true
  <-> 0 < q <= integer_max /\ find_product st pid <> None /\ rows_of st uid pid = [].
Proof.
  unfold upsert_cart_item.
  destruct (Z.ltb_spec 0 q) as [Hq|Hq]; simpl;
    [|split; [discriminate|intros [H _]; lia]].
  destruct (Z.ltb_spec integer_max q) as [Hmax|Hmax];
    [split; [discriminate|intros [H _]; lia]|].
  destruct (find_product st pid) as [p|]; simpl;
    [|split; [discriminate|intros (_ & H & _); congruence]].
  destruct (List.find (cart_row_of uid pid) (cart_items st)) as [r|] eqn:F; simpl.
  - split; [discriminate|]. intros (_ & _ & Hrows). exfalso.
    apply List.find_some in F. destruct F as [Hin Hr].
    assert (Hin' : In r (rows_of st uid pid))
      by (unfold rows_of; apply List.filter_In; split; assumption).
    rewrite Hrows in Hin'. exact Hin'.
  - unfold gen_random_uuid. simpl. split; [|reflexivity]. intros _.
    split; [lia|]. split; [discriminate|].
    unfold rows_of. destruct (List.filter (cart_row_of uid pid) (cart_items st))
      as [|r rest] eqn:E; [reflexivity|]. exfalso.
    assert (Hin : In r (List.filter (cart_row_of uid pid) (cart_items st)))
      by (rewrite E; left; reflexivity).
    apply List.filter_In in Hin. destruct Hin as [Hin Hr].
    pose proof (List.find_none _ _ F r Hin) as Hno. congruence.
Qed.

Lemma update_cart_quantity_ok uid pid q st :
  0 < q ->
  response_ok (update_cart_quantity uid pid q st) = true
  <-> q <= integer_max
      /\ (exists r, rows_of st uid pid = [r]) /\ find_product st pid <> None.
Proof.
  intros Hq. unfold update_cart_quantity, rows_of.
  destruct (List.filter (cart_row_of uid pid) (cart_items st)) as [|r [|r' rest]]; simpl.
  - split; [discriminate|]. intros (_ & [r Hr] & _). discriminate.
  - replace (0 <? q) with true by (symmetry; apply Z.ltb_lt; exact Hq). simpl.
    destruct (Z.ltb_spec integer_max q) as [Hmax|Hmax];
      [split; [discriminate|intros [H _]; lia]|].
    destruct (find_product st pid); simpl.
    + split; [|reflexivity]. intros _. split; [exact Hmax|]. split; [eauto|discriminate].
    + split; [discriminate|]. intros (_ & _ & H). congruence.
  - split; [discriminate|]. intros (_ & [r0 Hr] & _). discriminate.
Qed.

(** X23.  When the store can be reached, what decides whether a change
    of the cart is accepted.  For a signed-in user [fetchCartItems],
    [removeFromCart] and [clearCart] always succeed; [addToCart]
    succeeds exactly when the quantity is positive and within type
    [integer], the product exists and the user has no cart row of the
    product yet; [updateQuantity] with a positive quantity succeeds
    exactly when the quantity is within type [integer] and the user has
    one cart row of the product.  The stock of the product plays no
    part. *)
Theorem cart_ledger_acceptance s uid productId quantity cartItems w :
  user s = Some uid -> isSupabaseConfigured s = true ->
  reachable w ->
  every_call_succeeded w (snd (fetchCartItems s cartItems w))
  /\ (every_call_succeeded w (snd (addToCart s productId quantity cartItems w))
      <-> 0 < quantity <= integer_max
          /\ find_product (db w) productId <> None
          /\ rows_of (db w) uid productId = [])
  /\ (0 < quantity ->
      (every_call_succeeded w (snd (updateQuantity s productId quantity cartItems w))
       <-> quantity <= integer_max
           /\ (exists r, rows_of (db w) uid productId = [r])
           /\ find_product (db w) productId <> None))
  /\ every_call_succeeded w (snd (removeFromCart s productId cartItems w))
  /\ every_call_succeeded w (snd (clearCart s cartItems w)).
Proof.
  intros Hu Hc Hr.
  assert (Hremove : every_call_succeeded w (snd (removeFromCart s productId cartItems w))).
  { destruct (removeFromCart_inv s uid productId cartItems w Hu Hc)
      as (r & w1 & E & _ & Hcalls & _).
    apply (one_call_succeeded T_cart_items Delete (delete_cart_item uid productId));
      [exact Hr|rewrite E; exact Hcalls|reflexivity]. }
  split.
  { apply (one_call_succeeded T_cart_items Select (select_cart uid));
      [exact Hr| |reflexivity].
    unfold fetchCartItems. rewrite Hu, Hc. unfold bind.
    destruct (request T_cart_items Select (select_cart uid) w) as [[e|data] w1];
      reflexivity. }
  split.
  { destruct (addToCart_inv s uid productId quantity cartItems w Hu Hc)
      as (r & w1 & E & _ & Hcalls & _).
    rewrite <- upsert_cart_item_ok.
    apply (one_call_succeeded T_cart_items Upsert);
      [exact Hr|rewrite E; exact Hcalls]. }
  split.
  { intros Hq.
    destruct (updateQuantity_inv s uid productId quantity cartItems w Hu Hc Hq)
      as (r & w1 & E & _ & Hcalls & _).
    rewrite <- (update_cart_quantity_ok uid productId quantity (db w) Hq).
    apply (one_call_succeeded T_cart_items Update);
      [exact Hr|rewrite E; exact Hcalls]. }
  split; [exact Hremove|].
  apply (one_call_succeeded T_cart_items Delete (delete_cart uid));
    [exact Hr| |reflexivity].
  unfold clearCart. rewrite Hu, Hc. unfold bind.
  destruct (request T_cart_items Delete (delete_cart uid) w) as [[e|u] w1];
    reflexivity.
Qed.

Example cart_ledger_acceptance_witness :
  let w := world_of (store_last_unit "user-1" 1) in
  let cart := [last_unit_entry "user-1" 1] in
  stock_of (db w) "prod-watch" = Some 30
  /\ every_call_succeeded w (snd (addToCart customer "prod-watch" 31 cart w))
  /\ stock_of (db w) "prod-headphones" = Some 1
  /\ every_call_succeeded w (snd (updateQuantity customer "prod-headphones" 50 cart w))
  /\ ~ every_call_succeeded w (snd (addToCart customer "prod-headphones" 1 cart w)).
Proof.
  intros w cart. split; [reflexivity|].
  destruct (cart_ledger_acceptance customer "user-1" "prod-watch" 31 cart w
              eq_refl eq_refl ltac:(constructor)) as (_ & Hadd & _).
  destruct (cart_ledger_acceptance customer "user-1" "prod-headphones" 50 cart w
              eq_refl eq_refl ltac:(constructor)) as (_ & _ & Hupdate & _).
  destruct (cart_ledger_acceptance customer "user-1" "prod-headphones" 1 cart w
              eq_refl eq_refl ltac:(constructor)) as (_ & Hheld & _).
  split.
  { apply Hadd. split; [unfold integer_max; lia|].
    split; [discriminate|reflexivity]. }
  split; [reflexivity|]. split.
  { apply Hupdate; [lia|]. split; [unfold integer_max; lia|].
    split; [eexists; reflexivity|discriminate]. }
  intros H. apply Hheld in H. destruct H as (_ & _ & Hrows). discriminate Hrows.
Defined.

(** ** The configuration *)

(** X24.  [isSupabaseConfigured()] holds exactly when the client
    exists, and exactly when both environment variables are set to a
    string that is not empty; the client is then the one created with
    these two strings.  So wherever the hooks go on after the guard
    [isSupabaseConfigured()], the client they use is there. *)
Theorem isSupabaseConfigured_iff_client env :
  (Config.isSupabaseConfigured env = true <-> Config.supabase env <> None)
  /\ (Config.isSupabaseConfigured env = true
      <-> exists url key,
            Config.VITE_SUPABASE_URL env = Some url /\ url <> ""
            /\ Config.VITE_SUPABASE_ANON_KEY env = Some key /\ key <> "")
  /\ (forall client, Config.supabase env = Some client ->
        Config.VITE_SUPABASE_URL env = Some (Config.client_url client)
        /\ Config.VITE_SUPABASE_ANON_KEY env = Some (Config.client_key client)).
Proof.
  assert (Hor : forall v, truthy (Config.or_empty v) = true
                          <-> exists s, v = Some s /\ s <> "").
  { intros [s|]; simpl.
    - destruct (truthy s) eqn:E.
      + rewrite E. split; [intros _; exists s; split; [reflexivity|]|reflexivity].
        apply truthy_nonempty. exact E.
      + split; [discriminate|]. intros (s' & H & Hne). injection H as <-.
        apply truthy_nonempty in Hne. congruence.
    - split; [discriminate|]. intros (s' & H & _). discriminate. }
  assert (Hval : forall v s, v = Some s -> s <> "" -> Config.or_empty v = s).
  { intros v s -> Hne. simpl. apply truthy_nonempty in Hne. rewrite Hne. reflexivity. }
  unfold Config.isSupabaseConfigured, Config.supabase,
    Config.supabaseUrl, Config.supabaseAnonKey.
  destruct (truthy (Config.or_empty (Config.VITE_SUPABASE_URL env))) eqn:Eu;
    destruct (truthy (Config.or_empty (Config.VITE_SUPABASE_ANON_KEY env))) eqn:Ek;
    simpl.
  - apply Hor in Eu, Ek. destruct Eu as (url & Hu & Hune), Ek as (key & Hk & Hkne).
    split; [split; [discriminate|reflexivity]|].
    split; [split; [intros _; exists url, key; auto|reflexivity]|].
    intros client H. injection H as <-. simpl.
    rewrite (Hval _ _ Hu Hune), (Hval _ _ Hk Hkne). auto.
  - split; [split; [discriminate|congruence]|].
    split; [|discriminate]. split; [discriminate|].
    intros (url & key & _ & _ & Hk & Hkne).
    assert (H : truthy (Config.or_empty (Config.VITE_SUPABASE_ANON_KEY env)) = true)
      by (apply Hor; eauto).
    congruence.
  - split; [split; [discriminate|congruence]|].
    split; [|discriminate]. split; [discriminate|].
    intros (url & key & Hu & Hune & _).
    assert (H : truthy (Config.or_empty (Config.VITE_SUPABASE_URL env)) = true)
      by (apply Hor; eauto).
    congruence.
  - split; [split; [discriminate|congruence]|].
    split; [|discriminate]. split; [discriminate|].
    intros (url & key & Hu & Hune & _).
    assert (H : truthy (Config.or_empty (Config.VITE_SUPABASE_URL env)) = true)
      by (apply Hor; eauto).
    congruence.
Qed.

(** ** The profile of the user *)

Lemma ask_inv {A : Type} v (q : Store -> Auth.Error + A * Store) w r w' :
  Auth.ask v q w = (r, w') ->
  Auth.down w' = tl (Auth.down w)
  /\ match r with
     | inl e =>
         Auth.store w' = Auth.store w
         /\ Auth.asked w' = Auth.asked w ++ [(v, false)]
         /\ ((e = Auth.Down /\ hd false (Auth.down w) = true)
             \/ (q (Auth.store w) = inl e /\ hd false (Auth.down w) = false))
     | inr a =>
         q (Auth.store w) = inr (a, Auth.store w')
         /\ Auth.asked w' = Auth.asked w ++ [(v, true)]
         /\ hd false (Auth.down w) = false
     end.
Proof.
  unfold Auth.ask.
  destruct (Auth.down w) as [|[|] rest] eqn:Hd; simpl.
  - destruct (q (Auth.store w)) as [e|[a st']] eqn:Q; intros H; inversion H; subst;
      simpl; auto 6.
  - intros H. inversion H; subst. simpl. auto 6.
  - destruct (q (Auth.store w)) as [e|[a st']] eqn:Q; intros H; inversion H; subst;
      simpl; auto 6.
Qed.

Lemma select_profile_inv userId st p st' :
  Auth.select_profile userId st = inr (p, st') ->
  st' = st /\ profiles_of st userId = [p].
Proof.
  unfold Auth.select_profile, profiles_of.
  destruct (List.filter _ (profiles st)) as [|p0 [|p1 rest]]; intros H;
    inversion H; subst. auto.
Qed.

Lemma insert_profile_inv auth_uid u st p st' :
  Auth.insert_profile auth_uid u st = inr (p, st') ->
  Auth.id u = auth_uid
  /\ profiles_of st auth_uid = []
  /\ (exists e, Auth.email u = Some e /\ Profile.email p = e)
  /\ Profile.id p = auth_uid
  /\ Profile.is_admin p = false
  /\ st' = set_profiles st (profiles st ++ [p]).
Proof.
  unfold Auth.insert_profile.
  destruct (Auth.email u) as [e|]; [|discriminate].
  destruct (String.eqb_spec (Auth.id u) auth_uid) as [Hid|]; simpl; [|discriminate].
  destruct (existsb _ (profiles st)) eqn:Ex; [discriminate|].
  intros H. inversion H; subst. simpl.
  split; [reflexivity|]. split; [|eauto 6].
  unfold profiles_of.
  destruct (List.filter _ (profiles st)) as [|p0 rest] eqn:F; [reflexivity|].
  assert (Hin : In p0 (List.filter (fun p => String.eqb (Profile.id p) (Auth.id u))
                         (profiles st))) by (rewrite F; left; reflexivity).
  apply List.filter_In in Hin. destruct Hin as [Hin Hp0].
  assert (Hex : existsb (fun p => String.eqb (Profile.id p) (Auth.id u)) (profiles st)
                = true) by (apply existsb_exists; eauto).
  congruence.
Qed.

Lemma is_admin_added st p uid :
  Profile.is_admin p = false ->
  is_admin (set_profiles st (profiles st ++ [p])) uid = is_admin st uid.
Proof.
  intros Hp. unfold is_admin. simpl. rewrite existsb_app. simpl.
  rewrite Hp, andb_false_r. simpl. apply orb_false_r.
Qed.

Lemma fetchProfile_roles userId current s w :
  let st := Auth.store w in
  let st' := Auth.store (snd (Auth.fetchProfile userId current s w)) in
  products st' = products st /\ forall uid, is_admin st' uid = is_admin st uid.
Proof.
  cbv zeta. unfold Auth.fetchProfile.
  destruct (Auth.ask Select (Auth.select_profile userId) w) as [r w1] eqn:E1.
  apply ask_inv in E1. destruct E1 as (_ & H1).
  destruct r as [e|data].
  - destruct H1 as (S1 & _).
    destruct e; try (simpl; rewrite S1; auto).
    destruct current as [u|]; [|simpl; rewrite S1; auto].
    destruct (Auth.ask Insert (Auth.insert_profile userId u) w1) as [r2 w2] eqn:E2.
    apply ask_inv in E2. destruct E2 as (_ & H2). simpl.
    destruct r2 as [e2|p].
    + destruct H2 as (S2 & _). rewrite S2, S1. auto.
    + destruct H2 as (Q2 & _). apply insert_profile_inv in Q2.
      destruct Q2 as (_ & _ & _ & _ & Hadm & ->). rewrite S1.
      split; [reflexivity|]. intros uid. apply is_admin_added. exact Hadm.
  - destruct H1 as (Q1 & _). apply select_profile_inv in Q1.
    destruct Q1 as [S1 _]. simpl. rewrite S1. auto.
Qed.

(** X25.  [fetchProfile] gives no one a role, whatever the store
    answers.  It ends with [loading] off; it leaves every table but
    [profiles] as it was and adds at most one row to [profiles], after
    the rows that were there - a row of the user, not an administrator -
    so that every identifier is an administrator after it exactly if it
    was before.  It asks once for the profile and, only after that call
    failed, at most once for an insert; after an outage of the first
    call the profile of the hook is the one it had. *)
Theorem fetchProfile_keeps_roles userId current s w :
  let s' := fst (Auth.fetchProfile userId current s w) in
  let st := Auth.store w in
  let st' := Auth.store (snd (Auth.fetchProfile userId current s w)) in
  Auth.loading s' = false
  /\ (exists added,
        st' = set_profiles st (profiles st ++ added)
        /\ (length added <= 1)%nat
        /\ Forall (fun p => Profile.id p = userId /\ Profile.is_admin p = false) added)
  /\ (forall uid, is_admin st' uid = is_admin st uid)
  /\ (exists ok rest,
        Auth.asked (snd (Auth.fetchProfile userId current s w))
        = Auth.asked w ++ (Select, ok) :: rest
        /\ (rest = [] \/ (ok = false /\ exists ok', rest = [(Insert, ok')])))
  /\ (hd false (Auth.down w) = true -> Auth.profile s' = Auth.profile s).
Proof.
  cbv zeta. unfold Auth.fetchProfile.
  assert (Hsame : forall st, st = set_profiles st (profiles st ++ []))
    by (intros st; rewrite app_nil_r; destruct st; reflexivity).
  destruct (Auth.ask Select (Auth.select_profile userId) w) as [r w1] eqn:E1.
  apply ask_inv in E1. destruct E1 as (D1 & H1).
  destruct r as [e|data].
  - destruct H1 as (S1 & A1 & Hwhy).
    assert (Hkept :
      Auth.loading {| Auth.profile := Auth.profile s; Auth.loading := false |} = false
      /\ (exists added,
            Auth.store w1 = set_profiles (Auth.store w) (profiles (Auth.store w) ++ added)
            /\ (length added <= 1)%nat
            /\ Forall (fun p => Profile.id p = userId /\ Profile.is_admin p = false) added)
      /\ (forall uid, is_admin (Auth.store w1) uid = is_admin (Auth.store w) uid)
      /\ (exists ok rest,
            Auth.asked w1 = Auth.asked w ++ (Select, ok) :: rest
            /\ (rest = [] \/ (ok = false /\ exists ok', rest = [(Insert, ok')])))
      /\ (hd false (Auth.down w) = true ->
          Auth.profile {| Auth.profile := Auth.profile s; Auth.loading := false |}
          = Auth.profile s)).
    { split; [reflexivity|]. rewrite S1.
      split; [exists []; split; [apply Hsame|split; [simpl; lia|constructor]]|].
      split; [reflexivity|]. split; [|reflexivity].
      exists false, []. auto. }
    destruct e; try exact Hkept.
    destruct current as [u|]; [|exact Hkept].
    destruct (Auth.ask Insert (Auth.insert_profile userId u) w1) as [r2 w2] eqn:E2.
    apply ask_inv in E2. destruct E2 as (D2 & H2). simpl.
    split; [reflexivity|].
    assert (Hnot_down : hd false (Auth.down w) = true -> False).
    { destruct Hwhy as [[Hd _]|[_ Hd]]; [discriminate|congruence]. }
    destruct r2 as [e2|p].
    + destruct H2 as (S2 & A2 & _). rewrite S2, S1.
      split; [exists []; split; [apply Hsame|split; [simpl; lia|constructor]]|].
      split; [reflexivity|]. split; [|intros H; destruct (Hnot_down H)].
      exists false, [(Insert, false)]. rewrite A2, A1, <- app_assoc. split; [reflexivity|].
      right. eauto.
    + destruct H2 as (Q2 & A2 & _). rewrite S1 in Q2.
      apply insert_profile_inv in Q2. destruct Q2 as (_ & _ & _ & Hid & Hadm & ->).
      split; [exists [p]; split; [reflexivity|split; [simpl; lia|repeat constructor; assumption]]|].
      split; [intros uid; apply is_admin_added; exact Hadm|].
      split; [|intros H; destruct (Hnot_down H)].
      exists false, [(Insert, true)]. rewrite A2, A1, <- app_assoc. split; [reflexivity|].
      right. eauto.
  - destruct H1 as (Q1 & A1 & Hd). apply select_profile_inv in Q1.
    destruct Q1 as [S1 _]. simpl. rewrite S1.
    split; [reflexivity|].
    split; [exists []; split; [apply Hsame|split; [simpl; lia|constructor]]|].
    split; [reflexivity|]. split; [|intros H; congruence].
    exists true, []. auto.
Qed.


Lemma NoDup_snoc {A : Type} (l : list A) x :
  List.NoDup l -> ~ In x l -> List.NoDup (l ++ [x]).
Proof.
  induction l as [|y l IH]; simpl; intros N Hx.
  - constructor; [intros []|constructor].
  - apply List.NoDup_cons_iff in N. destruct N as [Hy N].
    constructor.
    + rewrite in_app_iff. simpl. intros [H|[H|[]]]; [exact (Hy H)|].
      apply Hx. left. symmetry. exact H.
    + apply IH; [exact N|]. intros H. apply Hx. right. exact H.
Qed.

Lemma keyed_at_most_one st uid p0 p1 rest :
  profiles_keyed st ->
  List.filter (fun p => String.eqb (Profile.id p) uid) (profiles st) = p0 :: p1 :: rest ->
  False.
Proof.
  unfold profiles_keyed.
  induction (profiles st) as [|x l IH]; simpl; intros Hkey F; [discriminate|].
  apply List.NoDup_cons_iff in Hkey. destruct Hkey as [Hnotin Hkey'].
  destruct (String.eqb_spec (Profile.id x) uid) as [Hx|Hx].
  - injection F as _ F. apply Hnotin.
    assert (Hin : In p1 (List.filter (fun p => String.eqb (Profile.id p) uid) l))
      by (rewrite F; left; reflexivity).
    apply List.filter_In in Hin. destruct Hin as [Hin Hp1].
    apply String.eqb_eq in Hp1. rewrite Hx, <- Hp1. apply in_map. exact Hin.
  - exact (IH Hkey' F).
Qed.

(** X26.  [fetchProfile] finds the profile of the user or creates it,
    when the store can be reached and [getUser()] gives the user of the
    session with an e-mail address.  The hook ends with a profile of the
    user, and table [profiles] - which holds no identifier twice, before
    and after - holds exactly this row for the user.  Either the row was
    there: the store is unchanged after one call.  Or it was not: the
    row is new, with the e-mail address of the user, not an
    administrator, after two calls.  Calling [fetchProfile] again finds
    this row and changes nothing. *)
Theorem fetchProfile_finds_or_creates userId u e s w :
  Forall (fun d => d = false) (Auth.down w) ->
  Auth.id u = userId -> Auth.email u = Some e ->
  profiles_keyed (Auth.store w) ->
  let run := Auth.fetchProfile userId (Some u) s w in
  let st := Auth.store w in
  let st' := Auth.store (snd run) in
  exists p,
    Auth.profile (fst run) = Some p
    /\ Profile.id p = userId
    /\ profiles_of st' userId = [p]
    /\ profiles_keyed st'
    /\ ((profiles_of st userId = [p] /\ st' = st
         /\ Auth.asked (snd run) = Auth.asked w ++ [(Select, true)])
        \/ (profiles_of st userId = []
            /\ st' = set_profiles st (profiles st ++ [p])
            /\ Profile.email p = e /\ Profile.is_admin p = false
            /\ Auth.asked (snd run) = Auth.asked w ++ [(Select, false); (Insert, true)]))
    /\ forall s2, Auth.fetchProfile userId (Some u) s2 (snd run)
                  = ({| Auth.profile := Some p; Auth.loading := false |},
                     {| Auth.store := st'; Auth.down := tl (Auth.down (snd run));
                        Auth.asked := Auth.asked (snd run) ++ [(Select, true)] |}).
Proof.
  intros Hr Hid He Hkey. cbv zeta.
  assert (Hagain : forall p w1 s2,
            profiles_of (Auth.store w1) userId = [p] ->
            Forall (fun d => d = false) (Auth.down w1) ->
            Auth.fetchProfile userId (Some u) s2 w1
            = ({| Auth.profile := Some p; Auth.loading := false |},
               {| Auth.store := Auth.store w1; Auth.down := tl (Auth.down w1);
                  Auth.asked := Auth.asked w1 ++ [(Select, true)] |})).
  { intros p w1 s2 Hp Hr1. unfold Auth.fetchProfile, Auth.ask, Auth.select_profile.
    unfold profiles_of in Hp. rewrite Hp.
    destruct (Auth.down w1) as [|[|] rest]; try reflexivity.
    inversion Hr1; subst. discriminate. }
  assert (Hhd : forall w1, Forall (fun d => d = false) (Auth.down w1) ->
                           hd false (Auth.down w1) = false).
  { intros w1 F. destruct F; [reflexivity|assumption]. }
  assert (Htl : forall w1, Forall (fun d => d = false) (Auth.down w1) ->
                           Forall (fun d => d = false) (tl (Auth.down w1))).
  { intros w1 F. destruct F; [constructor|assumption]. }
  unfold Auth.fetchProfile.
  destruct (Auth.ask Select (Auth.select_profile userId) w) as [r w1] eqn:E1.
  apply ask_inv in E1. destruct E1 as (D1 & H1).
  destruct r as [err|data].
  - destruct H1 as (S1 & A1 & [[_ Hd]|[Q1 _]]);
      [rewrite (Hhd w Hr) in Hd; discriminate|].
    assert (Herr : err = Auth.PGRST116
                   /\ profiles_of (Auth.store w) userId = []).
    { unfold Auth.select_profile in Q1. unfold profiles_of.
      destruct (List.filter _ (profiles (Auth.store w))) as [|p0 [|p1 rest]] eqn:F;
        [injection Q1 as <-; auto|discriminate|].
      exfalso. exact (keyed_at_most_one _ _ _ _ _ Hkey F). }
    destruct Herr as [-> Hnone].
    destruct (Auth.ask Insert (Auth.insert_profile userId u) w1) as [r2 w2] eqn:E2.
    apply ask_inv in E2. destruct E2 as (D2 & H2).
    assert (Hr1 : Forall (fun d => d = false) (Auth.down w1))
      by (rewrite D1; apply Htl; exact Hr).
    assert (Hins : exists p,
              Auth.insert_profile userId u (Auth.store w1)
              = inr (p, set_profiles (Auth.store w) (profiles (Auth.store w) ++ [p]))
              /\ Profile.id p = userId /\ Profile.email p = e
              /\ Profile.is_admin p = false).
    { unfold Auth.insert_profile. rewrite He, Hid, String.eqb_refl, S1. simpl.
      assert (Hex : existsb (fun p => String.eqb (Profile.id p) userId)
                      (profiles (Auth.store w)) = false).
      { apply not_true_is_false. intros Hex. apply existsb_exists in Hex.
        destruct Hex as (p0 & Hin & Hp0).
        assert (Hf : In p0 (profiles_of (Auth.store w) userId))
          by (apply List.filter_In; auto).
        rewrite Hnone in Hf. exact Hf. }
      rewrite Hex. eexists. split; [reflexivity|]. simpl. auto. }
    destruct Hins as (p & Hins & Hpid & Hpe & Hpa).
    destruct r2 as [e2|p'].
    + destruct H2 as (_ & _ & [[_ Hd]|[Q2 _]]);
        [rewrite (Hhd w1 Hr1) in Hd; discriminate|congruence].
    + destruct H2 as (Q2 & A2 & _). rewrite Hins in Q2. injection Q2 as <- S2.
      simpl. exists p. split; [reflexivity|]. split; [exact Hpid|].
      assert (Hrows : profiles_of (Auth.store w2) userId = [p]).
      { rewrite <- S2. unfold profiles_of. simpl. rewrite List.filter_app.
        unfold profiles_of in Hnone. rewrite Hnone. simpl.
        rewrite Hpid, String.eqb_refl. reflexivity. }
      split; [exact Hrows|]. split.
      { rewrite <- S2. unfold profiles_keyed. simpl. rewrite map_app. simpl.
        apply NoDup_snoc; [exact Hkey|].
        intros Hx. apply in_map_iff in Hx.
        destruct Hx as (p0 & Hp0 & Hin).
        assert (Hf : In p0 (profiles_of (Auth.store w) userId)).
        { apply List.filter_In. split; [exact Hin|]. apply String.eqb_eq. congruence. }
        rewrite Hnone in Hf. exact Hf. }
      split.
      { right. split; [exact Hnone|]. split; [symmetry; exact S2|].
        split; [exact Hpe|]. split; [exact Hpa|].
        rewrite A2, A1, <- app_assoc. reflexivity. }
      intros s2. apply Hagain; [exact Hrows|]. rewrite D2. apply Htl. exact Hr1.
  - destruct H1 as (Q1 & A1 & _). apply select_profile_inv in Q1.
    destruct Q1 as [S1 Hrows]. simpl. exists data.
    split; [reflexivity|].
    assert (Hdid : Profile.id data = userId).
    { assert (Hin : In data (profiles_of (Auth.store w) userId))
        by (rewrite Hrows; left; reflexivity).
      apply List.filter_In in Hin. apply String.eqb_eq. apply Hin. }
    split; [exact Hdid|]. rewrite S1.
    split; [exact Hrows|]. split; [exact Hkey|].
    split; [left; auto|].
    intros s2. rewrite <- S1. apply Hagain; [rewrite S1; exact Hrows|].
    rewrite D1. apply Htl. exact Hr.
Qed.

Example fetchProfile_finds_or_creates_witness :
  let w := auth_world_of sample_store in
  let run := Auth.fetchProfile "user-2" (Some newcomer) signed_in_loading w in
  exists p,
    Auth.profile (fst run) = Some p
    /\ Profile.is_admin p = false
    /\ profiles_of (Auth.store (snd run)) "user-2" = [p].
Proof.
  intros w run.
  assert (Hkey : profiles_keyed (Auth.store w)).
  { unfold profiles_keyed. simpl. repeat constructor; simpl; intuition discriminate. }
  destruct (fetchProfile_finds_or_creates "user-2" newcomer "new@shop.test"
              signed_in_loading w ltac:(constructor) eq_refl eq_refl Hkey)
    as (p & Hp & _ & Hrows & _ & [(Hthere & _)|(_ & _ & _ & Hadm & _)] & _).
  - discriminate.
  - exists p. split; [exact Hp|]. split; [exact Hadm|exact Hrows].
Defined.

(** X27.  Signing in makes no one able to write stock.  A user who is
    no administrator before [fetchProfile] - with a profile or without
    one - is none after it; so a checkout of this user on the store that
    [fetchProfile] leaves, every call of which succeeds, places the
    order and leaves table [products] as it was. *)
Theorem checkout_after_fetchProfile userId current s0 aw sess data cartItems w :
  user sess = Some userId -> isSupabaseConfigured sess = true ->
  is_admin (Auth.store aw) userId = false ->
  db w = Auth.store (snd (Auth.fetchProfile userId current s0 aw)) ->
  every_call_succeeded w (snd (handleCheckout sess data cartItems w)) ->
  fst (handleCheckout sess data cartItems w) = (OrderPlaced, [])
  /\ products (db (snd (handleCheckout sess data cartItems w)))
     = products (Auth.store aw).
Proof.
  intros Hu Hc Ha Hdb Hall.
  destruct (fetchProfile_roles userId current s0 aw) as [Hst Hroles].
  assert (Ha' : is_admin (db w) userId = false) by (rewrite Hdb, Hroles; exact Ha).
  destruct (handleCheckout_placed sess userId data cartItems w Hu Hc Hall)
    as (Hres & _ & _ & _ & _ & Hproducts & _).
  split; [exact Hres|]. rewrite (Hproducts Ha'), Hdb, Hst. reflexivity.
Qed.

Example checkout_after_fetchProfile_witness :
  let aw := auth_world_of (store_last_unit "user-2" 2) in
  let st := Auth.store (snd (Auth.fetchProfile "user-2" (Some newcomer)
                               signed_in_loading aw)) in
  let sess := {| user := Some "user-2"; isSupabaseConfigured := true |} in
  let run := handleCheckout sess sample_form [last_unit_entry "user-2" 2] (world_of st) in
  fst run = (OrderPlaced, [])
  /\ stock_of (db (snd run)) "prod-headphones" = Some 1.
Proof.
  intros aw st sess run.
  assert (Hall : every_call_succeeded (world_of st) (snd run))
    by (apply every_call_succeeded_by_run; reflexivity).
  destruct (checkout_after_fetchProfile "user-2" (Some newcomer) signed_in_loading aw
              sess sample_form [last_unit_entry "user-2" 2] (world_of st)
              eq_refl eq_refl eq_refl eq_refl Hall)
    as [Hres Hproducts].
  split; [exact Hres|]. unfold stock_of, find_product.
  fold run in Hproducts. rewrite Hproducts. reflexivity.
Defined.

(** ** The cart when the user changes *)

(** X28.  What the effect of the cart hook does for a signed-in user
    when the user changes.  If the store answers, the cart state is what
    the store holds for this user, whatever the state was before: every
    entry is of this user and comes from a row of table [cart_items],
    and on a store whose cart rows all reference a product the entries
    are the rows of the user, each once, in some order.  If the store
    answers with an error, the cart state stays what it was - the
    entries of the session before included - and the user gets no
    notification.  In both cases the store is not changed and one read
    is made. *)
Theorem useCart_effect_on_user_change s uid cartItems w :
  user s = Some uid -> isSupabaseConfigured s = true ->
  let run := useCart_effect s cartItems w in
  (every_call_succeeded w (snd run) ->
     Forall (fun item => CartItem.user_id item = uid
                         /\ In (row_of item) (cart_items (db w))) (fst run)
     /\ (products_referenced (db w) ->
         Permutation (map row_of (fst run)) (rows_of_user (db w) uid)))
  /\ (store_reported_error w (snd run) -> fst run = cartItems)
  /\ db (snd run) = db w
  /\ toasts (snd run) = toasts w
  /\ exists ok, new_calls w (snd run) = [call T_cart_items Select ok].
Proof.
  intros Hu Hc run. subst run. unfold useCart_effect. rewrite Hu, Hc.
  destruct (fetchCartItems_inv s uid cartItems w Hu Hc) as (c & Hcalls & Hdb & Ht & Hres).
  assert (Hc' : c = call T_cart_items Select (call_ok c)).
  { unfold fetchCartItems in Hcalls. rewrite Hu, Hc in Hcalls. unfold bind in Hcalls.
    destruct (request T_cart_items Select (select_cart uid) w) as [r w1] eqn:E.
    apply request_inv in E. destruct E as (C & _).
    assert (Hw1 : calls w1 = calls w ++ [c]) by (destruct r; exact Hcalls).
    rewrite C in Hw1. apply app_inv_head in Hw1. injection Hw1 as <-. reflexivity. }
  split; [|split; [|split; [exact Hdb|split; [exact Ht|]]]].
  - intros Hall. pose proof (single_call_ok _ _ _ Hcalls Hall) as Hok.
    rewrite Hres, Hok. split.
    + eapply List.Forall_impl; [|apply cart_of_items].
      intros item (Hid & Hin & _). split; assumption.
    + intros Href. pose proof (cart_of_mirrors (db w) uid Href) as Hm.
      unfold mirrors in Hm. rewrite Hm. apply Permutation_refl.
  - intros Herr. unfold store_reported_error in Herr.
    rewrite (new_calls_app _ _ _ Hcalls) in Herr.
    inversion Herr as [? ? Hbad|? ? Hbad]; subst; [|inversion Hbad].
    rewrite Hres, Hbad. reflexivity.
  - exists (call_ok c). rewrite (new_calls_app _ _ _ Hcalls), <- Hc'. reflexivity.
Qed.

Example useCart_effect_on_user_change_witness :
  let cart := [headphones_entry "admin-1" 2] in
  let w := world_of (store_with_cart "user-1" 2 1) in
  let down := world_down (store_with_cart "user-1" 2 1) in
  Forall (fun item => CartItem.user_id item = "user-1") (fst (useCart_effect customer cart w))
  /\ length (fst (useCart_effect customer cart w)) = 2%nat
  /\ fst (useCart_effect customer cart down) = cart.
Proof.
  intros cart w down.
  destruct (useCart_effect_on_user_change customer "user-1" cart w eq_refl eq_refl)
    as (Hloaded & _).
  destruct (useCart_effect_on_user_change customer "user-1" cart down eq_refl eq_refl)
    as (_ & Hkept & _).
  destruct Hloaded as [Hown Hrows].
  { apply every_call_succeeded_by_run. reflexivity. }
  split; [eapply List.Forall_impl; [|exact Hown]; intros item H; apply H|].
  split.
  - assert (Href : products_referenced (db w))
      by (unfold products_referenced; simpl; repeat constructor; discriminate).
    rewrite <- (length_map row_of), (Permutation_length (Hrows Href)). reflexivity.
  - apply Hkept. apply store_reported_error_by_run. reflexivity.
Defined.

(** ** The stock on the product card *)

(** X29.  The stock on the product card.  The two stock labels are
    never shown together; with a stock that is not negative, none is
    shown exactly when more than five are left.  For a signed-in user
    the button "Add to Cart" is disabled exactly when "Out of stock" is
    shown; a visitor finds it disabled always.  This is the only place
    where the stock is looked at before a product enters the cart: the
    handler of the button passes the identifier of the product and
    nothing else. *)
Theorem product_card_stock s product :
  (only_left_shown product && out_of_stock_shown product = false)
  /\ (0 <= Product.stock_quantity product ->
      (only_left_shown product || out_of_stock_shown product = false
       <-> 5 < Product.stock_quantity product))
  /\ (user s <> None -> add_disabled s product = out_of_stock_shown product)
  /\ (user s = None -> add_disabled s product = true)
  /\ (forall other cartItems w,
        Product.id other = Product.id product ->
        handleAddToCart s other cartItems w = handleAddToCart s product cartItems w).
Proof.
  unfold only_left_shown, out_of_stock_shown, add_disabled, handleAddToCart.
  split; [|split; [|split; [|split]]].
  - destruct (Z.eqb_spec (Product.stock_quantity product) 0) as [->|_];
      [reflexivity|apply andb_false_r].
  - intros Hs. rewrite orb_false_iff, andb_false_iff, Z.leb_gt, Z.ltb_ge, Z.eqb_neq. lia.
  - destruct (user s); [reflexivity|congruence].
  - intros ->. reflexivity.
  - intros other cartItems w ->. reflexivity.
Qed.
